(** * Blossom: Slack routing, signature verification and formatting helpers

    A shallow embedding of [api/views/slack_helpers.py],
    [api/slack/commands/info.py] and [blossom/api/slack/commands/watchstatus.py],
    with the properties their specification states about them.

    Conventions of the embedding.
    - A Python [str] is a Rocq [string] whose characters are the code points
      U+0000 to U+00FF; whitespace, letters, digits and case follow Python's
      tables on that range.  A [bytes] value is a [string] of its bytes.
      The one character of the sources beyond that range, the capital gamma
      of the info command, is written as its two UTF-8 bytes.
    - A Python exception is a value of [exn]; a call that may raise returns a
      [result].  Code that talks to the record store or to Slack runs in the
      state monad [M] over a [World].
    - A Python [float] is a primitive binary64 float.
    - Memory is not modelled: no operation fails for want of it.
    - Collaborators outside the repository sources (the i18n table, the HMAC
      primitive, the joke service, the serializers) are Section variables. *)

From Stdlib Require Import ZArith NArith Ascii String List Bool Lia.
From Stdlib Require Import DecimalString DecimalPos.
From Stdlib Require Import PrimFloat FloatOps SpecFloat.
From stdpp Require Import base option gmap.
Import ListNotations.

Set Warnings "-register-all,-inexact-float".

Local Open Scope Z_scope.
Local Open Scope string_scope.
Local Open Scope list_scope.

(* ================================================================= *)
(** ** Exceptions and results *)

Inductive exn : Type :=
| KeyError | ValueError | TypeError | IndexError | AttributeError
| OverflowError | UnicodeDecodeError | UnicodeEncodeError
| DoesNotExist.

Inductive result (A : Type) : Type :=
| Ok (a : A)
| Raise (e : exn).
Arguments Ok {A} a.
Arguments Raise {A} e.

Definition rbind {A B} (r : result A) (k : A -> result B) : result B :=
  match r with
  | Ok a => k a
  | Raise e => Raise e
  end.

Declare Scope result_scope.
Delimit Scope result_scope with result.
Notation "x <-- c ; k" := (rbind c (fun x => k))
  (at level 20, c at level 100, k at level 200, only parsing) : result_scope.

(* ================================================================= *)
(** ** Python strings *)

Module Str.

Definition code (c : ascii) : N := N_of_ascii c.

Definition between (lo hi : N) (c : ascii) : bool :=
  (N.leb lo (code c) && N.leb (code c) hi)%bool.

Definition isupper (c : ascii) : bool := between 65 90 c.
Definition islower (c : ascii) : bool := between 97 122 c.
Definition isdigit (c : ascii) : bool := between 48 57 c.

(** [str.isspace]: TAB, LF, VT, FF, CR, FS, GS, RS, US, SPACE, and beyond
    ASCII NEL (U+0085) and the no-break space (U+00A0). *)
Definition isspace (c : ascii) : bool :=
  (between 9 13 c || between 28 32 c
   || N.eqb (code c) 133 || N.eqb (code c) 160)%bool.

(** The capital letters beyond ASCII, U+00C0 to U+00DE without the
    multiplication sign, and the small ones that have a capital in the range,
    U+00E0 to U+00FE without the division sign. *)
Definition isupper_latin (c : ascii) : bool :=
  (between 192 222 c && negb (N.eqb (code c) 215))%bool.
Definition islower_latin (c : ascii) : bool :=
  (between 224 254 c && negb (N.eqb (code c) 247))%bool.

(** [str.isalnum] beyond ASCII: the letters, the ordinal indicators, the
    micro sign, the superscript digits and the vulgar fractions. *)
Definition isalnum_latin (c : ascii) : bool :=
  (N.eqb (code c) 170 || N.eqb (code c) 178 || N.eqb (code c) 179
   || N.eqb (code c) 181 || N.eqb (code c) 185 || N.eqb (code c) 186
   || between 188 190 c || between 192 214 c || between 216 246 c
   || between 248 255 c)%bool.

Definition lower_char (c : ascii) : ascii :=
  if (isupper c || isupper_latin c)%bool then ascii_of_N (code c + 32) else c.

(** The capital of a character: the sharp s becomes two letters; the micro
    sign and the y with diaeresis, whose capitals lie beyond U+00FF, are kept
    as they are. *)
Definition upper_char (c : ascii) : string :=
  if (islower c || islower_latin c)%bool
  then String (ascii_of_N (code c - 32)) EmptyString
  else if N.eqb (code c) 223 then "SS"
  else String c EmptyString.

Fixpoint map (f : ascii -> ascii) (s : string) : string :=
  match s with
  | EmptyString => EmptyString
  | String c s' => String (f c) (map f s')
  end.

(** [s.lower()] and [s.upper()] *)
Definition lower (s : string) : string := map lower_char s.
Fixpoint upper (s : string) : string :=
  match s with
  | EmptyString => EmptyString
  | String c s' => upper_char c ++ upper s'
  end.

(** [s[:n]] and [s[n:]] for [0 <= n] *)
Fixpoint take (n : nat) (s : string) : string :=
  match n, s with
  | S n', String c s' => String c (take n' s')
  | _, _ => EmptyString
  end.
Fixpoint drop (n : nat) (s : string) : string :=
  match n, s with
  | S n', String _ s' => drop n' s'
  | _, _ => s
  end.

(** [s.startswith(p)] *)
Fixpoint startswith (s p : string) : bool :=
  match p, s with
  | EmptyString, _ => true
  | String a p', String b s' => (Ascii.eqb a b && startswith s' p')%bool
  | String _ _, EmptyString => false
  end.

(** [p in s] *)
Fixpoint contains (p s : string) : bool :=
  (startswith s p ||
   match s with
   | EmptyString => false
   | String _ s' => contains p s'
   end)%bool.

(** [s.index(c)] for a one-character needle: the position of the first
    occurrence, [ValueError] when there is none. *)
Fixpoint index_from (c : ascii) (i : nat) (s : string) : result nat :=
  match s with
  | EmptyString => Raise ValueError
  | String a s' => if Ascii.eqb a c then Ok i else index_from c (S i) s'
  end.
Definition index (c : ascii) (s : string) : result nat := index_from c 0 s.

Definition snoc (s : string) (c : ascii) : string := s ++ String c EmptyString.

(** [s.split()]: maximal runs of non-whitespace characters. *)
Fixpoint split_ws_from (cur : string) (s : string) : list string :=
  match s with
  | EmptyString => match cur with EmptyString => [] | _ => [cur] end
  | String c s' =>
      if isspace c
      then match cur with
           | EmptyString => split_ws_from EmptyString s'
           | _ => cur :: split_ws_from EmptyString s'
           end
      else split_ws_from (snoc cur c) s'
  end.
Definition split (s : string) : list string := split_ws_from EmptyString s.

(** [s.split(sep)] for a one-character separator: empty fields are kept. *)
Fixpoint split_on_from (sep : ascii) (cur : string) (s : string) : list string :=
  match s with
  | EmptyString => [cur]
  | String c s' =>
      if Ascii.eqb c sep
      then cur :: split_on_from sep EmptyString s'
      else split_on_from sep (snoc cur c) s'
  end.
Definition split_on (sep : ascii) (s : string) : list string :=
  split_on_from sep EmptyString s.

(** [sep.join(l)] *)
Fixpoint join (sep : string) (l : list string) : string :=
  match l with
  | [] => EmptyString
  | [x] => x
  | x :: l' => x ++ sep ++ join sep l'
  end.

(** [c * n] *)
Fixpoint repeat (c : ascii) (n : nat) : string :=
  match n with
  | O => EmptyString
  | S n' => String c (repeat c n')
  end.

Definition is_ascii (s : string) : bool :=
  forallb (fun c => N.ltb (code c) 128) (list_ascii_of_string s).

(** [str(n)] for an [int] *)
Definition of_Z (z : Z) : string := NilZero.string_of_int (Z.to_int z).

End Str.

(** [int(s)]: optional surrounding whitespace, an optional sign, then decimal
    digits in which single underscores may separate digits. *)
Module PyInt.

(** The whitespace [int] skips.  It turns the whitespace beyond ASCII into
    spaces, leaves the ASCII characters as they are and then skips what C's
    [isspace] accepts: TAB, LF, VT, FF, CR and SPACE, NEL and the no-break
    space, but not the separators FS, GS, RS and US. *)
Definition isspace (c : ascii) : bool :=
  (Str.between 9 13 c || N.eqb (Str.code c) 32
   || N.eqb (Str.code c) 133 || N.eqb (Str.code c) 160)%bool.

Fixpoint strip_left (s : string) : string :=
  match s with
  | String c s' => if isspace c then strip_left s' else s
  | EmptyString => s
  end.

(** [sys.int_max_str_digits], at its default: a literal of more digits is
    refused. *)
Definition max_str_digits : nat := 4300.

Definition finish (count : nat) (acc : Z) : option Z :=
  if Nat.leb count max_str_digits then Some acc else None.

(** Digits of [s] accumulated into [acc], [count] of them so far; [prev]
    tells whether the previous character was a digit (an underscore must
    stand between two digits).  Trailing whitespace ends the literal. *)
Fixpoint digits (prev : bool) (count : nat) (acc : Z) (s : string) : option Z :=
  match s with
  | EmptyString => if prev then finish count acc else None
  | String c s' =>
      if Str.isdigit c
      then digits true (S count) (10 * acc + Z.of_N (Str.code c - 48)) s'
      else if Ascii.eqb c "_"
      then if prev
           then match s' with
                | String d _ =>
                    if Str.isdigit d then digits false count acc s' else None
                | EmptyString => None
                end
           else None
      else if isspace c
      then if prev
           then match strip_left s' with
                | EmptyString => finish count acc
                | _ => None
                end
           else None
      else None
  end.

Definition parse (s : string) : option Z :=
  match strip_left s with
  | String "-" s' => option_map Z.opp (digits false 0 0 s')
  | String "+" s' => digits false 0 0 s'
  | s' => digits false 0 0 s'
  end.

Definition int (s : string) : result Z :=
  match parse s with
  | Some z => Ok z
  | None => Raise ValueError
  end.

End PyInt.

(* ================================================================= *)
(** ** JSON payloads as Python objects *)

Inductive json : Type :=
| JNull
| JBool (b : bool)
| JNum (z : Z)
| JStr (s : string)
| JArr (l : list json)
| JObj (fields : list (string * json)).

Module Py.

Fixpoint assoc {A} (k : string) (l : list (string * A)) : option A :=
  match l with
  | [] => None
  | (k', v) :: l' => if String.eqb k k' then Some v else assoc k l'
  end.

(** [d.get(k)] on a [dict] *)
Definition dict_get (d : list (string * json)) (k : string) : json :=
  match assoc k d with
  | Some v => v
  | None => JNull
  end.

(** [x.get(k)]: only a [dict] has the method. *)
Definition get (x : json) (k : string) : result json :=
  match x with
  | JObj d => Ok (dict_get d k)
  | _ => Raise AttributeError
  end.

(** [x[k]] for a string key *)
Definition item (x : json) (k : string) : result json :=
  match x with
  | JObj d => match assoc k d with
              | Some v => Ok v
              | None => Raise KeyError
              end
  | _ => Raise TypeError
  end.

(** [x[0]] *)
Definition first (x : json) : result json :=
  match x with
  | JArr (v :: _) => Ok v
  | JArr [] => Raise IndexError
  | JStr (String c _) => Ok (JStr (String c EmptyString))
  | JStr EmptyString => Raise IndexError
  | JObj _ => Raise KeyError
  | _ => Raise TypeError
  end.

(** Truth value of an object, as [not x] tests it. *)
Definition truthy (x : json) : bool :=
  match x with
  | JNull => false
  | JBool b => b
  | JNum z => negb (Z.eqb z 0)
  | JStr s => negb (String.eqb s EmptyString)
  | JArr l => match l with [] => false | _ => true end
  | JObj d => match d with [] => false | _ => true end
  end.

(** [x == s] for a string literal [s] *)
Definition eq_str (x : json) (s : string) : bool :=
  match x with
  | JStr t => String.eqb t s
  | _ => false
  end.

End Py.

(* ================================================================= *)
(** ** Regular expressions, as Python's backtracking matcher runs them *)

Module Re.

Inductive regex : Type :=
| Char (p : ascii -> bool)        (* a literal or a character class *)
| Cat (r1 r2 : regex)             (* r1 r2 *)
| Opt (r : regex)                 (* r?  greedy *)
| Star (r : regex)                (* r*  greedy *)
| Plus (r : regex)                (* r+  greedy *)
| Group (r : regex).              (* ( r )  the capture group *)

(** A capture is a span of absolute positions. *)
Definition capture : Type := option (nat * nat).

(** What a successful match reports: its end and the capture group. *)
Definition outcome : Type := (nat * capture)%type.

Definition cont : Type := nat -> string -> capture -> option outcome.

(** Greedy iteration: try one more round of [step] first, and the rest of the
    pattern only when that fails.  A round that consumes nothing is given up. *)
Fixpoint star_loop (step : nat -> string -> capture -> cont -> option outcome)
    (fuel : nat) (pos : nat) (s : string) (cap : capture) (k : cont)
    : option outcome :=
  match fuel with
  | O => k pos s cap
  | S fuel' =>
      match step pos s cap
              (fun pos' s' cap' =>
                 if Nat.eqb pos' pos then None
                 else star_loop step fuel' pos' s' cap' k) with
      | Some x => Some x
      | None => k pos s cap
      end
  end.

(** [run r fuel pos s cap k]: match [r] against [s], the text from position
    [pos] on, and hand what is left to the continuation [k]; alternatives
    are tried in priority order and the first success is the answer. *)
Fixpoint run (r : regex) (fuel : nat) (pos : nat) (s : string) (cap : capture)
    (k : cont) {struct r} : option outcome :=
  match r with
  | Char p =>
      match s with
      | String c s' => if p c then k (S pos) s' cap else None
      | EmptyString => None
      end
  | Cat r1 r2 =>
      run r1 fuel pos s cap (fun pos' s' cap' => run r2 fuel pos' s' cap' k)
  | Opt r1 =>
      match run r1 fuel pos s cap k with
      | Some x => Some x
      | None => k pos s cap
      end
  | Star r1 =>
      star_loop (fun p' s' c' k' => run r1 fuel p' s' c' k') fuel pos s cap k
  | Plus r1 =>
      run r1 fuel pos s cap
        (fun pos' s' cap' =>
           star_loop (fun p' s' c' k' => run r1 fuel p' s' c' k') fuel pos' s' cap' k)
  | Group r1 =>
      run r1 fuel pos s cap (fun pos' s' _ => k pos' s' (Some (pos, pos')))
  end.

(** [pattern.match] anchored at position [pos], where [s] is the text from
    [pos] on. *)
Definition match_at (r : regex) (pos : nat) (s : string) : option outcome :=
  run r (S (String.length s)) pos s None (fun e _ cap => Some (e, cap)).

(** A match object: [start()], [end()] and [groups()[0]]. *)
Record matchobj : Type := MatchObj {
  m_start : nat;
  m_end : nat;
  m_group : string
}.

Definition group_text (text : string) (cap : capture) : string :=
  match cap with
  | Some (a, b) => Str.take (b - a) (Str.drop a text)
  | None => EmptyString
  end.

(** The scan of [re.finditer]: leftmost matches, none overlapping; after a
    match the scan resumes at its end ([skip] counts the characters still
    inside the last match). *)
Fixpoint scan (r : regex) (text : string) (skip : nat) (pos : nat) (s : string)
    : list matchobj :=
  match s with
  | EmptyString => []
  | String _ s' =>
      match skip with
      | S skip' => scan r text skip' (S pos) s'
      | O =>
          match match_at r pos s with
          | Some (e, cap) =>
              MatchObj pos e (group_text text cap)
                :: scan r text (e - pos - 1) (S pos) s'
          | None => scan r text O (S pos) s'
          end
      end
  end.

Definition finditer (r : regex) (text : string) : list matchobj :=
  scan r text O O text.

(** Character classes *)
Definition lit (c : ascii) : regex := Char (Ascii.eqb c).
Definition word (c : ascii) : bool :=
  (Str.isupper c || Str.islower c || Str.isdigit c || Str.isalnum_latin c
   || Ascii.eqb c "_")%bool.
Definition word_or_dash (c : ascii) : bool := (word c || Ascii.eqb c "-")%bool.
Definition nonspace (c : ascii) : bool := negb (Str.isspace c).
Definition not_gt (c : ascii) : bool := negb (Ascii.eqb c ">").

Fixpoint cat (l : list regex) (last : regex) : regex :=
  match l with
  | [] => last
  | r :: l' => Cat r (cat l' last)
  end.

End Re.

Import Re.

(** The compiled pattern, piece by piece:
    [<]  [(?:https?://)?]  [[\w-]+]  [(?:\.[\w-]+)+]  [\.?]  [(?::\d+)?]
    an optional [/] followed by any number of [\S]  [\|]  [([^>]+)]  [>] *)
Definition SLACK_TEXT_EXTRACTOR : regex :=
  cat [ lit "<";
        Opt (cat [lit "h"; lit "t"; lit "t"; lit "p"; Opt (lit "s"); lit ":"; lit "/"]
                 (lit "/"));
        Plus (Char word_or_dash);
        Plus (Cat (lit ".") (Plus (Char word_or_dash)));
        Opt (lit ".");
        Opt (Cat (lit ":") (Plus (Char Str.isdigit)));
        Opt (Cat (lit "/") (Star (Char nonspace)));
        lit "|";
        Group (Plus (Char not_gt)) ]
      (lit ">").

(** One replacement of the loop: [text[:start] + groups()[0] + text[end:]]. *)
Definition replace_match (text : string) (m : matchobj) : string :=
  Str.take (m_start m) text ++ m_group m ++ Str.drop (m_end m) text.

(** Strip link out of auto-generated slack fancy URLS and return the text only. *)
Definition clean_links (text : string) : string :=
  let results := finditer SLACK_TEXT_EXTRACTOR text in
  (* we'll replace things going backwards so that we don't mess up indexing *)
  let results := rev results in
  fold_left replace_match results text.

(* ================================================================= *)
(** ** The table formatter *)

(** Values of the dictionaries that are rendered: a scalar or a list. *)
Inductive atom : Type :=
| ANone
| AStr (s : string)
| AInt (z : Z)
| ABool (b : bool).

Inductive dval : Type :=
| Scalar (a : atom)
| Items (l : list atom).

(** [str(x)] *)
Definition str_of_atom (a : atom) : string :=
  match a with
  | ANone => "None"
  | AStr s => s
  | AInt z => Str.of_Z z
  | ABool true => "True"
  | ABool false => "False"
  end.

Module Format.

(** [format(s, "<w")]: pad on the right with spaces up to [w] characters. *)
Definition ljust (w : nat) (s : string) : string :=
  s ++ Str.repeat " " (w - String.length s).

Fixpoint number (acc : N) (ds : string) : option N :=
  match ds with
  | EmptyString => Some acc
  | String c ds' =>
      if Str.isdigit c
      then number (10 * acc + (Str.code c - 48)) ds'
      else None
  end.

(** The largest width a format specifier may carry: the largest size of a
    64-bit build. *)
Definition max_width : N := 2 ^ 63 - 1.

(** A replacement field [{:<w}]; the widths written here come from [str] of
    a non-zero [int], so a sign and too many digits are the malformed cases
    that can occur. *)
Definition apply_spec (spec : string) (arg : string) : result string :=
  match spec with
  | EmptyString => Ok arg
  | String ":" (String "<" EmptyString) => Ok arg
  | String ":" (String "<" ds) =>
      match number 0 ds with
      | Some w =>
          if N.leb w max_width then Ok (ljust (N.to_nat w) arg)
          else Raise ValueError
      | None => Raise ValueError
      end
  | _ => Raise ValueError
  end.

(** [template.format( *args )] with automatically numbered fields and no
    brace escapes; [field] holds the text of the field being read. *)
Fixpoint format_from (t : string) (field : option string) (args : list string)
    : result string :=
  match t, field with
  | EmptyString, None => Ok EmptyString
  | EmptyString, Some _ => Raise ValueError
  | String c t', None =>
      if Ascii.eqb c "{" then format_from t' (Some EmptyString) args
      else if Ascii.eqb c "}" then Raise ValueError
      else (r <-- format_from t' None args; Ok (String c r))%result
  | String c t', Some spec =>
      if Ascii.eqb c "}"
      then match args with
           | [] => Raise IndexError
           | a :: args' =>
               (x <-- apply_spec spec a;
                r <-- format_from t' None args';
                Ok (x ++ r)%string)%result
           end
      else format_from t' (Some (Str.snoc spec c)) args
  end.

Definition format (t : string) (args : list string) : result string :=
  format_from t None args.

End Format.

(** [max(keys, key=len)]: the first key of maximal length. *)
Fixpoint max_by_len (best : string) (keys : list string) : string :=
  match keys with
  | [] => best
  | k :: keys' =>
      max_by_len (if Nat.ltb (String.length best) (String.length k) then k else best)
                 keys'
  end.

Definition py_max_len (keys : list string) : result string :=
  match keys with
  | [] => Raise ValueError
  | k :: keys' => Ok (max_by_len k keys')
  end.

(** The loop that builds the format string, one column per title. *)
Fixpoint build_formatting (n : nat) (width : Z) (formatting : string) : string :=
  match n with
  | O => formatting
  | S n' =>
      build_formatting n' width
        (formatting ++ "{:<" ++ Str.of_Z width ++ "}" ++ " | ")
  end.

Fixpoint mapM {A B} (f : A -> result B) (l : list A) : result (list B) :=
  match l with
  | [] => Ok []
  | a :: l' => (b <-- f a; bs <-- mapM f l'; Ok (b :: bs))%result
  end.

(** Take a dictionary and make it into a tab-separated table. *)
Definition dict_to_table (dictionary : list (string * dval))
    (titles : option (list string)) (width : option Z) : result (list string) :=
  let titles :=
    match titles with
    | None | Some [] => ["Key"; "Value"]
    | Some t => t
    end in
  (width <--
     match width with
     | None | Some 0 =>
         (k <-- py_max_len (List.map fst dictionary);
          Ok (Z.of_nat (String.length k) + 2))%result
     | Some w => Ok w
     end;
   let formatting := build_formatting (List.length titles) width EmptyString in
   (* trim off that last separator *)
   let formatting := Str.take (String.length formatting - 3) formatting in
   header <-- Format.format formatting titles;
   let rule := Str.repeat "-" (Z.to_nat (width * Z.of_nat (List.length titles))) in
   rows <-- mapM (fun '(key, value) =>
                    let sv :=
                      match value with
                      | Items l => List.map str_of_atom l
                      | Scalar a => [str_of_atom a]
                      end in
                    Format.format formatting [key; Str.join ", " sv])
                 dictionary;
   Ok (header :: rule :: rows))%result.

(* ================================================================= *)
(** ** Python floats *)

Module PyFloat.

(** [float(z)]: the nearest binary64 number, ties to even; [OverflowError]
    when [z] is too large for a float. *)
Definition of_int (z : Z) : result float :=
  match binary_normalize prec emax z 0 false with
  | S754_infinity _ => Raise OverflowError
  | sf => Ok (SF2Prim sf)
  end.

(** [p / q] on two [int]s with [0 < q]: the correctly rounded quotient.  The
    quotient is computed with three spare bits, the last one sticky. *)
Definition true_div (p q : Z) : float :=
  let a := Z.abs p in
  if Z.eqb a 0 then 0%float
  else
    let k := Z.max 0 (56 + Z.log2 q - Z.log2 a) in
    let n := a * 2 ^ k in
    let m := 2 * (n / q) + (if Z.eqb (n mod q) 0 then 0 else 1) in
    SF2Prim (binary_normalize prec emax (if Z.ltb p 0 then - m else m) (- k - 1) false).

(** [round(p / q)] to an integer, ties to even, for [0 < q] and [0 <= p]. *)
Definition round_half_even (p q : Z) : Z :=
  let d := p / q in
  let r := p mod q in
  if Z.ltb (2 * r) q then d
  else if Z.ltb q (2 * r) then d + 1
  else if Z.even d then d else d + 1.

Definition zero_pad (w : nat) (s : string) : string :=
  Str.repeat "0" (w - String.length s) ++ s.

(** The decimal digits of [n / 10^digits] with [digits] decimals. *)
Definition fixed (digits : nat) (n : Z) : string :=
  let scale := 10 ^ Z.of_nat digits in
  match digits with
  | O => Str.of_Z n
  | _ => Str.of_Z (n / scale) ++ "." ++ zero_pad digits (Str.of_Z (n mod scale))
  end.

(** [format(x, ".<digits>f")]: the exact binary value of [x], rounded to
    [digits] decimals, ties to even. *)
Definition format_f (digits : nat) (x : float) : string :=
  let scale := 10 ^ Z.of_nat digits in
  match Prim2SF x with
  | S754_nan => "nan"
  | S754_infinity s => if s then "-inf" else "inf"
  | S754_zero s => (if s then "-" else "") ++ fixed digits 0
  | S754_finite s m e =>
      let n := if Z.leb 0 e
               then Z.pos m * 2 ^ e * scale
               else round_half_even (Z.pos m * scale) (2 ^ (- e)) in
      (if s then "-" else "") ++ fixed digits n
  end.

End PyFloat.

(* ================================================================= *)
(** ** Dates and durations *)

(** An aware [datetime] is an instant, in microseconds since the epoch, with
    the offset of its own clock from UTC, in microseconds; a [timedelta] is a
    number of microseconds. *)
Record datetime : Type := mkDatetime {
  instant : Z;
  utcoffset : Z
}.
Definition timedelta : Type := Z.

Module Date.

Definition us_per_day : Z := 86400 * 1000000.

(** [time.date().isoformat()] in the proleptic Gregorian calendar. *)
Definition civil (days : Z) : Z * Z * Z :=
  let z := days + 719468 in
  let era := z / 146097 in
  let doe := z - era * 146097 in
  let yoe := (doe - doe / 1460 + doe / 36524 - doe / 146096) / 365 in
  let doy := doe - (365 * yoe + yoe / 4 - yoe / 100) in
  let mp := (5 * doy + 2) / 153 in
  let d := doy - (153 * mp + 2) / 5 + 1 in
  let m := if Z.ltb mp 10 then mp + 3 else mp - 9 in
  let y := yoe + era * 400 + (if Z.leb m 2 then 1 else 0) in
  (y, m, d).

(** [t.date()]: the day on the clock of [t] itself, counted from the epoch. *)
Definition date (t : datetime) : Z := (instant t + utcoffset t) / us_per_day.

(** [d.isoformat()] for a date *)
Definition isoformat (day : Z) : string :=
  let '(y, m, d) := civil day in
  PyFloat.zero_pad 4 (Str.of_Z y) ++ "-" ++ PyFloat.zero_pad 2 (Str.of_Z m)
    ++ "-" ++ PyFloat.zero_pad 2 (Str.of_Z d).

(** [a - b] and [a >= b] on two aware datetimes compare the instants;
    [a - d] for a duration [d] stays on the clock of [a]. *)
Definition sub (a b : datetime) : timedelta := instant a - instant b.
Definition geb (a b : datetime) : bool := Z.geb (instant a) (instant b).
Definition minus (a : datetime) (d : timedelta) : datetime :=
  mkDatetime (instant a - d) (utcoffset a).

(** The instant [t] on the UTC clock *)
Definition utc (t : Z) : datetime := mkDatetime t 0.

(** [delta.total_seconds()] *)
Definition total_seconds (delta : timedelta) : float :=
  PyFloat.true_div delta 1000000.

Definition seconds (n : Z) : timedelta := n * 1000000.
Definition days (n : Z) : timedelta := n * us_per_day.

End Date.

(* ================================================================= *)
(** ** The relative-time formatter (api/slack/commands/info.py) *)

Local Open Scope float_scope.

(** Format the delta into a relative time string. *)
Definition _relative_duration (delta : timedelta) : string :=
  let seconds := PrimFloat.abs (Date.total_seconds delta) in
  let minutes := seconds / 60 in
  let hours := minutes / 60 in
  let days := hours / 24 in
  let weeks := days / 7 in
  let months := days / 30 in
  let years := days / 365 in
  (* Determine major time unit *)
  let '(value, unit) :=
    if 1 <=? years then (years, "year"%string)
    else if 1 <=? months then (months, "month"%string)
    else if 1 <=? weeks then (weeks, "week"%string)
    else if 1 <=? days then (days, "day"%string)
    else if 1 <=? hours then (hours, "hour"%string)
    else if 1 <=? minutes then (minutes, "min"%string)
    else if 5 <? seconds then (seconds, "sec"%string)
    else
      let duration_ms := seconds / 1000 in
      (duration_ms, "ms"%string) in
  if String.eqb unit "ms"
  then (PyFloat.format_f 0 value ++ " ms")%string
  else
    (* Add plural s if necessary *)
    let unit := if negb (value =? 1) then (unit ++ "s")%string else unit in
    (PyFloat.format_f 1 value ++ " " ++ unit)%string.

Local Close Scope float_scope.

(** Format the given time in absolute and relative strings; [now] is the
    reading of [timezone.now()]. *)
Definition _format_time (now : datetime) (time : option datetime) : option string :=
  match time with
  | None => None
  | Some time =>
      let absolute := Date.isoformat (Date.date time) in
      let relative_delta := Date.sub now time in
      let relative := _relative_duration relative_delta in
      if Date.geb now time
      then Some (absolute ++ " (" ++ relative ++ " ago)")%string
      else Some (absolute ++ " (in " ++ relative ++ ")")%string
  end.

(* ================================================================= *)
(** ** The record store, Slack and the state monad *)

Record BlossomUser : Type := mkUser {
  user_id : Z;
  username : string;
  blacklisted : bool;
  accepted_coc : bool;
  is_bot : bool;
  date_joined : datetime
}.

Record Submission : Type := mkSubmission {
  submission_id : Z;
  removed_from_queue : bool;
  approved : bool
}.

(** [user.blacklisted = b] and [user.accepted_coc = b] *)
Definition set_blacklisted (b : bool) (u : BlossomUser) : BlossomUser :=
  mkUser (user_id u) (username u) b (accepted_coc u) (is_bot u) (date_joined u).
Definition set_accepted_coc (b : bool) (u : BlossomUser) : BlossomUser :=
  mkUser (user_id u) (username u) (blacklisted u) b (is_bot u) (date_joined u).

(** A message text: a literal, an entry of the i18n table (named by its path
    of keys) with the arguments given to [format], or [str] of an object. *)
Inductive text : Type :=
| Lit (s : string)
| I18n (path : list string) (args : list text) (kwargs : list (string * text))
| StrOf (x : json).

(** [i18n["slack"][...]] *)
Definition i18n (path : list string) : text := I18n ("slack" :: path) [] [].

(** [template.format( *args, **kwargs )] *)
Definition format (template : text) (args : list text) (kwargs : list (string * text))
    : text :=
  match template with
  | I18n path _ _ => I18n path args kwargs
  | t => t
  end.

(** What leaves the process: calls of the Slack client, of [remove_post], and
    of [Submission.save]. *)
Inductive effect : Type :=
| chat_postMessage (channel : json) (msg : text) (link_names : bool)
| chat_update (channel : json) (ts : json) (blocks : json)
| remove_post (submission : Z)
| submission_save (submission : Z) (skip_extras : bool).

Record World : Type := mkWorld {
  users : list BlossomUser;             (* in primary-key order *)
  submissions : gmap Z Submission;
  effects : list effect                 (* oldest first *)
}.

Definition M (A : Type) : Type := World -> result A * World.

Definition ret {A} (a : A) : M A := fun w => (Ok a, w).
Definition raise {A} (e : exn) : M A := fun w => (Raise e, w).
Definition bind {A B} (m : M A) (k : A -> M B) : M B :=
  fun w => match m w with
           | (Ok a, w') => k a w'
           | (Raise e, w') => (Raise e, w')
           end.
Definition lift {A} (r : result A) : M A := fun w => (r, w).

Declare Scope monad_scope.
Delimit Scope monad_scope with M.
Notation "x <- c ; k" := (bind c (fun x => k))
  (at level 20, c at level 100, k at level 200, only parsing) : monad_scope.
Notation "' p <- c ; k" := (bind c (fun p => k))
  (at level 20, p pattern, c at level 100, k at level 200, only parsing) : monad_scope.

Definition emit (e : effect) : M unit :=
  fun w => (Ok tt, mkWorld (users w) (submissions w) (effects w ++ [e])).

Module client.
(** [client.chat_postMessage(channel=..., text=...)] *)
Definition post (channel : json) (msg : text) : M unit :=
  emit (chat_postMessage channel msg false).
End client.

Module Users.

(** [username__iexact] *)
Definition iexact (a b : string) : bool := String.eqb (Str.lower a) (Str.lower b).

(** [BlossomUser.objects.filter(username__iexact=name).first()] *)
Definition first_iexact (name : string) : M (option BlossomUser) :=
  fun w => (Ok (List.find (fun u => iexact (username u) name) (users w)), w).

(** [user.save()] *)
Definition save (u : BlossomUser) : M unit :=
  fun w =>
    (Ok tt,
     mkWorld (List.map (fun v => if Z.eqb (user_id v) (user_id u) then u else v) (users w))
             (submissions w) (effects w)).

End Users.

Module Submissions.

(** [Submission.objects.get(id=i)] *)
Definition get (i : Z) : M Submission :=
  fun w => match submissions w !! i with
           | Some s => (Ok s, w)
           | None => (Raise DoesNotExist, w)
           end.

(** [submission.save(skip_extras=...)] *)
Definition save (s : Submission) (skip_extras : bool) : M unit :=
  fun w =>
    (Ok tt,
     mkWorld (users w) (<[submission_id s := s]> (submissions w))
             (effects w ++ [submission_save (submission_id s) skip_extras])).

End Submissions.

Definition newline : string := String "010"%char EmptyString.

(* ================================================================= *)
(** ** Command handlers and the router (api/views/slack_helpers.py) *)

Section Handlers.

(** [Summary().generate_summary()] *)
Variable generate_summary : list (string * dval).
(** [VolunteerSerializer(user).data] *)
Variable VolunteerSerializer : BlossomUser -> list (string * dval).
(** The body of the reply of icanhazdadjoke.com, [None] when the request or
    its decoding raises. *)
Variable joke_service : option string.

Local Open Scope monad_scope.

(** Post a help message to slack. *)
Definition send_help_message (channel : json) (message : string) : M unit :=
  client.post channel (i18n ["help_message"]).

(** Send info about a user to slack. *)
Definition send_info (channel : json) (message : string) : M unit :=
  let parsed_message := Str.split message in
  match parsed_message with
  | [_] =>
      (* they just sent an empty info message, create a summary response *)
      let data := generate_summary in
      table <- lift (dict_to_table data None None) ;
      client.post channel
        (format (i18n ["server_summary"]) [Lit (Str.join newline table)] [])
  | [_; name] =>
      user <- Users.first_iexact name ;
      msg <- match user with
             | Some user =>
                 let v_data := VolunteerSerializer user in
                 table <- lift (dict_to_table v_data None None) ;
                 ret (format (i18n ["user_info"])
                             [Lit (username user); Lit (Str.join newline table)] [])
             | None => ret (i18n ["errors"; "no_user_by_that_name"])
             end ;
      client.post channel msg
  | _ => client.post channel (i18n ["errors"; "too_many_params"])
  end.

(** Blacklist a user based on a message from slack. *)
Definition process_blacklist (channel : json) (message : string) : M unit :=
  let parsed_message := Str.split message in
  msg <- match parsed_message with
         | [_] =>
             (* they didn't give a username *)
             ret (i18n ["errors"; "missing_username"])
         | [_; name] =>
             let username := clean_links name in
             user <- Users.first_iexact username ;
             match user with
             | Some user =>
                 if blacklisted user
                 then _ <- Users.save (set_blacklisted false user) ;
                      ret (format (i18n ["blacklist"; "success_undo"]) [Lit username] [])
                 else _ <- Users.save (set_blacklisted true user) ;
                      ret (format (i18n ["blacklist"; "success"]) [Lit username] [])
             | None => ret (i18n ["errors"; "unknown_username"])
             end
         | _ => ret (i18n ["errors"; "too_many_params"])
         end ;
  client.post channel msg.

(** Respond to pings. *)
Definition pong (channel : json) (message : string) : M unit :=
  client.post channel (Lit "PONG").

(** Reset the CoC status for a given volunteer. *)
Definition process_coc_reset (channel : json) (message : string) : M unit :=
  let parsed_message := Str.split message in
  msg <- match parsed_message with
         | [_] =>
             (* they didn't give a username *)
             ret (i18n ["errors"; "missing_username"])
         | [_; name] =>
             let username := clean_links name in
             user <- Users.first_iexact username ;
             match user with
             | Some user =>
                 if accepted_coc user
                 then _ <- Users.save (set_accepted_coc false user) ;
                      ret (format (i18n ["reset_coc"; "success"]) [Lit username] [])
                 else _ <- Users.save (set_accepted_coc true user) ;
                      ret (format (i18n ["reset_coc"; "success_undo"]) [Lit username] [])
             | None => ret (i18n ["errors"; "unknown_username"])
             end
         | _ => ret (i18n ["errors"; "too_many_params"])
         end ;
  client.post channel msg.

(** Send the pinged user a dad joke. Or just send everybody a joke.  The
    formatted table entry is taken to be a non-empty text, so that the final
    [if not msg] only fires when no user is pinged. *)
Definition dadjoke_target (use_api : bool) (channel : json) (message : string)
    : M unit :=
  let parsed_message := Str.split message in
  let joke :=
    match (if use_api then joke_service else None) with
    | Some joke => Lit joke
    | None => i18n ["dadjoke"; "fallback_joke"]
    end in
  let ping_username :=
    match parsed_message with
    | [_; target] =>
        if Str.startswith target "<" then Some (Str.upper target) else None
    | _ => None
    end in
  let msg :=
    match ping_username with
    | Some ping_username =>
        format (i18n ["dadjoke"; "message"]) [Lit ping_username; joke] []
    | None => joke
    end in
  emit (chat_postMessage channel msg true).

(** Pull message text out of slack event.  What comes in:
    ["<@UTPFNCQS2> hello!"]; strip out the beginning section and see what is
    left.  [event["text"]] is read twice in the source, with one result; the
    handler of the [try] catches [IndexError] only. *)
Definition get_message (data : list (string * json)) : result (option string) :=
  let event := Py.dict_get data "event" in
  let body : result (option string) :=
    (text <-- Py.item event "text";
     match text with
     | JStr s =>
         i <-- Str.index ">" s;
         Ok (Some (Str.lower (Str.drop (i + 2) s)))
     | JArr l =>
         (* [list.index] finds the element or raises; a list has no [lower] *)
         if existsb (fun x => Py.eq_str x ">") l
         then Raise AttributeError else Raise ValueError
     | _ => Raise AttributeError
     end)%result in
  match body with
  | Raise IndexError => Ok None
  | r => r
  end.

(** The notice blocks, built with the Slack Block Kit Builder. *)
Definition section_block (s : string) : json :=
  JObj [("type", JStr "section");
        ("text", JObj [("type", JStr "mrkdwn"); ("text", JStr s)])].

Definition kept_notice : json :=
  section_block "Thank you! This submission has been kept.".

Definition removed_notice (id : Z) : json :=
  section_block ("Submission ID " ++ Str.of_Z id ++ " has been removed from the queue.").

(** [blocks[-1] = block].  An array has its last element replaced; an object
    takes the assignment as a new entry under the integer key [-1], which
    reaches Slack as the key ["-1"]; nothing else supports the assignment. *)
Definition set_last (blocks : json) (block : json) : result json :=
  match blocks with
  | JArr [] => Raise IndexError
  | JArr l => Ok (JArr (removelast l ++ [block]))
  | JObj d => Ok (JObj (d ++ [("-1", block)]))
  | _ => Raise TypeError
  end.

(** [value.split("_")] *)
Definition split_value (value : json) : result (list string) :=
  match value with
  | JStr s => Ok (Str.split_on "_" s)
  | _ => Raise AttributeError
  end.

(** [l[i]] on a list of strings *)
Definition nth_token (l : list string) (i : nat) : result string :=
  match nth_error l i with
  | Some t => Ok t
  | None => Raise IndexError
  end.

(** Remove the submission from both reddit and app if it needs to be removed. *)
Definition process_submission_update (data : list (string * json)) : M unit :=
  actions <- lift (Py.item (JObj data) "actions") ;
  action <- lift (Py.first actions) ;
  raw <- lift (Py.get action "value") ;
  value <- lift (split_value raw) ;
  message <- lift (Py.item (JObj data) "message") ;
  blocks <- lift (Py.item message "blocks") ;
  id_token <- lift (nth_token value 2) ;
  id <- lift (PyInt.int id_token) ;
  submission_obj <- Submissions.get id ;
  verb <- lift (nth_token value 0) ;
  blocks <-
    (if String.eqb verb "keep"
     then
       _ <- Submissions.save
              (mkSubmission (submission_id submission_obj) false (approved submission_obj))
              true ;
       lift (set_last blocks kept_notice)
     else
       (* The submission was removed temporarily from the app queue when it was
          reported, so we don't have to do anything else on the app side. Now
          that it's been verified, go ahead and nuke it from Reddit's side as
          well. *)
       _ <- emit (remove_post (submission_id submission_obj)) ;
       lift (set_last blocks (removed_notice (submission_id submission_obj)))) ;
  channel <- lift (Py.item (JObj data) "channel") ;
  channel_id <- lift (Py.item channel "id") ;
  message <- lift (Py.item (JObj data) "message") ;
  ts <- lift (Py.item message "ts") ;
  emit (chat_update channel_id ts blocks).

(** [needle in value] *)
Definition py_in (needle : string) (value : json) : result bool :=
  match value with
  | JStr s => Ok (Str.contains needle s)
  | JArr l => Ok (existsb (fun x => Py.eq_str x needle) l)
  | JObj d => Ok (match Py.assoc needle d with Some _ => true | None => false end)
  | _ => Raise TypeError
  end.

(** The routing table, in the order of the dictionary literal. *)
Definition options : list (string * (json -> string -> M unit)) :=
  [ ("ping", pong);
    ("help", send_help_message);
    ("reset", process_coc_reset);
    ("info", send_info);
    ("blacklist", process_blacklist);
    ("dadjoke", dadjoke_target true) ].

(** The loop over [options.keys()], with the fall-through reply. *)
Fixpoint route (opts : list (string * (json -> string -> M unit)))
    (channel : json) (message : string) : M unit :=
  match opts with
  | [] =>
      (* if we fall through here, we got a message that we don't understand. *)
      client.post channel (i18n ["errors"; "unknown_request"])
  | (key, handler) :: opts' =>
      if Str.startswith message key
      then handler channel message
      else route opts' channel message
  end.

(** Identify the purpose of a slack message and route accordingly. *)
Definition process_message (data : list (string * json)) : M unit :=
  if Py.eq_str (Py.dict_get data "type") "block_actions"
  then
    actions <- lift (Py.item (JObj data) "actions") ;
    action <- lift (Py.first actions) ;
    value <- lift (Py.get action "value") ;
    keep <- lift (py_in "keep" value) ;
    remove <- (if keep then ret true else lift (py_in "remove" value)) ;
    if remove
    then process_submission_update data
    else
      channel <- lift (Py.item (JObj data) "channel") ;
      channel_id <- lift (Py.item channel "id") ;
      client.post channel_id
        (format (i18n ["errors"; "unknown_payload"]) [StrOf value] [])
  else
    let e := Py.dict_get data "event" in
    channel <- lift (Py.get e "channel") ;
    message <- lift (get_message data) ;
    let actions := Py.dict_get data "actions" in
    (* [not message] holds of [None] and of the empty string *)
    match message with
    | Some (String _ _ as message) => route options channel message
    | _ =>
        if negb (Py.truthy actions)
        then client.post channel (i18n ["errors"; "message_parse_error"])
        else client.post channel (i18n ["errors"; "empty_message_error"])
    end.

End Handlers.

(* ================================================================= *)
(** ** Signature verification *)

Module Codec.

Definition bytes_of (s : string) : list N := List.map N_of_ascii (list_ascii_of_string s).

Definition continuation (b : N) : bool := (N.leb 128 b && N.leb b 191)%bool.
Definition within (lo hi b : N) : bool := (N.leb lo b && N.leb b hi)%bool.

(** [body.decode()]: UTF-8 to code points; [UnicodeDecodeError] on a byte
    sequence that is not well-formed UTF-8. *)
Fixpoint utf8_decode (bs : list N) : result (list N) :=
  match bs with
  | [] => Ok []
  | b0 :: r0 =>
      if N.ltb b0 128 then (cs <-- utf8_decode r0; Ok (b0 :: cs))%result
      else if within 194 223 b0 then
        match r0 with
        | b1 :: r1 =>
            if continuation b1
            then (cs <-- utf8_decode r1;
                  Ok (((b0 - 192) * 64 + (b1 - 128))%N :: cs))%result
            else Raise UnicodeDecodeError
        | _ => Raise UnicodeDecodeError
        end
      else if within 224 239 b0 then
        match r0 with
        | b1 :: b2 :: r2 =>
            if (within (if N.eqb b0 224 then 160 else 128)
                       (if N.eqb b0 237 then 159 else 191) b1
                && continuation b2)%bool
            then (cs <-- utf8_decode r2;
                  Ok (((b0 - 224) * 4096 + (b1 - 128) * 64 + (b2 - 128))%N :: cs))%result
            else Raise UnicodeDecodeError
        | _ => Raise UnicodeDecodeError
        end
      else if within 240 244 b0 then
        match r0 with
        | b1 :: b2 :: b3 :: r3 =>
            if (within (if N.eqb b0 240 then 144 else 128)
                       (if N.eqb b0 244 then 143 else 191) b1
                && continuation b2 && continuation b3)%bool
            then (cs <-- utf8_decode r3;
                  Ok (((b0 - 240) * 262144 + (b1 - 128) * 4096
                       + (b2 - 128) * 64 + (b3 - 128))%N :: cs))%result
            else Raise UnicodeDecodeError
        | _ => Raise UnicodeDecodeError
        end
      else Raise UnicodeDecodeError
  end.

(** [bytes(s, "latin-1")]: [UnicodeEncodeError] above code point 255. *)
Fixpoint latin1_encode (cs : list N) : result string :=
  match cs with
  | [] => Ok EmptyString
  | c :: cs' =>
      if N.ltb c 256
      then (s <-- latin1_encode cs'; Ok (String (ascii_of_N c) s))%result
      else Raise UnicodeEncodeError
  end.

Definition hex_digit (n : N) : ascii :=
  if N.ltb n 10 then ascii_of_N (48 + n) else ascii_of_N (87 + n).

(** [digest.hex()] *)
Fixpoint hexlify (s : string) : string :=
  match s with
  | EmptyString => EmptyString
  | String c s' =>
      String (hex_digit (N_of_ascii c / 16))
             (String (hex_digit (N_of_ascii c mod 16)) (hexlify s'))
  end.

End Codec.

Record HttpRequest : Type := mkRequest {
  headers : list (string * string);
  body : string                           (* the raw bytes *)
}.

(** [request.headers.get(name)]: header names compare without case. *)
Fixpoint headers_get (h : list (string * string)) (name : string) : option string :=
  match h with
  | [] => None
  | (k, v) :: h' =>
      if String.eqb (Str.lower k) (Str.lower name) then Some v else headers_get h' name
  end.

(** [request.headers[name]] *)
Definition headers_item (h : list (string * string)) (name : string) : result string :=
  match headers_get h name with
  | Some v => Ok v
  | None => Raise KeyError
  end.

(** [hmac.compare_digest(a, b)] on two [str]: equality, in constant time;
    [TypeError] when either holds a character outside ASCII. *)
Definition compare_digest (a b : string) : result bool :=
  if (Str.is_ascii a && Str.is_ascii b)%bool
  then Ok (String.eqb a b)
  else Raise TypeError.

Section Signature.

(** [hmac.new(key, msg, hashlib.sha256).digest()] *)
Variable hmac_sha256 : string -> string -> string.
(** [settings.SLACK_SIGNING_SECRET] *)
Variable SLACK_SIGNING_SECRET : string.
(** The reading of [time.time()] *)
Variable now : float.

(** The signature Slack declares for a timestamp and a body text. *)
Definition slack_signature_for (timestamp : string) (body_text : list N)
    : result string :=
  (let sig_basestring :=
     Codec.bytes_of "v0:" ++ Codec.bytes_of timestamp ++ Codec.bytes_of ":" ++ body_text in
   msg <-- Codec.latin1_encode sig_basestring;
   Ok ("v0=" ++ Codec.hexlify (hmac_sha256 SLACK_SIGNING_SECRET msg))%string)%result.

(** [abs(time.time() - t) > 60 * 5] *)
Definition stale (t : float) : bool :=
  PrimFloat.ltb 300%float (PrimFloat.abs (PrimFloat.sub now t)).

(** Verify that a webhook from Slack is actually from them. *)
Definition is_valid_slack_request (request : HttpRequest) : result bool :=
  match headers_get (headers request) "X-Slack-Signature" with
  | None => Ok false
  | Some slack_signature =>
      (timestamp <-- headers_item (headers request) "X-Slack-Request-Timestamp";
       t <-- PyInt.int timestamp;
       t <-- PyFloat.of_int t;
       if stale t
       then
         (* The request timestamp is more than five minutes from local time.
            It could be a replay attack, so let's ignore it. *)
         Ok false
       else
         body_text <-- Codec.utf8_decode (Codec.bytes_of (body request));
         signature <-- slack_signature_for timestamp body_text;
         compare_digest signature slack_signature)%result
  end.

End Signature.

(* ================================================================= *)
(** ** The commands of api/slack/commands *)

(** Modelled from the spec: [parse_user] of [api/slack/utils.py], which is not
    among the sources.  "Username resolution is case-insensitive exact match
    against the external user store; sanitize markup before lookup"; the
    result carries the resolved user, if any, and the sanitized text. *)
Definition parse_user (input_text : string) : M (option BlossomUser * string) :=
  (let username := clean_links input_text in
   user <- Users.first_iexact username ;
   ret (user, username))%M.

(** The statuses of a transcription check that the report counts; any other
    status is [OTHER_STATUS]. *)
Inductive TranscriptionCheckStatus : Type :=
| COMMENT_PENDING | COMMENT_RESOLVED | COMMENT_UNFIXED
| WARNING_PENDING | WARNING_RESOLVED | WARNING_UNFIXED
| OTHER_STATUS.

Definition status_eqb (a b : TranscriptionCheckStatus) : bool :=
  match a, b with
  | COMMENT_PENDING, COMMENT_PENDING | COMMENT_RESOLVED, COMMENT_RESOLVED
  | COMMENT_UNFIXED, COMMENT_UNFIXED | WARNING_PENDING, WARNING_PENDING
  | WARNING_RESOLVED, WARNING_RESOLVED | WARNING_UNFIXED, WARNING_UNFIXED
  | OTHER_STATUS, OTHER_STATUS => true
  | _, _ => false
  end.

(** Convert a bool to a Yes/No string. *)
Definition bool_str (bl : bool) : string := if bl then "Yes" else "No".

(** Format a given info section to a readable string. *)
Definition _format_info_section (name : string) (section : list (string * string))
    : string :=
  let section_items :=
    Str.join newline
      (List.map (fun '(key, value) => ("- " ++ key ++ ": " ++ value)%string) section) in
  "*" ++ name ++ "*:" ++ newline ++ section_items.

(** [format(ratio, ".1%")] *)
Definition percent (ratio : float) : string :=
  PyFloat.format_f 1 (PrimFloat.mul ratio 100%float) ++ "%".

Section Commands.

Variable generate_summary : list (string * dval).
(** The reading of [timezone.now()] *)
Variable now : datetime.
(** [user.gamma] and [user.gamma_at_time(start_time=...)] *)
Variable gamma : BlossomUser -> Z.
Variable gamma_at_time : BlossomUser -> datetime -> Z.
(** [user.date_last_active()] *)
Variable date_last_active : BlossomUser -> option datetime.
(** The statuses of [TranscriptionCheck.objects.filter(transcription__author=user)] *)
Variable user_checks : BlossomUser -> list TranscriptionCheckStatus.
(** [user.transcription_check_reason(ignore_low_activity=True)] *)
Variable transcription_check_reason : BlossomUser -> string.

Local Open Scope monad_scope.

(** Get general info for the given user. *)
Definition user_general_info (user : BlossomUser) : list (string * string) :=
  let total_gamma := gamma user in
  let recent_gamma := gamma_at_time user (Date.minus now (Date.days 14)) in
  let gamma :=
    (Str.of_Z total_gamma ++ " Γ (" ++ Str.of_Z recent_gamma ++ " Γ in last 2 weeks)")%string in
  let joined_on :=
    match _format_time now (Some (date_joined user)) with
    | Some s => s
    | None => "None"
    end in
  let last_active :=
    match _format_time now (date_last_active user) with
    | Some (String _ _ as s) => s
    | _ => "Never"
    end in
  [("Gamma", gamma); ("Joined on", joined_on); ("Last active", last_active)].

(** Get info about the transcription quality of the given user. *)
Definition user_transcription_quality_info (user : BlossomUser)
    : list (string * string) :=
  let gamma := gamma user in
  (* The checks for the given user *)
  let user_checks := user_checks user in
  let count (status : TranscriptionCheckStatus) : Z :=
    Z.of_nat (List.length (List.filter (status_eqb status) user_checks)) in
  let check_count := Z.of_nat (List.length user_checks) in
  let check_ratio :=
    if Z.ltb 0 gamma then PyFloat.true_div check_count gamma else 0%float in
  let checks :=
    (Str.of_Z check_count ++ " (" ++ percent check_ratio ++ " of transcriptions)")%string in
  (* The comments for the given user *)
  let comments_count :=
    count COMMENT_PENDING + count COMMENT_RESOLVED + count COMMENT_UNFIXED in
  let comments_ratio :=
    if Z.ltb 0 check_count then PyFloat.true_div comments_count check_count else 0%float in
  let comments :=
    (Str.of_Z comments_count ++ " (" ++ percent comments_ratio ++ " of checks)")%string in
  (* The warnings for the given user *)
  let warnings_count :=
    count WARNING_PENDING + count WARNING_RESOLVED + count WARNING_UNFIXED in
  let warnings_ratio :=
    if Z.ltb 0 check_count then PyFloat.true_div warnings_count check_count else 0%float in
  let warnings :=
    (Str.of_Z warnings_count ++ " (" ++ percent warnings_ratio ++ " of checks)")%string in
  (* Watch status *)
  let watch_status := transcription_check_reason user in
  [ ("Checks", checks); ("Warnings", warnings); ("Comments", comments);
    ("Watch status", watch_status) ].

(** Get debug info about the given user. *)
Definition user_debug_info (user : BlossomUser) : list (string * string) :=
  let user_id := ("`" ++ Str.of_Z (user_id user) ++ "`")%string in
  let blacklisted := bool_str (blacklisted user) in
  let bot := bool_str (is_bot user) in
  let accepted_coc := bool_str (accepted_coc user) in
  [ ("ID", user_id); ("Blacklisted", blacklisted); ("Bot", bot);
    ("Accepted CoC", accepted_coc) ].

(** Get the info message for the given user. *)
Definition user_info_text (user : BlossomUser) : string :=
  let name_link :=
    ("<https://reddit.com/u/" ++ username user ++ "|u/" ++ username user ++ ">")%string in
  let title := ("Info about *" ++ name_link ++ "*:")%string in
  let general := _format_info_section "General" (user_general_info user) in
  let transcription_quality :=
    _format_info_section "Transcription Quality" (user_transcription_quality_info user) in
  let debug := _format_info_section "Debug Info" (user_debug_info user) in
  title ++ newline ++ newline ++ general ++ newline ++ newline
    ++ transcription_quality ++ newline ++ newline ++ debug.

(** Send info about a user to slack. *)
Definition info_cmd (channel : json) (message : string) : M unit :=
  let parsed_message := Str.split message in
  match parsed_message with
  | [_] =>
      (* they just sent an empty info message, create a summary response *)
      let data := generate_summary in
      table <- lift (dict_to_table data None None) ;
      client.post channel
        (format (i18n ["server_summary"]) [Lit (Str.join newline table)] [])
  | [_; name] =>
      '(user, username) <- parse_user name ;
      let msg :=
        match user with
        | Some user => Lit (user_info_text user)
        | None => format (i18n ["errors"; "unknown_username"]) []
                         [("username", Lit username)]
        end in
      client.post channel msg
  | _ => client.post channel (i18n ["errors"; "too_many_params"])
  end.

(** Get the watch status of a specific user. *)
Definition watchstatus_cmd (channel : json) (message : string) : M unit :=
  let parsed_message := Str.split message in
  msg <- match parsed_message with
         | [_] =>
             (* they didn't give a username *)
             ret (i18n ["errors"; "missing_username"])
         | [_; name] =>
             '(user, username) <- parse_user name ;
             match user with
             | Some user =>
                 let status := transcription_check_reason user in
                 ret (format (i18n ["watchstatus"; "success"]) []
                             [("user", Lit username); ("status", Lit status)])
             | None =>
                 ret (format (i18n ["errors"; "unknown_username"]) []
                             [("username", Lit username)])
             end
         | _ => ret (i18n ["errors"; "too_many_params"])
         end ;
  client.post channel msg.

End Commands.

(* ================================================================= *)
(** ** The submission state-change endpoint *)

(** Modelled from the spec: the view behind [submission-remove], which is not
    among the sources (its tests are).  "Accepts an optional boolean
    [removed_from_queue]; absent value defaults to [true].  If removal
    transitions a previously-approved submission to removed, the approval flag
    is cleared atomically in the same update.  No-op if the requested state
    already matches current state (must still return success)."  The reply is
    the HTTP status with the updated resource. *)
Definition submission_remove (id : Z) (removed : option bool)
    : M (Z * Submission) :=
  (submission <- Submissions.get id ;
   let requested := match removed with Some b => b | None => true end in
   if Bool.eqb (removed_from_queue submission) requested
   then ret (200, submission)
   else
     let updated :=
       mkSubmission (submission_id submission) requested
                    (if requested then false else approved submission) in
     fun w =>
       (Ok (200, updated),
        mkWorld (users w) (<[id := updated]> (submissions w)) (effects w)))%M.

(* ================================================================= *)
(** ** Specification-level definitions and sample data *)

Definition approved_in_queue : World :=
  mkWorld [] {[ 3 := mkSubmission 3 false true ]} [].

(** A stand-in for the keyed hash, enough to evaluate the verifier. *)
Definition toy_hmac (key msg : string) : string := (key ++ msg)%string.

Definition toy_signature (timestamp : string) : string :=
  "v0=" ++ Codec.hexlify (toy_hmac "k" ("v0:" ++ timestamp ++ ":{}")).

Definition signed_request (timestamp : string) : HttpRequest :=
  mkRequest
    [ ("X-Slack-Request-Timestamp", timestamp);
      ("X-Slack-Signature", toy_signature timestamp) ]
    "{}".

Definition plain_text_event : list (string * json) :=
  [("event", JObj [("text", JStr "hello"); ("channel", JStr "C1")])].

Definition no_timestamp_request : HttpRequest :=
  mkRequest [("X-Slack-Signature", "v0=00")] "{}".

(** The signature of the Slack protocol: the keyed hash of the timestamp and
    of the body as it is sent. *)
Definition signature_over_bytes (hmac : string -> string -> string)
    (secret timestamp body : string) : string :=
  ("v0=" ++ Codec.hexlify (hmac secret ("v0:" ++ timestamp ++ ":" ++ body)))%string.

(** A request that declares a time 300 seconds before 1700000000. *)
Definition fresh_request (signature body : string) : HttpRequest :=
  mkRequest
    [ ("X-Slack-Request-Timestamp", "1699999700");
      ("X-Slack-Signature", signature) ]
    body.

(** The UTF-8 bytes of U+00E9 and of U+20AC, and the Latin-1 byte of
    U+00E9. *)
Definition e_acute_utf8 : string := String "195" (String "169" EmptyString).
Definition euro_utf8 : string :=
  String "226" (String "130" (String "172" EmptyString)).
Definition e_acute_latin1 : string := String "233" EmptyString.

(** A timestamp of 401 digits. *)
Definition huge_timestamp : string := String "1" (Str.repeat "0" 400).

Definition huge_timestamp_request (signature : string) : HttpRequest :=
  mkRequest
    [ ("X-Slack-Request-Timestamp", huge_timestamp);
      ("X-Slack-Signature", signature) ]
    "{}".

Local Open Scope float_scope.

(** The units of the specification, largest first, each with the value of a
    duration of [seconds] in that unit. *)
Definition units_of (seconds : float) : list (float * string) :=
  let minutes := seconds / 60 in
  let hours := minutes / 60 in
  let days := hours / 24 in
  [ (days / 365, "year"%string); (days / 30, "month"%string);
    (days / 7, "week"%string); (days, "day"%string);
    (hours, "hour"%string); (minutes, "min"%string) ].

(** The relative duration in the words of the specification, with the plural
    decided on the value itself, for a duration that is not shown in
    milliseconds: the first unit of [units_of] whose value is at least 1, or
    seconds above 5 seconds.  [None] stands for the shorter durations, which
    are shown in milliseconds. *)
Definition relative_duration_spec (delta : timedelta) : option string :=
  let seconds := PrimFloat.abs (Date.total_seconds delta) in
  let plural (value : float) : string := if value =? 1 then ""%string else "s"%string in
  match List.find (fun '(value, _) => 1 <=? value) (units_of seconds) with
  | Some (value, unit) =>
      Some (PyFloat.format_f 1 value ++ " " ++ unit ++ plural value)%string
  | None =>
      if 5 <? seconds
      then Some (PyFloat.format_f 1 seconds ++ " sec" ++ plural seconds)%string
      else None
  end.

(** A reading in milliseconds: a number printed without decimals, then the
    unit. *)
Definition millisecond_text (out : string) : Prop :=
  exists value : float, out = (PyFloat.format_f 0 value ++ " ms")%string.

Local Close Scope float_scope.

Definition two_ids_callback : list (string * json) :=
  [ ("type", JStr "block_actions");
    ("actions", JArr [JObj [("value", JStr "remove_submission_5_7")]]);
    ("channel", JObj [("id", JStr "C1")]);
    ("message", JObj [("ts", JStr "1.5");
                      ("blocks", JArr [JStr "report"; JStr "buttons"])]) ].

Definition two_submissions : World :=
  mkWorld [] (<[7 := mkSubmission 7 true false]> {[ 5 := mkSubmission 5 true false ]}) [].

Definition keep_callback : list (string * json) :=
  [ ("type", JStr "block_actions");
    ("actions", JArr [JObj [("value", JStr "keep_submission_5")]]);
    ("channel", JObj [("id", JStr "C1")]);
    ("message", JObj [("ts", JStr "1.5");
                      ("blocks", JArr [JStr "report"; JStr "buttons"])]) ].

(** The handler the loop of the router ends on: the first entry whose key is
    a prefix of the message. *)
Definition dispatch (opts : list (string * (json -> string -> M unit)))
    (message : string) : option (string * (json -> string -> M unit)) :=
  List.find (fun '(key, _) => Str.startswith message key) opts.

Definition ping_pong_event : list (string * json) :=
  [("event", JObj [("text", JStr "<@U1> Ping-Pong now"); ("channel", JStr "C1")])].

Definition empty_world : World := mkWorld [] ∅ [].

Definition mention_only_event : list (string * json) :=
  [("event", JObj [("text", JStr "<@U1> "); ("channel", JStr "C1")])].

Definition some_user : BlossomUser :=
  mkUser 1 "some.user" false true false (Date.utc 0).

Definition one_user : World := mkWorld [some_user] ∅ [].

Definition linked_name_event : list (string * json) :=
  [("event", JObj [("text", JStr "<@U1> info <http://some.user|some.user>");
                   ("channel", JStr "C1")])].

(** Two continuations agree from position [p] on, on the texts that end at
    position [total]. *)
Definition agree (total p : nat) (k1 k2 : cont) : Prop :=
  forall pos s cap,
    (p <= pos)%nat -> (pos + String.length s = total)%nat ->
    k1 pos s cap = k2 pos s cap.

(** The continuation is reached, further on in the text. *)
Definition reaches (pos : nat) (s : string) (k : cont) (x : outcome) : Prop :=
  exists pos' s' cap',
    k pos' s' cap' = Some x /\
    (pos <= pos')%nat /\
    (pos' + String.length s' = pos + String.length s)%nat.

(** Matches that follow one another between [lo] and [hi], each longer than
    its label. *)
Fixpoint spaced (lo hi : nat) (ms : list matchobj) : Prop :=
  match ms with
  | [] => True
  | m :: ms' =>
      (lo <= m_start m)%nat /\
      (m_start m + String.length (m_group m) < m_end m)%nat /\
      (m_end m <= hi)%nat /\
      spaced (m_end m) hi ms'
  end.

(** The text in which each match of [ms], read from left to right from
    position [pos] on, is replaced by its label, and everything between the
    matches is kept. *)
Fixpoint splice (text : string) (pos : nat) (ms : list matchobj) : string :=
  match ms with
  | [] => Str.drop pos text
  | m :: ms' =>
      (Str.take (m_start m - pos) (Str.drop pos text) ++ m_group m
         ++ splice text (m_end m) ms')%string
  end.

(* ================================================================= *)
(** ** The sponsorship webhook (api/views/slack_helpers.py) *)

(** [s.encode()]: UTF-8, for a text whose characters are below U+0100. *)
Fixpoint utf8_encode (s : string) : string :=
  match s with
  | EmptyString => EmptyString
  | String c s' =>
      let n := N_of_ascii c in
      if N.ltb n 128 then String c (utf8_encode s')
      else String (ascii_of_N (192 + n / 64))
                  (String (ascii_of_N (128 + n mod 64)) (utf8_encode s'))
  end.

Section Sponsors.

(** [hmac.digest(key, msg, "sha1")] *)
Variable hmac_sha1 : string -> string -> string.
(** [settings.GITHUB_SPONSORS_SECRET_KEY] *)
Variable GITHUB_SPONSORS_SECRET_KEY : string.

(** Verify that a webhook from github sponsors is encoded using our key. *)
Definition is_valid_github_request (request : HttpRequest) : result bool :=
  match headers_get (headers request) "x-hub-signature" with
  | None => Ok false
  | Some github_signature =>
      let body_hex :=
        Codec.hexlify (hmac_sha1 (utf8_encode GITHUB_SPONSORS_SECRET_KEY) (body request)) in
      let body_hex := ("sha1=" ++ body_hex)%string in
      compare_digest body_hex github_signature
  end.

End Sponsors.

(** Process the POST request from GitHub Sponsors: translate the call to
    something that Slack can understand, then forward it to the #org_running
    channel. *)
Definition send_github_sponsors_message (data : list (string * json)) (action : string)
    : M unit :=
  (let emote := ":tada:" in
   let emote :=
     if (String.eqb action "cancelled" || String.eqb action "pending_cancellation")%bool
     then ":sob:" else emote in
   let emote :=
     if (String.eqb action "edited" || String.eqb action "tier_changed"
         || String.eqb action "pending_tier_change")%bool
     then ":rotating_light:" else emote in
   sponsorship <- lift (Py.item (JObj data) "sponsorship") ;
   sponsor <- lift (Py.item sponsorship "sponsor") ;
   username <- lift (Py.item sponsor "login") ;
   sponsorship <- lift (Py.item (JObj data) "sponsorship") ;
   tier <- lift (Py.item sponsorship "tier") ;
   sponsorlevel <- lift (Py.item tier "name") ;
   let msg :=
     format (i18n ["github_sponsor_update"])
            [Lit emote; Lit action; StrOf username; StrOf sponsorlevel] [] in
   client.post (JStr "org_running") msg)%M.

(* ================================================================= *)
(** ** Vocabulary of the further properties *)

(** The outcome of a call that sends exactly one message and changes nothing
    but, possibly, the users. *)
Definition replies_once (channel : json) (w : World) (out : result unit * World) : Prop :=
  exists msg link_names users',
    out = (Ok tt,
           mkWorld users' (submissions w)
                   (effects w ++ [chat_postMessage channel msg link_names])).





(** [">" not in s] and the like *)
Fixpoint lacks (c : ascii) (s : string) : bool :=
  match s with
  | EmptyString => true
  | String a s' => (negb (Ascii.eqb a c) && lacks c s')%bool
  end.

(** The match [m] covers a link of [text], an opening "<", a target, a bar, a
    label and the closing ">": the label is the group of the match, is not
    empty and holds no ">". *)
Definition link_in (text : string) (m : matchobj) : Prop :=
  exists before url after,
    text = (before ++ "<" ++ url ++ "|" ++ m_group m ++ ">" ++ after)%string /\
    m_start m = String.length before /\
    m_end m = (String.length before + String.length url
               + String.length (m_group m) + 3)%nat /\
    m_group m <> EmptyString /\
    lacks ">" (m_group m) = true.

(** The update of the user table that [user.save()] makes. *)
Definition with_user (u : BlossomUser) (l : list BlossomUser) : list BlossomUser :=
  List.map (fun v => if Z.eqb (user_id v) (user_id u) then u else v) l.

(** A call either raises and leaves the world as it was, or answers once. *)
Definition raises_or_replies (channel : json) (w : World) (out : result unit * World)
    : Prop :=
  (exists e, out = (Raise e, w)) \/ replies_once channel w out.

Definition two_users : World :=
  mkWorld [mkUser 1 "Alice" false true false (Date.utc 0);
           mkUser 2 "bob" true false false (Date.utc 0)] ∅ [].

Definition glued_event : list (string * json) :=
  [("event", JObj [("text", JStr "<@U1>PING me"); ("channel", JStr "C1")])].

(** The continuation is reached on a suffix of the text. *)
Definition reaches_suffix (s : string) (k : cont) (x : outcome) : Prop :=
  exists pos' s' cap' before, k pos' s' cap' = Some x /\ s = (before ++ s')%string.


Definition sponsor_request : HttpRequest :=
  mkRequest
    [("X-Hub-Signature", ("sha1=" ++ Codec.hexlify (toy_hmac "k" "{}"))%string)] "{}".

(** The emote of an action, as a table. *)
Definition sponsor_emote (action : string) : string :=
  if existsb (String.eqb action) ["cancelled"; "pending_cancellation"] then ":sob:"
  else if existsb (String.eqb action) ["edited"; "tier_changed"; "pending_tier_change"]
  then ":rotating_light:"
  else ":tada:".

(** The shape of a callback: the action value and the blocks of the
    message. *)
Definition callback_of (data : list (string * json)) (value : string)
    (message blocks : json) : Prop :=
  exists actions action,
    Py.item (JObj data) "actions" = Ok actions /\
    Py.first actions = Ok action /\
    Py.get action "value" = Ok (JStr value) /\
    Py.item (JObj data) "message" = Ok message /\
    Py.item message "blocks" = Ok blocks.


Definition blockless_callback : list (string * json) :=
  [ ("type", JStr "block_actions");
    ("actions", JArr [JObj [("value", JStr "remove_submission_5")]]);
    ("channel", JObj [("id", JStr "C1")]);
    ("message", JObj [("ts", JStr "1.5"); ("blocks", JArr [])]) ].

Definition housekeeping_callback : list (string * json) :=
  [ ("type", JStr "block_actions");
    ("actions", JArr [JObj [("value", JStr "dont_keep_5")]]);
    ("channel", JObj [("id", JStr "C1")]);
    ("message", JObj [("ts", JStr "1.5");
                      ("blocks", JArr [JStr "report"; JStr "buttons"])]) ].

(** A message update, the removal at the source platform or the saving of a
    submission: everything the block-action processor may do to the world
    outside the store. *)
Definition is_post (e : effect) : bool :=
  match e with
  | chat_postMessage _ _ _ => true
  | _ => false
  end.

Definition shouted_ping_event : list (string * json) :=
  [("event", JObj [("text", JStr "<@U1> PiNg please"); ("channel", JStr "C1")])].

(* ================================================================= *)
(** * Properties *)

(** ** The embedding at work *)

Example split_example : Str.split "  info   Bob " = ["info"; "Bob"].
Proof. reflexivity. Qed.
Example split_on_example : Str.split_on "_" "keep_submission_3" = ["keep"; "submission"; "3"].
Proof. reflexivity. Qed.
Example int_example : PyInt.int " -1_000 " = Ok (-1000).
Proof. reflexivity. Qed.
Example int_bad_example : PyInt.int "12a" = Raise ValueError.
Proof. reflexivity. Qed.

(** [int] skips a no-break space but not a unit separator, which [split]
    takes for whitespace. *)
Example int_whitespace_examples :
  PyInt.int (String "160" "5") = Ok 5 /\
  PyInt.int (String "133" "5 ") = Ok 5 /\
  PyInt.int (String "031" "5") = Raise ValueError /\
  PyInt.int "- 5" = Raise ValueError /\
  PyInt.int "5__0" = Raise ValueError /\
  Str.split ("a" ++ String "031" "b" ++ String "160" "c") = ["a"; "b"; "c"].
Proof. vm_compute. repeat split. Qed.

Example int_limit_examples :
  PyInt.int (Str.repeat "1" 4300) <> Raise ValueError /\
  PyInt.int (Str.repeat "1" 4301) = Raise ValueError.
Proof. vm_compute. split; [discriminate | reflexivity]. Qed.

Example case_examples :
  Str.lower ("AbC" ++ String "201" (String "215" "")) = ("abc" ++ String "233" (String "215" ""))%string /\
  Str.upper ("aBc" ++ String "233" (String "223" "")) = ("ABC" ++ String "201" "SS")%string.
Proof. vm_compute. split; reflexivity. Qed.

Example width_limit_examples :
  Format.apply_spec ":<4" "ab" = Ok "ab  " /\
  Format.apply_spec ":<9223372036854775808" "ab" = Raise ValueError /\
  Format.apply_spec ":<-4" "ab" = Raise ValueError.
Proof. vm_compute. repeat split. Qed.

Example set_last_examples :
  set_last (JArr [JNum 1; JNum 2]) JNull = Ok (JArr [JNum 1; JNull]) /\
  set_last (JArr []) JNull = Raise IndexError /\
  set_last (JObj [("a", JNum 1)]) JNull = Ok (JObj [("a", JNum 1); ("-1", JNull)]) /\
  set_last (JStr "ab") JNull = Raise TypeError.
Proof. repeat split. Qed.

Example clean_links_example :
  clean_links "<https://example.com|Click Here>" = "Click Here".
Proof. vm_compute. reflexivity. Qed.
Example clean_links_two :
  clean_links "see <a.b|x> and <https://c.d:80/p?q|y z>!" = "see x and y z!".
Proof. vm_compute. reflexivity. Qed.
Example clean_links_nested :
  clean_links "<a.b|<c.d|x>>" = "<c.d|x>" /\ clean_links "<c.d|x>" = "x".
Proof. vm_compute. split; reflexivity. Qed.
Example clean_links_glue :
  clean_links "<x.y<a.b|c.d>|e>" = "<x.yc.d|e>".
Proof. vm_compute. reflexivity. Qed.

Example dict_to_table_example :
  dict_to_table [("A", Scalar (AInt 1)); ("BB", Items [AStr "x"; ANone])] None None
  = Ok ["Key  | Value"; "--------"; "A    | 1   "; "BB   | x, None"].
Proof. vm_compute. reflexivity. Qed.
Example dict_to_table_three_titles :
  dict_to_table [("A", Scalar ANone)] (Some ["a"; "b"; "c"]) (Some 3)
  = Raise IndexError.
Proof. vm_compute. reflexivity. Qed.

Example of_int_example : PyFloat.of_int 300 = Ok 300%float.
Proof. vm_compute. reflexivity. Qed.
Example true_div_example : PyFloat.true_div 1 10 = 0.1%float.
Proof. vm_compute. reflexivity. Qed.
Example format_f_examples :
  PyFloat.format_f 1 1.15%float = "1.1" /\ PyFloat.format_f 1 1.25%float = "1.2" /\
  PyFloat.format_f 1 1.35%float = "1.4" /\ PyFloat.format_f 0 0.5%float = "0" /\
  PyFloat.format_f 0 1.5%float = "2" /\ PyFloat.format_f 1 0.96%float = "1.0" /\
  PyFloat.format_f 1 12%float = "12.0" /\ PyFloat.format_f 0 0.003%float = "0".
Proof. vm_compute. repeat split; reflexivity. Qed.

Example isoformat_examples :
  Date.isoformat (Date.date (Date.utc 0)) = "1970-01-01" /\
  Date.isoformat (Date.date (Date.utc (Date.days 11016))) = "2000-02-29" /\
  Date.isoformat (Date.date (Date.utc (Date.days 19000 + Date.seconds 86399)))
    = "2022-01-08" /\
  Date.isoformat (Date.date (mkDatetime (Date.seconds 82800) (Date.seconds 7200)))
    = "1970-01-02".
Proof. vm_compute. repeat split; reflexivity. Qed.

Example relative_duration_examples :
  _relative_duration (Date.seconds 3600) = "1.0 hour" /\
  _relative_duration (Date.seconds 3601) = "1.0 hours" /\
  _relative_duration (Date.days 1) = "1.0 day" /\
  _relative_duration (Date.seconds 4140) = "1.1 hours" /\
  _relative_duration (Date.seconds 3) = "0 ms" /\
  _relative_duration (Date.seconds 6) = "6.0 secs" /\
  _relative_duration (Date.days 400) = "1.1 years" /\
  _relative_duration (Date.days (-45)) = "1.5 months".
Proof. vm_compute. repeat split; reflexivity. Qed.

Example utf8_examples :
  Codec.utf8_decode [104; 195; 169]%N = Ok [104; 233]%N /\
  Codec.utf8_decode [226; 130; 172]%N = Ok [8364]%N /\
  Codec.utf8_decode [195]%N = Raise UnicodeDecodeError /\
  Codec.utf8_decode [192; 128]%N = Raise UnicodeDecodeError.
Proof. vm_compute. repeat split; reflexivity. Qed.
Example hexlify_example :
  Codec.hexlify (String "000" (String "171" (String "255" EmptyString))) = "00abff".
Proof. reflexivity. Qed.


Example quality_info_without_transcriptions :
  user_transcription_quality_info (fun _ => 0) (fun _ => []) (fun _ => "None")
                                  (mkUser 7 "bob" false true false (Date.utc 0))
  = [ ("Checks", "0 (0.0% of transcriptions)"); ("Warnings", "0 (0.0% of checks)");
      ("Comments", "0 (0.0% of checks)"); ("Watch status", "None") ].
Proof. vm_compute. reflexivity. Qed.

Example general_info_example :
  user_general_info (Date.utc (Date.days 19000)) (fun _ => 250) (fun _ _ => 12)
                    (fun _ => None)
                    (mkUser 7 "bob" false true false (Date.utc (Date.days 18635)))
  = [ ("Gamma", "250 Γ (12 Γ in last 2 weeks)");
      ("Joined on", "2021-01-08 (1.0 year ago)"); ("Last active", "Never") ].
Proof. vm_compute. reflexivity. Qed.

(** The cases of [TestSubmissionRemove], on the endpoint as specified. *)
Example test_submission_remove :
  let store (removed approved : bool) :=
    mkWorld [] {[ 3 := mkSubmission 3 removed approved ]} [] in
  let after (removed approved : bool) (body : option bool) :=
    (fst (submission_remove 3 body (store removed approved)),
     submissions (snd (submission_remove 3 body (store removed approved))) !! 3) in
  (* test_remove_no_params *)
  after false false None
    = (Ok (200, mkSubmission 3 true false), Some (mkSubmission 3 true false)) /\
  (* test_remove_no_change *)
  after true false None
    = (Ok (200, mkSubmission 3 true false), Some (mkSubmission 3 true false)) /\
  (* test_remove_param_false *)
  after true false (Some false)
    = (Ok (200, mkSubmission 3 false false), Some (mkSubmission 3 false false)) /\
  (* test_remove_param_true *)
  after false false (Some true)
    = (Ok (200, mkSubmission 3 true false), Some (mkSubmission 3 true false)) /\
  (* test_remove_reverting_approval *)
  after false true None
    = (Ok (200, mkSubmission 3 true false), Some (mkSubmission 3 true false)).
Proof. vm_compute. repeat split; reflexivity. Qed.

(** ** The table formatter *)

Lemma dict_to_table_needs_width (titles : option (list string)) (width : option Z) :
  width = None \/ width = Some 0 ->
  dict_to_table [] titles width = Raise ValueError.
Proof. intros [-> | ->]; reflexivity. Qed.

(** C10.  With an empty mapping and no explicit width (none given, or the
    falsy width 0) [dict_to_table] raises [ValueError], the error of [max]
    over an empty sequence, whatever the titles; so a call that returns its
    list of lines was given a non-empty mapping or an explicit width. *)
Theorem dict_to_table_empty_mapping_raises :
  (forall titles, dict_to_table [] titles None = Raise ValueError) /\
  (forall titles, dict_to_table [] titles (Some 0) = Raise ValueError) /\
  (forall dictionary titles width lines,
      dict_to_table dictionary titles width = Ok lines ->
      dictionary <> [] \/ exists w, width = Some w /\ w <> 0).
Proof.
  split; [|split].
  - intros titles. apply dict_to_table_needs_width. now left.
  - intros titles. apply dict_to_table_needs_width. now right.
  - intros dictionary titles width lines H.
    destruct dictionary as [|kv dictionary]; [|left; discriminate].
    right. destruct width as [w|].
    + exists w. split; [reflexivity|]. intros ->.
      rewrite dict_to_table_needs_width in H by now right. discriminate.
    + rewrite dict_to_table_needs_width in H by now left. discriminate.
Qed.

Lemma dict_to_table_empty_mapping_raises_witness :
  dict_to_table [("A", Scalar (AInt 1)); ("BB", Scalar ANone)] None None
    = Ok ["Key  | Value"; "--------"; "A    | 1   "; "BB   | None"] /\
  ([("A", Scalar (AInt 1)); ("BB", Scalar ANone)] <> []
   \/ exists w, @None Z = Some w /\ w <> 0).
Proof.
  assert (H : dict_to_table [("A", Scalar (AInt 1)); ("BB", Scalar ANone)] None None
              = Ok ["Key  | Value"; "--------"; "A    | 1   "; "BB   | None"])
    by (vm_compute; reflexivity).
  split; [exact H|].
  exact (proj2 (proj2 dict_to_table_empty_mapping_raises) _ _ _ _ H).
Defined.

(** ** The submission state-change endpoint *)

(** C8.  On the endpoint as the specification describes it: a request without
    [removed_from_queue] is the request to remove and succeeds with the
    submission removed; removing an approved submission that is still in the
    queue writes one record in which [approved] is cleared and
    [removed_from_queue] is set; a request for the state the submission is
    already in succeeds and leaves the store as it was. *)
Theorem submission_remove_contract (w : World) (id : Z) (s : Submission) :
  submissions w !! id = Some s ->
  submission_remove id None w = submission_remove id (Some true) w /\
  (exists s' w',
      submission_remove id None w = (Ok (200, s'), w') /\
      removed_from_queue s' = true /\
      (removed_from_queue s = false -> submissions w' !! id = Some s')) /\
  (removed_from_queue s = false -> approved s = true ->
   submission_remove id (Some true) w =
     (Ok (200, mkSubmission (submission_id s) true false),
      mkWorld (users w)
              (<[id := mkSubmission (submission_id s) true false]> (submissions w))
              (effects w))) /\
  (forall requested,
      removed_from_queue s = requested ->
      submission_remove id (Some requested) w = (Ok (200, s), w)).
Proof.
  intros Hs. unfold submission_remove, bind, Submissions.get, ret.
  rewrite Hs. split; [reflexivity|]. split; [|split].
  - destruct (removed_from_queue s) eqn:Hr; simpl.
    + exists s, w. split; [reflexivity|]. split; [assumption|]. discriminate.
    + eexists _, _. split; [reflexivity|]. split; [reflexivity|].
      intros _. simpl. apply lookup_insert_eq.
  - intros Hr Ha. rewrite Hr. reflexivity.
  - intros requested <-. rewrite Bool.eqb_reflx. reflexivity.
Qed.

Lemma submission_remove_contract_witness :
  submission_remove 3 None approved_in_queue =
    (Ok (200, mkSubmission 3 true false),
     mkWorld [] (<[3 := mkSubmission 3 true false]> {[ 3 := mkSubmission 3 false true ]}) []) /\
  submission_remove 3 (Some false) approved_in_queue =
    (Ok (200, mkSubmission 3 false true), approved_in_queue).
Proof.
  assert (Hs : submissions approved_in_queue !! 3 = Some (mkSubmission 3 false true))
    by (vm_compute; reflexivity).
  pose proof (submission_remove_contract approved_in_queue 3 _ Hs) as (Hdef & _ & Hrm & Hnoop).
  split.
  - rewrite Hdef. exact (Hrm eq_refl eq_refl).
  - exact (Hnoop false eq_refl).
Defined.

(** ** Signature verification *)

Lemma hex_pair_is_ascii (c : ascii) :
  N.ltb (Str.code (Codec.hex_digit (N_of_ascii c / 16))) 128 = true /\
  N.ltb (Str.code (Codec.hex_digit (N_of_ascii c mod 16))) 128 = true.
Proof. destruct c as [[] [] [] [] [] [] [] []]; vm_compute; split; reflexivity. Qed.

Lemma hexlify_is_ascii (s : string) : Str.is_ascii (Codec.hexlify s) = true.
Proof.
  induction s as [|c s IH]; [reflexivity|].
  destruct (hex_pair_is_ascii c) as [Hhi Hlo].
  unfold Str.is_ascii in *. cbn [Codec.hexlify list_ascii_of_string forallb].
  rewrite Hhi, Hlo, IH. reflexivity.
Qed.

Lemma compare_digest_signature (digest header : string) :
  Str.is_ascii header = true ->
  compare_digest ("v0=" ++ Codec.hexlify digest) header
    = Ok (String.eqb ("v0=" ++ Codec.hexlify digest) header).
Proof.
  intros Hh. unfold compare_digest. rewrite Hh.
  replace (Str.is_ascii ("v0=" ++ Codec.hexlify digest)) with true; [reflexivity|].
  symmetry. pose proof (hexlify_is_ascii digest) as H.
  unfold Str.is_ascii in *. cbn. exact H.
Qed.

(** What [is_valid_slack_request] answers when it returns.  It answers
    [false] when the [X-Slack-Signature] header is absent; it answers [false]
    when the declared timestamp is an integer that a float can hold and that
    is more than 300 seconds away from the clock, whatever the signature
    header holds; and otherwise, for an ASCII header, it answers the
    comparison of the header with ["v0="] followed by the hexadecimal HMAC,
    under the signing secret, of ["v0:" + timestamp + ":"] and the body
    decoded as UTF-8 and encoded again as Latin-1. *)
Lemma slack_request_decision
    (hmac_sha256 : string -> string -> string) (secret : string) (now : float)
    (request : HttpRequest) :
  (headers_get (headers request) "X-Slack-Signature" = None ->
   is_valid_slack_request hmac_sha256 secret now request = Ok false) /\
  (forall slack_signature timestamp t ft,
      headers_get (headers request) "X-Slack-Signature" = Some slack_signature ->
      headers_get (headers request) "X-Slack-Request-Timestamp" = Some timestamp ->
      PyInt.int timestamp = Ok t ->
      PyFloat.of_int t = Ok ft ->
      PrimFloat.ltb 300%float (PrimFloat.abs (PrimFloat.sub now ft)) = true ->
      is_valid_slack_request hmac_sha256 secret now request = Ok false) /\
  (forall slack_signature timestamp t ft body_text msg,
      headers_get (headers request) "X-Slack-Signature" = Some slack_signature ->
      headers_get (headers request) "X-Slack-Request-Timestamp" = Some timestamp ->
      PyInt.int timestamp = Ok t ->
      PyFloat.of_int t = Ok ft ->
      PrimFloat.ltb 300%float (PrimFloat.abs (PrimFloat.sub now ft)) = false ->
      Codec.utf8_decode (Codec.bytes_of (body request)) = Ok body_text ->
      Codec.latin1_encode
        (Codec.bytes_of "v0:" ++ Codec.bytes_of timestamp ++ Codec.bytes_of ":" ++ body_text)
        = Ok msg ->
      Str.is_ascii slack_signature = true ->
      is_valid_slack_request hmac_sha256 secret now request
        = Ok (String.eqb ("v0=" ++ Codec.hexlify (hmac_sha256 secret msg))
                         slack_signature)).
Proof.
  unfold is_valid_slack_request, headers_item, stale, slack_signature_for.
  split; [|split].
  - intros ->. reflexivity.
  - intros sig ts t ft -> -> Ht Hf Hstale. cbn [rbind].
    rewrite Ht. cbn [rbind]. rewrite Hf. cbn [rbind]. rewrite Hstale. reflexivity.
  - intros sig ts t ft body_text msg -> -> Ht Hf Hfresh Hbody Hmsg Hascii. cbn [rbind].
    rewrite Ht. cbn [rbind]. rewrite Hf. cbn [rbind]. rewrite Hfresh, Hbody.
    cbn [rbind]. rewrite Hmsg. cbn [rbind].
    apply compare_digest_signature. exact Hascii.
Qed.

Lemma signature_over_bytes_is_ascii (hmac : string -> string -> string)
    (secret timestamp body : string) :
  Str.is_ascii (signature_over_bytes hmac secret timestamp body) = true.
Proof.
  unfold signature_over_bytes.
  pose proof (hexlify_is_ascii (hmac secret ("v0:" ++ timestamp ++ ":" ++ body)%string))
    as H.
  unfold Str.is_ascii in *. cbn. exact H.
Qed.

(** A fresh request signed as the Slack protocol says, over the bytes of the
    body as they are sent, is answered by comparing its signature with the
    signature of [recoded], the body decoded as UTF-8 and encoded again as
    Latin-1. *)
Lemma fresh_request_decision (hmac_sha256 : string -> string -> string)
    (secret body : string) (body_text : list N) (recoded : string) :
  Codec.utf8_decode (Codec.bytes_of body) = Ok body_text ->
  Codec.latin1_encode body_text = Ok recoded ->
  is_valid_slack_request hmac_sha256 secret 1700000000%float
      (fresh_request (signature_over_bytes hmac_sha256 secret "1699999700" body) body)
    = Ok (String.eqb (signature_over_bytes hmac_sha256 secret "1699999700" recoded)
                     (signature_over_bytes hmac_sha256 secret "1699999700" body)).
Proof.
  intros Hbody Hrecoded.
  apply (proj2 (proj2 (slack_request_decision hmac_sha256 secret 1700000000%float _))
           _ "1699999700" 1699999700 1699999700%float body_text
           ("v0:1699999700:" ++ recoded)%string);
    try (vm_compute; reflexivity).
  - exact Hbody.
  - change (Codec.bytes_of "v0:" ++ Codec.bytes_of "1699999700" ++ Codec.bytes_of ":" ++ body_text)
      with ([118; 48; 58; 49; 54; 57; 57; 57; 57; 57; 55; 48; 48; 58]%N ++ body_text).
    cbn [app Codec.latin1_encode]. rewrite Hrecoded. reflexivity.
  - apply signature_over_bytes_is_ascii.
Qed.

(** C1.  Requests on which the verifier does not answer as the claim says.
    A fresh request with the body U+00E9 in UTF-8, signed over the bytes as they
    are sent, is compared with the signature of another message, the body
    decoded as UTF-8 and encoded again as Latin-1, and is refused by a keyed
    hash that tells the two messages apart, while the same request with an
    ASCII body is accepted; a fresh request with the body U+20AC raises
    [UnicodeEncodeError] whatever its signature is; and a request whose
    timestamp has 401 digits, which is stale, raises [OverflowError] instead
    of being answered [false]. *)
Theorem slack_verifier_misses_sent_bytes
    (hmac_sha256 : string -> string -> string) (secret : string) :
  is_valid_slack_request hmac_sha256 secret 1700000000%float
      (fresh_request (signature_over_bytes hmac_sha256 secret "1699999700" "{}") "{}")
    = Ok true /\
  is_valid_slack_request hmac_sha256 secret 1700000000%float
      (fresh_request (signature_over_bytes hmac_sha256 secret "1699999700" e_acute_utf8)
                     e_acute_utf8)
    = Ok (String.eqb
            (signature_over_bytes hmac_sha256 secret "1699999700" e_acute_latin1)
            (signature_over_bytes hmac_sha256 secret "1699999700" e_acute_utf8)) /\
  is_valid_slack_request toy_hmac "k" 1700000000%float
      (fresh_request (signature_over_bytes toy_hmac "k" "1699999700" e_acute_utf8)
                     e_acute_utf8)
    = Ok false /\
  (forall signature,
      is_valid_slack_request hmac_sha256 secret 1700000000%float
        (fresh_request signature euro_utf8) = Raise UnicodeEncodeError) /\
  (forall signature,
      is_valid_slack_request hmac_sha256 secret 1700000000%float
        (huge_timestamp_request signature) = Raise OverflowError).
Proof.
  split; [|split; [|split; [|split]]].
  - rewrite (fresh_request_decision hmac_sha256 secret "{}" (Codec.bytes_of "{}") "{}")
      by (vm_compute; reflexivity).
    now rewrite String.eqb_refl.
  - apply (fresh_request_decision hmac_sha256 secret e_acute_utf8 [233%N]);
      vm_compute; reflexivity.
  - vm_compute. reflexivity.
  - intros signature. vm_compute. reflexivity.
  - intros signature. vm_compute. reflexivity.
Qed.

(** ** Exceptions that escape *)

(** C3.  Two requests on which an exception escapes instead of a reply.  The
    text of an event without [">"] makes [get_message] raise [ValueError],
    which its [except IndexError] does not catch, and [process_message] ends
    there with nothing posted; a request that carries a signature but no
    timestamp header makes [is_valid_slack_request] raise [KeyError]. *)
Theorem parsing_exceptions_escape :
  get_message plain_text_event = Raise ValueError /\
  (forall summary serializer joke w,
      process_message summary serializer joke plain_text_event w
        = (Raise ValueError, w)) /\
  (forall hmac_sha256 secret now,
      is_valid_slack_request hmac_sha256 secret now no_timestamp_request
        = Raise KeyError).
Proof. repeat split. Qed.

(** ** The relative-time formatter *)

(** C5, as the claim states it: one hour ago is not rendered with a plural. *)
Lemma format_time_one_hour_not_plural :
  _format_time (Date.utc (Date.seconds 3600)) (Some (Date.utc 0))
    = Some "1970-01-01 (1.0 hour ago)" /\
  _format_time (Date.utc (Date.seconds 3600)) (Some (Date.utc 0))
    <> Some "1970-01-01 (1.0 hours ago)" /\
  _relative_duration (Date.seconds 3601) = "1.0 hours".
Proof. vm_compute. repeat split; discriminate. Qed.

(** C5, amended.  For every delta the formatter picks the first unit, in the
    order years (365 days), months (30 days), weeks, days, hours, minutes,
    whose value is at least 1, then seconds when the delta exceeds 5 seconds,
    and milliseconds otherwise, as a delta of 3 seconds does; milliseconds
    are shown without decimals, every other unit with one decimal and a
    trailing "s" unless the value itself, before rounding, equals 1.  So 3600
    seconds is "1.0 hour ago", one day is "1.0 day ago", a day ahead is "in
    1.0 day", and 3601 seconds is "1.0 hours ago". *)
Theorem relative_duration_largest_unit :
  (forall delta,
      match relative_duration_spec delta with
      | Some out => _relative_duration delta = out
      | None => millisecond_text (_relative_duration delta)
      end) /\
  relative_duration_spec (Date.seconds 3) = None /\
  _format_time (Date.utc (Date.seconds 3600)) (Some (Date.utc 0))
    = Some "1970-01-01 (1.0 hour ago)" /\
  _format_time (Date.utc (Date.days 1)) (Some (Date.utc 0))
    = Some "1970-01-01 (1.0 day ago)" /\
  _format_time (Date.utc 0) (Some (Date.utc (Date.days 1)))
    = Some "1970-01-02 (in 1.0 day)" /\
  _format_time (Date.utc (Date.seconds 3601)) (Some (Date.utc 0))
    = Some "1970-01-01 (1.0 hours ago)".
Proof.
  split; [|vm_compute; repeat split].
  intros delta. unfold _relative_duration, relative_duration_spec, units_of.
  set (seconds := PrimFloat.abs (Date.total_seconds delta)).
  cbn [List.find].
  repeat match goal with
         | |- context [PrimFloat.leb 1%float ?v] =>
             destruct (PrimFloat.leb 1%float v);
             [destruct (PrimFloat.eqb v 1%float); reflexivity|]
         end.
  destruct (PrimFloat.ltb 5%float seconds).
  - destruct (PrimFloat.eqb seconds 1%float); reflexivity.
  - exists (PrimFloat.div seconds 1000%float). reflexivity.
Qed.

(** ** The block-action processor *)

Lemma set_last_snoc (bs : list json) (b x : json) :
  set_last (JArr (bs ++ [b])) x = Ok (JArr (bs ++ [x])).
Proof.
  unfold set_last. rewrite removelast_last.
  destruct bs; reflexivity.
Qed.

(** C7, as the claim states it: with four tokens in the action value the
    record that is removed is the one named by the third token, not by the
    last one. *)
Lemma removal_targets_third_token :
  List.last (Str.split_on "_" "remove_submission_5_7") EmptyString = "7" /\
  effects (snd (process_submission_update two_ids_callback two_submissions))
    = [ remove_post 5;
        chat_update (JStr "C1") (JStr "1.5") (JArr [JStr "report"; removed_notice 5]) ] /\
  ~ List.In (remove_post 7)
      (effects (snd (process_submission_update two_ids_callback two_submissions))).
Proof.
  split; [reflexivity|]. split; [vm_compute; reflexivity|].
  vm_compute. intros [H | [H | []]]; discriminate.
Qed.

(** C7, amended.  For a callback that carries a string action value of at
    least three underscore-delimited tokens, the third of them an integer, as
    [int] reads it, that is the id under which a submission is stored, a
    message with a timestamp and a non-empty block list, and a channel id:
    when the first token is "keep", the submission is saved once, with [skip_extras], with its
    removed-from-queue flag cleared, and the last block becomes the kept
    notice; for any other first token the external removal is invoked for
    that submission, the store is left alone, and the last block becomes the
    notice naming its id.  In both cases the last call updates the original
    message on the same channel and timestamp with the new block list.  The
    third token is the last one when the value has exactly three tokens. *)
Theorem process_submission_update_contract
    (data : list (string * json)) (w : World)
    (actions action message channel channel_id ts b : json) (bs : list json)
    (value verb middle id_token : string) (rest : list string)
    (id : Z) (submission : Submission) :
  Py.item (JObj data) "actions" = Ok actions ->
  Py.first actions = Ok action ->
  Py.get action "value" = Ok (JStr value) ->
  Str.split_on "_" value = verb :: middle :: id_token :: rest ->
  PyInt.int id_token = Ok id ->
  submissions w !! id = Some submission ->
  submission_id submission = id ->
  Py.item (JObj data) "message" = Ok message ->
  Py.item message "blocks" = Ok (JArr (bs ++ [b])) ->
  Py.item message "ts" = Ok ts ->
  Py.item (JObj data) "channel" = Ok channel ->
  Py.item channel "id" = Ok channel_id ->
  process_submission_update data w =
    (Ok tt,
     if String.eqb verb "keep"
     then mkWorld (users w)
                  (<[id := mkSubmission id false (approved submission)]> (submissions w))
                  (effects w ++ [ submission_save id true;
                                  chat_update channel_id ts (JArr (bs ++ [kept_notice])) ])
     else mkWorld (users w) (submissions w)
                  (effects w ++ [ remove_post id;
                                  chat_update channel_id ts (JArr (bs ++ [removed_notice id])) ]))
  /\ (rest = [] -> List.last (Str.split_on "_" value) EmptyString = id_token).
Proof.
  intros Hactions Haction Hvalue Hsplit Hint Hsub Hid Hmessage Hblocks Hts Hchannel Hcid.
  split; [|intros ->; rewrite Hsplit; reflexivity].
  unfold process_submission_update, bind, lift, Submissions.get.
  rewrite Hactions, Haction, Hvalue. cbn [split_value]. rewrite Hsplit.
  rewrite Hmessage, Hblocks. cbn [nth_token nth_error]. rewrite Hint, Hsub.
  destruct (String.eqb verb "keep").
  - unfold Submissions.save, emit. cbn [users submissions effects].
    rewrite set_last_snoc, Hchannel, Hcid, Hts, Hid.
    cbn [users submissions effects]. rewrite <- app_assoc. reflexivity.
  - unfold emit. cbn [users submissions effects].
    rewrite set_last_snoc, Hchannel, Hcid, Hts, Hid.
    cbn [users submissions effects]. rewrite <- app_assoc. reflexivity.
Qed.

Lemma process_submission_update_contract_witness :
  process_submission_update keep_callback two_submissions =
    (Ok tt,
     mkWorld [] (<[5 := mkSubmission 5 false false]> (submissions two_submissions))
             [ submission_save 5 true;
               chat_update (JStr "C1") (JStr "1.5") (JArr [JStr "report"; kept_notice]) ]) /\
  List.last (Str.split_on "_" "keep_submission_5") EmptyString = "5".
Proof.
  pose proof (process_submission_update_contract keep_callback two_submissions
                (JArr [JObj [("value", JStr "keep_submission_5")]])
                (JObj [("value", JStr "keep_submission_5")])
                (JObj [("ts", JStr "1.5");
                       ("blocks", JArr [JStr "report"; JStr "buttons"])])
                (JObj [("id", JStr "C1")]) (JStr "C1") (JStr "1.5")
                (JStr "buttons") [JStr "report"]
                "keep_submission_5" "keep" "submission" "5" [] 5
                (mkSubmission 5 true false)
                eq_refl eq_refl eq_refl eq_refl eq_refl eq_refl eq_refl eq_refl
                eq_refl eq_refl eq_refl eq_refl) as [Hrun Hlast].
  split; [exact Hrun | exact (Hlast eq_refl)].
Defined.

(** ** The router *)

Section Routing.

Variable generate_summary : list (string * dval).
Variable VolunteerSerializer : BlossomUser -> list (string * dval).
Variable joke_service : option string.

Abbreviation table := (options generate_summary VolunteerSerializer joke_service).
Abbreviation router :=
  (process_message generate_summary VolunteerSerializer joke_service).

Lemma route_dispatch opts channel message :
  route opts channel message =
    match dispatch opts message with
    | Some (_, handler) => handler channel message
    | None => client.post channel (i18n ["errors"; "unknown_request"])
    end.
Proof.
  induction opts as [|[key handler] opts IH]; [reflexivity|].
  cbn [route dispatch List.find].
  destruct (Str.startswith message key); [reflexivity | exact IH].
Qed.

Lemma get_message_event data message :
  get_message data = Ok message ->
  exists fields text,
    Py.dict_get data "event" = JObj fields /\ Py.assoc "text" fields = Some (JStr text).
Proof.
  unfold get_message, Py.item.
  destruct (Py.dict_get data "event") as [| | | | |fields]; try discriminate.
  destruct (Py.assoc "text" fields) as [[| | |text|l|]|] eqn:Htext;
    cbn [rbind]; try discriminate.
  - intros _. now exists fields, text.
  - destruct (existsb _ l); discriminate.
Qed.

(** C6, amended.  For a payload that is not a block action and from which a
    message is extracted: a non-empty message goes to the handler of the first
    key, in the order ping, help, reset, info, blacklist, dadjoke, that is a
    prefix of the message, and to the unknown-request reply when no key is; an
    empty message gets the empty-message reply when the payload carries a
    truthy [actions] entry and the parse-error reply when it does not.  The
    three replies are different entries of the table. *)
Theorem process_message_routing (data : list (string * json)) (w : World)
    (message : string) :
  Py.eq_str (Py.dict_get data "type") "block_actions" = false ->
  get_message data = Ok (Some message) ->
  exists fields,
    Py.dict_get data "event" = JObj fields /\
    let channel := Py.dict_get fields "channel" in
    router data w =
      (if String.eqb message EmptyString
       then if Py.truthy (Py.dict_get data "actions")
            then client.post channel (i18n ["errors"; "empty_message_error"]) w
            else client.post channel (i18n ["errors"; "message_parse_error"]) w
       else match dispatch table message with
            | Some (_, handler) => handler channel message w
            | None => client.post channel (i18n ["errors"; "unknown_request"]) w
            end) /\
    List.map fst table = ["ping"; "help"; "reset"; "info"; "blacklist"; "dadjoke"] /\
    i18n ["errors"; "empty_message_error"] <> i18n ["errors"; "unknown_request"] /\
    i18n ["errors"; "empty_message_error"] <> i18n ["errors"; "message_parse_error"] /\
    i18n ["errors"; "message_parse_error"] <> i18n ["errors"; "unknown_request"].
Proof.
  intros Htype Hmsg.
  destruct (get_message_event _ _ Hmsg) as (fields & text & Hevent & _).
  exists fields. split; [exact Hevent|]. cbn zeta.
  split; [|split; [reflexivity | repeat split; discriminate]].
  unfold process_message. rewrite Htype, Hevent.
  unfold bind, lift. cbn [Py.get]. rewrite Hmsg.
  destruct message as [|c message].
  - cbn [String.eqb]. destruct (Py.truthy (Py.dict_get data "actions")); reflexivity.
  - cbn [String.eqb]. rewrite route_dispatch.
    destruct (dispatch table (String c message)) as [[key handler]|]; reflexivity.
Qed.

End Routing.

(** C6, as the claim states it: a plain event whose text is only the mention
    has an empty extracted message, and the reply is the parse-error text,
    not the empty-message text. *)
Lemma empty_message_gets_parse_error :
  get_message mention_only_event = Ok (Some EmptyString) /\
  process_message [] (fun _ => []) None mention_only_event empty_world
    = client.post (JStr "C1") (i18n ["errors"; "message_parse_error"]) empty_world /\
  process_message [] (fun _ => []) None mention_only_event empty_world
    <> client.post (JStr "C1") (i18n ["errors"; "empty_message_error"]) empty_world.
Proof.
  split; [reflexivity|]. split; [reflexivity|].
  cbv. intros H. inversion H.
Qed.

Lemma process_message_routing_witness :
  process_message [] (fun _ => []) None ping_pong_event empty_world
    = pong (JStr "C1") "ping-pong now" empty_world.
Proof.
  destruct (process_message_routing [] (fun _ => []) None ping_pong_event empty_world
              "ping-pong now" eq_refl eq_refl) as (fields & Hevent & Hrun & _).
  injection Hevent as <-. exact Hrun.
Defined.

(** ** The arity policy of the handlers *)

(** C4, as the claim states it: the keyword alone gets "PONG" from the ping
    handler, not the missing-parameter reply, and three tokens get a joke
    from the dad-joke handler, not the too-many-parameters reply. *)
Lemma ping_and_dadjoke_ignore_arity :
  pong (JStr "C1") "ping" empty_world
    = client.post (JStr "C1") (Lit "PONG") empty_world /\
  pong (JStr "C1") "ping" empty_world
    <> client.post (JStr "C1") (i18n ["errors"; "missing_username"]) empty_world /\
  dadjoke_target None true (JStr "C1") "dadjoke a b" empty_world
    = emit (chat_postMessage (JStr "C1") (i18n ["dadjoke"; "fallback_joke"]) true)
           empty_world /\
  dadjoke_target None true (JStr "C1") "dadjoke a b" empty_world
    <> client.post (JStr "C1") (i18n ["errors"; "too_many_params"]) empty_world.
Proof.
  split; [reflexivity|]. split; [cbv; intros H; inversion H|].
  split; [reflexivity|]. cbv; intros H; inversion H.
Qed.

(** C4, amended.  The handlers reset, blacklist and watchstatus answer a
    one-token message with the missing-username reply and a message of three
    or more tokens with the too-many-parameters reply; info (both versions)
    answers three or more tokens with the too-many-parameters reply and one
    token with the server summary, the table of the summary data, unless the
    table formatter raises on these data, in which case the handler raises
    the same error and posts nothing.  The handlers ping and help do not look
    at the tokens: they always answer "PONG" and the help text.  The dad-joke
    handler answers every message that has not exactly two tokens with the
    joke alone. *)
Theorem handlers_arity_policy
    (generate_summary : list (string * dval))
    (VolunteerSerializer : BlossomUser -> list (string * dval))
    (now : datetime) (gamma : BlossomUser -> Z)
    (gamma_at_time : BlossomUser -> datetime -> Z)
    (date_last_active : BlossomUser -> option datetime)
    (user_checks : BlossomUser -> list TranscriptionCheckStatus)
    (transcription_check_reason : BlossomUser -> string)
    (joke_service : option string) (use_api : bool)
    (channel : json) (message : string) (w : World) :
  (List.length (Str.split message) = 1%nat ->
   process_coc_reset channel message w
     = client.post channel (i18n ["errors"; "missing_username"]) w /\
   process_blacklist channel message w
     = client.post channel (i18n ["errors"; "missing_username"]) w /\
   watchstatus_cmd transcription_check_reason channel message w
     = client.post channel (i18n ["errors"; "missing_username"]) w /\
   let summary_or_error :=
     match dict_to_table generate_summary None None with
     | Ok table =>
         client.post channel
           (format (i18n ["server_summary"]) [Lit (Str.join newline table)] []) w
     | Raise e => (Raise e, w)
     end in
   send_info generate_summary VolunteerSerializer channel message w
     = summary_or_error /\
   info_cmd generate_summary now gamma gamma_at_time date_last_active user_checks
            transcription_check_reason channel message w
     = summary_or_error) /\
  ((3 <= List.length (Str.split message))%nat ->
   process_coc_reset channel message w
     = client.post channel (i18n ["errors"; "too_many_params"]) w /\
   process_blacklist channel message w
     = client.post channel (i18n ["errors"; "too_many_params"]) w /\
   watchstatus_cmd transcription_check_reason channel message w
     = client.post channel (i18n ["errors"; "too_many_params"]) w /\
   send_info generate_summary VolunteerSerializer channel message w
     = client.post channel (i18n ["errors"; "too_many_params"]) w /\
   info_cmd generate_summary now gamma gamma_at_time date_last_active user_checks
            transcription_check_reason channel message w
     = client.post channel (i18n ["errors"; "too_many_params"]) w) /\
  pong channel message w = client.post channel (Lit "PONG") w /\
  send_help_message channel message w = client.post channel (i18n ["help_message"]) w /\
  (List.length (Str.split message) <> 2%nat ->
   dadjoke_target joke_service use_api channel message w
     = emit (chat_postMessage channel
               match (if use_api then joke_service else None) with
               | Some joke => Lit joke
               | None => i18n ["dadjoke"; "fallback_joke"]
               end true) w).
Proof.
  unfold process_coc_reset, process_blacklist, watchstatus_cmd, send_info, info_cmd,
    dadjoke_target.
  destruct (Str.split message) as [|t0 [|t1 [|t2 tokens]]]; cbn [List.length].
  all: repeat split; try reflexivity; try (intros; exfalso; lia).
  all: try (intros; exfalso; congruence).
  all: unfold bind, lift;
    destruct (dict_to_table generate_summary None None); reflexivity.
Qed.

Lemma handlers_arity_policy_witness :
  process_blacklist (JStr "C1") "blacklist" empty_world
    = client.post (JStr "C1") (i18n ["errors"; "missing_username"]) empty_world /\
  process_coc_reset (JStr "C1") "reset a b" empty_world
    = client.post (JStr "C1") (i18n ["errors"; "too_many_params"]) empty_world /\
  send_info [("users", Scalar (AInt 2))] (fun _ => []) (JStr "C1") "info" empty_world
    = client.post (JStr "C1")
        (format (i18n ["server_summary"])
                [Lit (Str.join newline ["Key     | Value  "; "--------------"; "users   | 2      "])]
                [])
        empty_world /\
  dadjoke_target (Some "joke") true (JStr "C1") "dadjoke" empty_world
    = emit (chat_postMessage (JStr "C1") (Lit "joke") true) empty_world.
Proof.
  split; [|split; [|split]].
  - apply (proj1 (handlers_arity_policy [] (fun _ => []) (Date.utc 0) (fun _ => 0) (fun _ _ => 0)
                    (fun _ => None) (fun _ => []) (fun _ => "")
                    None true (JStr "C1") "blacklist" empty_world)).
    reflexivity.
  - apply (proj1 (proj2 (handlers_arity_policy [] (fun _ => []) (Date.utc 0) (fun _ => 0)
                           (fun _ _ => 0) (fun _ => None) (fun _ => [])
                           (fun _ => "") None true (JStr "C1") "reset a b" empty_world))).
    vm_compute. lia.
  - apply (proj1 (handlers_arity_policy [("users", Scalar (AInt 2))] (fun _ => [])
                    (Date.utc 0) (fun _ => 0) (fun _ _ => 0) (fun _ => None) (fun _ => [])
                    (fun _ => "") None true (JStr "C1") "info"
                    empty_world)).
    reflexivity.
  - apply (proj2 (proj2 (proj2 (proj2
             (handlers_arity_policy [] (fun _ => []) (Date.utc 0) (fun _ => 0) (fun _ _ => 0)
                (fun _ => None) (fun _ => []) (fun _ => "")
                (Some "joke") true (JStr "C1") "dadjoke" empty_world))))).
    vm_compute. lia.
Defined.

(** ** Username resolution *)

Lemma parse_user_sanitizes (input_text : string) (w : World) :
  parse_user input_text w =
    (Ok (List.find (fun u => Users.iexact (username u) (clean_links input_text)) (users w),
         clean_links input_text), w).
Proof. reflexivity. Qed.

(** C9.  On the handlers of [slack_helpers.py] the claim fails.  With the user
    "some.user" stored, [send_info], the handler the router calls for "info",
    looks the linked name up as it came and answers [no_user_by_that_name],
    where [info_cmd] resolves the same token;
    and [process_blacklist] and [process_coc_reset] answer an unknown name
    with the bare [unknown_username] entry, where [watchstatus_cmd] and
    [info_cmd] format the name into it. *)
Theorem legacy_handlers_miss_resolution_contract :
  (forall summary serializer joke,
      process_message summary serializer joke linked_name_event one_user
        = client.post (JStr "C1") (i18n ["errors"; "no_user_by_that_name"]) one_user) /\
  (forall summary serializer,
      send_info summary serializer (JStr "C1") "info <http://some.user|some.user>" one_user
        = client.post (JStr "C1") (i18n ["errors"; "no_user_by_that_name"]) one_user) /\
  (forall summary now gamma gamma_at_time last_active checks reason,
      info_cmd summary now gamma gamma_at_time last_active checks reason
               (JStr "C1") "info <http://some.user|some.user>" one_user
        = client.post (JStr "C1")
            (Lit (user_info_text now gamma gamma_at_time last_active checks reason
                                 some_user))
            one_user) /\
  process_blacklist (JStr "C1") "blacklist nobody" one_user
    = client.post (JStr "C1") (I18n ["slack"; "errors"; "unknown_username"] [] []) one_user /\
  process_coc_reset (JStr "C1") "reset nobody" one_user
    = client.post (JStr "C1") (I18n ["slack"; "errors"; "unknown_username"] [] []) one_user /\
  (forall reason,
      watchstatus_cmd reason (JStr "C1") "watchstatus nobody" one_user
        = client.post (JStr "C1")
            (I18n ["slack"; "errors"; "unknown_username"] [] [("username", Lit "nobody")])
            one_user) /\
  (forall summary now gamma gamma_at_time last_active checks reason,
      info_cmd summary now gamma gamma_at_time last_active checks reason
               (JStr "C1") "info nobody" one_user
        = client.post (JStr "C1")
            (I18n ["slack"; "errors"; "unknown_username"] [] [("username", Lit "nobody")])
            one_user).
Proof. repeat split. Qed.

(** ** The markup sanitizer *)

Module ReFacts.

Lemma reaches_refl pos s cap k x : k pos s cap = Some x -> reaches pos s k x.
Proof. intros H. exists pos, s, cap. auto. Qed.

Lemma reaches_trans pos s pos' s' k x :
  (pos <= pos')%nat ->
  (pos' + String.length s' = pos + String.length s)%nat ->
  reaches pos' s' k x -> reaches pos s k x.
Proof.
  intros Hle Hlen (pos'' & s'' & cap'' & Hk & Hle' & Hlen').
  exists pos'', s'', cap''. repeat split; [exact Hk | lia | lia].
Qed.

Lemma star_loop_sound step fuel :
  (forall pos s cap k x, step pos s cap k = Some x -> reaches pos s k x) ->
  forall pos s cap k x,
    star_loop step fuel pos s cap k = Some x -> reaches pos s k x.
Proof.
  intros Hstep. induction fuel as [|fuel IH]; intros pos s cap k x; cbn [star_loop].
  - apply reaches_refl.
  - destruct (step pos s cap _) as [y|] eqn:Hy.
    + intros [= ->]. apply Hstep in Hy.
      destruct Hy as (pos' & s' & cap' & Hk & Hle & Hlen).
      destruct (Nat.eqb pos' pos); [discriminate|].
      apply IH in Hk. eapply reaches_trans; eassumption.
    + apply reaches_refl.
Qed.

Lemma run_sound r :
  forall fuel pos s cap k x,
    run r fuel pos s cap k = Some x -> reaches pos s k x.
Proof.
  induction r as [p | r1 IH1 r2 IH2 | r1 IH1 | r1 IH1 | r1 IH1 | r1 IH1];
    intros fuel pos s cap k x; cbn [run].
  - destruct s as [|c s']; [discriminate|].
    destruct (p c); [|discriminate].
    intros H. exists (S pos), s', cap. cbn [String.length]. repeat split; [exact H|lia|lia].
  - intros H. apply IH1 in H. destruct H as (pos' & s' & cap' & H & Hle & Hlen).
    apply IH2 in H. eapply reaches_trans; eassumption.
  - destruct (run r1 fuel pos s cap k) as [y|] eqn:Hy.
    + intros [= ->]. eapply IH1; eassumption.
    + apply reaches_refl.
  - apply star_loop_sound. intros; eapply IH1; eassumption.
  - intros H. apply IH1 in H. destruct H as (pos' & s' & cap' & H & Hle & Hlen).
    apply star_loop_sound in H; [|intros; eapply IH1; eassumption].
    eapply reaches_trans; eassumption.
  - intros H. apply IH1 in H. destruct H as (pos' & s' & cap' & H & Hle & Hlen).
    exists pos', s', (Some (pos, pos')). auto.
Qed.

Lemma run_cat r1 r2 fuel pos s cap k x :
  run (Cat r1 r2) fuel pos s cap k = Some x ->
  exists pos' s' cap',
    run r2 fuel pos' s' cap' k = Some x /\
    (pos <= pos')%nat /\
    (pos' + String.length s' = pos + String.length s)%nat.
Proof. cbn [run]. intros H. apply run_sound in H. exact H. Qed.

Lemma run_cat_lit c r2 fuel pos s cap k x :
  run (Cat (lit c) r2) fuel pos s cap k = Some x ->
  exists s', s = String c s' /\ run r2 fuel (S pos) s' cap k = Some x.
Proof.
  unfold lit. cbn [run]. destruct s as [|c0 s0]; [discriminate|].
  destruct (Ascii.eqb c c0) eqn:Hc; [|discriminate].
  apply Ascii.eqb_eq in Hc. subst c0. intros H. now exists s0.
Qed.

Lemma run_group_lit r c fuel pos s cap k x :
  run (Cat (Group r) (lit c)) fuel pos s cap k = Some x ->
  exists pos' s',
    k (S pos') s' (Some (pos, pos')) = Some x /\
    (pos <= pos')%nat /\
    (S pos' + String.length s' = pos + String.length s)%nat.
Proof.
  unfold lit. cbn [run]. intros H. apply run_sound in H.
  destruct H as (pe & se & ce & H & Hle & Hlen).
  destruct se as [|c1 s1]; [discriminate|].
  destruct (Ascii.eqb c c1); [|discriminate].
  exists pe, s1. cbn [String.length] in Hlen. repeat split; [exact H|lia|lia].
Qed.

(** The fuel of [match_at] is enough: with more fuel than the text has
    characters, the answer does not depend on the fuel. *)
Lemma agree_weaken total p p' k1 k2 :
  (p <= p')%nat -> agree total p k1 k2 -> agree total p' k1 k2.
Proof. intros Hle H pos s cap Hp Hlen. apply H; [lia | exact Hlen]. Qed.

Lemma star_loop_fuel total p0 step1 step2 :
  (forall pos s cap k1 k2,
      (p0 <= pos)%nat -> (pos + String.length s = total)%nat ->
      agree total pos k1 k2 ->
      step1 pos s cap k1 = step2 pos s cap k2) ->
  forall n g1 g2 pos s cap k1 k2,
    (String.length s <= n)%nat -> (n < g1)%nat -> (n < g2)%nat ->
    (p0 <= pos)%nat -> (pos + String.length s = total)%nat ->
    agree total pos k1 k2 ->
    star_loop step1 g1 pos s cap k1 = star_loop step2 g2 pos s cap k2.
Proof.
  intros Hstep.
  induction n as [|n IH]; intros g1 g2 pos s cap k1 k2 Hn Hg1 Hg2 Hp0 Hlen Hk;
    (destruct g1 as [|g1]; [lia|]); (destruct g2 as [|g2]; [lia|]); cbn [star_loop].
  - erewrite Hstep; [rewrite (Hk pos s cap) by (lia || exact Hlen); reflexivity
                    | exact Hp0 | exact Hlen |].
    intros pos' s' cap' Hp Hl.
    destruct (Nat.eqb pos' pos) eqn:He; [reflexivity|].
    apply Nat.eqb_neq in He. lia.
  - erewrite Hstep; [rewrite (Hk pos s cap) by (lia || exact Hlen); reflexivity
                    | exact Hp0 | exact Hlen |].
    intros pos' s' cap' Hp Hl.
    destruct (Nat.eqb pos' pos) eqn:He; [reflexivity|].
    apply Nat.eqb_neq in He.
    apply IH; try lia. eapply agree_weaken; [|exact Hk]. lia.
Qed.

Lemma run_fuel total r :
  forall f1 f2 pos s cap k1 k2,
    (String.length s < f1)%nat -> (String.length s < f2)%nat ->
    (pos + String.length s = total)%nat -> agree total pos k1 k2 ->
    run r f1 pos s cap k1 = run r f2 pos s cap k2.
Proof.
  induction r as [p | r1 IH1 r2 IH2 | r1 IH1 | r1 IH1 | r1 IH1 | r1 IH1];
    intros f1 f2 pos s cap k1 k2 Hf1 Hf2 Hlen Hk; cbn [run].
  - destruct s as [|c s']; [reflexivity|]. cbn [String.length] in Hlen.
    destruct (p c); [|reflexivity]. apply Hk; lia.
  - apply IH1; try assumption.
    intros pos' s' cap' Hp Hl. apply IH2; try lia.
    eapply agree_weaken; [|exact Hk]. lia.
  - rewrite (IH1 f1 f2 pos s cap k1 k2) by assumption.
    rewrite (Hk pos s cap) by (lia || exact Hlen). reflexivity.
  - apply (star_loop_fuel total pos) with (n := String.length s); try lia; try assumption.
    intros pos' s' cap' k1' k2' Hp Hl Hk'. apply IH1; try lia; assumption.
  - apply IH1; try assumption.
    intros pos' s' cap' Hp Hl.
    apply (star_loop_fuel total pos') with (n := String.length s'); try lia.
    + intros pos'' s'' cap'' k1' k2' Hp' Hl' Hk'. apply IH1; try lia; assumption.
    + eapply agree_weaken; [|exact Hk]. lia.
  - apply IH1; try assumption.
    intros pos' s' cap' Hp Hl. apply Hk; [lia | exact Hl].
Qed.

Lemma match_at_fuel r pos s fuel :
  (String.length s < fuel)%nat ->
  run r fuel pos s None (fun e _ cap => Some (e, cap)) = match_at r pos s.
Proof.
  intros Hf. unfold match_at.
  apply (run_fuel (pos + String.length s)); try lia.
  intros pos' s' cap' _ _. reflexivity.
Qed.

End ReFacts.

(** A match of the link pattern has its label strictly inside: after the
    opening "<" and before the closing ">". *)
Lemma link_match_shape (pos : nat) (s : string) (e : nat) (cap : capture) :
  match_at SLACK_TEXT_EXTRACTOR pos s = Some (e, cap) ->
  exists a b,
    cap = Some (a, b) /\
    (pos < a)%nat /\ (a <= b)%nat /\ (b < e)%nat /\ (e <= pos + String.length s)%nat.
Proof.
  unfold match_at, SLACK_TEXT_EXTRACTOR. cbn [cat].
  generalize (S (String.length s)). intros fuel H.
  (* the opening "<" *)
  apply ReFacts.run_cat_lit in H. destruct H as (s0 & -> & H).
  (* the scheme, the host, the port, the path and the bar *)
  do 7 (apply ReFacts.run_cat in H;
        let p := fresh "p" in let t := fresh "t" in let c := fresh "c" in
        let Hle := fresh "Hle" in let Hlen := fresh "Hlen" in
        destruct H as (p & t & c & H & Hle & Hlen)).
  (* the label and the closing ">" *)
  apply ReFacts.run_group_lit in H. destruct H as (pe & se & H & Hend & Hrest).
  injection H as <- <-.
  eexists _, _. split; [reflexivity|].
  cbn [String.length] in *. lia.
Qed.

Lemma append_nil_l (s : string) : (EmptyString ++ s)%string = s.
Proof. reflexivity. Qed.

Lemma append_cons (a : ascii) (s t : string) :
  (String a s ++ t)%string = String a (s ++ t).
Proof. reflexivity. Qed.

Lemma append_assoc (a b c : string) : ((a ++ b) ++ c)%string = (a ++ (b ++ c))%string.
Proof.
  induction a as [|x a IH]; [reflexivity|].
  rewrite !append_cons. now rewrite IH.
Qed.


Lemma drop_append (before s : string) (n : nat) :
  Str.drop (String.length before + n) (before ++ s) = Str.drop n s.
Proof.
  induction before as [|a before IH]; [reflexivity|].
  rewrite append_cons. exact IH.
Qed.

Module StrFacts.

Lemma length_append (s1 s2 : string) :
  String.length (s1 ++ s2) = (String.length s1 + String.length s2)%nat.
Proof. induction s1 as [|c s1 IH]; simpl; [reflexivity | f_equal; exact IH]. Qed.

Lemma length_take (n : nat) (s : string) :
  String.length (Str.take n s) = Nat.min n (String.length s).
Proof.
  revert s. induction n as [|n IH]; intros [|c s]; simpl; try reflexivity.
  f_equal. apply IH.
Qed.

Lemma length_drop (n : nat) (s : string) :
  String.length (Str.drop n s) = (String.length s - n)%nat.
Proof.
  revert s. induction n as [|n IH]; intros [|c s]; simpl; try reflexivity.
  apply IH.
Qed.

End StrFacts.

Lemma scan_spaced (text : string) (s : string) :
  forall skip pos,
    spaced (pos + skip) (pos + String.length s)
           (scan SLACK_TEXT_EXTRACTOR text skip pos s).
Proof.
  induction s as [|c s IH]; intros skip pos; cbn [scan]; [exact I|].
  destruct skip as [|skip].
  - destruct (match_at SLACK_TEXT_EXTRACTOR pos (String c s)) as [[e cap]|] eqn:Hm.
    + apply link_match_shape in Hm.
      destruct Hm as (a & b & -> & Hpa & Hab & Hbe & He).
      cbn [spaced m_start m_end m_group group_text String.length] in *.
      rewrite StrFacts.length_take.
      repeat split; try lia.
      specialize (IH (e - pos - 1)%nat (S pos)).
      replace (S pos + (e - pos - 1))%nat with e in IH by lia.
      replace (S pos + String.length s)%nat with (pos + S (String.length s))%nat in IH by lia.
      exact IH.
    + specialize (IH O (S pos)). cbn [String.length].
      replace (S pos + 0)%nat with (S pos) in IH by lia.
      replace (pos + 0)%nat with pos by lia.
      replace (pos + S (String.length s))%nat with (S pos + String.length s)%nat by lia.
      revert IH. generalize (scan SLACK_TEXT_EXTRACTOR text 0 (S pos) s).
      intros [|m ms]; cbn [spaced]; [auto|]. intros (H1 & H2 & H3 & H4).
      repeat split; try assumption; lia.
    - specialize (IH skip (S pos)). cbn [String.length].
      replace (S pos + skip)%nat with (pos + S skip)%nat in IH by lia.
      replace (S pos + String.length s)%nat with (pos + S (String.length s))%nat in IH by lia.
      exact IH.
Qed.

(** Replacing spaced matches from the last to the first shortens the text. *)
Lemma replace_spaced_length (text : string) (hi : nat) (ms : list matchobj) :
  (hi <= String.length text)%nat ->
  forall lo,
    spaced lo hi ms -> (lo <= hi)%nat ->
    let out := fold_right (fun m t => replace_match t m) text ms in
    (lo <= String.length out)%nat /\
    (String.length out <= String.length text)%nat /\
    (ms <> [] -> (String.length out < String.length text)%nat).
Proof.
  intros Hhi. induction ms as [|m ms IH]; intros lo Hsp Hlo; cbn [fold_right].
  - cbn zeta. repeat split; try lia. intros H; now elim H.
  - destruct Hsp as (H1 & H2 & H3 & H4).
    destruct (IH (m_end m) H4 H3) as (I1 & I2 & _).
    cbn zeta in *. set (t := fold_right _ text ms) in *. unfold replace_match.
    rewrite !StrFacts.length_append, StrFacts.length_take, StrFacts.length_drop.
    repeat split; lia.
Qed.

Lemma clean_links_fold (text : string) :
  clean_links text =
    fold_right (fun m t => replace_match t m) text (finditer SLACK_TEXT_EXTRACTOR text).
Proof.
  unfold clean_links. rewrite <- fold_left_rev_right, rev_involutive. reflexivity.
Qed.

Lemma clean_links_shortens (text : string) :
  finditer SLACK_TEXT_EXTRACTOR text <> [] ->
  (String.length (clean_links text) < String.length text)%nat.
Proof.
  intros Hne. rewrite clean_links_fold.
  pose proof (scan_spaced text text O O) as Hsp. cbn [Nat.add] in Hsp.
  apply (replace_spaced_length text (String.length text) _ (Nat.le_refl _) O Hsp);
    [lia | exact Hne].
Qed.

Lemma clean_links_no_match (text : string) :
  finditer SLACK_TEXT_EXTRACTOR text = [] -> clean_links text = text.
Proof. intros H. unfold clean_links. rewrite H. reflexivity. Qed.


(** *** What [clean_links] returns *)

Lemma take_drop (n : nat) (s : string) : (Str.take n s ++ Str.drop n s)%string = s.
Proof.
  revert s. induction n as [|n IH]; intros [|c s]; cbn [Str.take Str.drop];
    try reflexivity.
  rewrite append_cons. now rewrite IH.
Qed.

Lemma take_append_short (n : nat) (a b : string) :
  (n <= String.length a)%nat -> Str.take n (a ++ b) = Str.take n a.
Proof.
  revert a. induction n as [|n IH]; intros [|c a] Hn; cbn [String.length] in Hn;
    try lia.
  - destruct b; reflexivity.
  - reflexivity.
  - rewrite append_cons. cbn [Str.take]. rewrite IH by lia. reflexivity.
Qed.

Lemma take_take (n m : nat) (s : string) :
  (n <= m)%nat -> Str.take n (Str.take m s) = Str.take n s.
Proof.
  revert m s. induction n as [|n IH]; intros [|m] [|c s] Hn; try lia; try reflexivity.
  cbn [Str.take]. rewrite IH by lia. reflexivity.
Qed.

Lemma take_length_append (a b : string) : Str.take (String.length a) (a ++ b) = a.
Proof.
  induction a as [|c a IH]; [destruct b; reflexivity|].
  rewrite append_cons. cbn [String.length Str.take]. now rewrite IH.
Qed.

Lemma drop_length_append (a b : string) : Str.drop (String.length a) (a ++ b) = b.
Proof.
  replace (String.length a) with (String.length a + 0)%nat by lia.
  rewrite drop_append. destruct b; reflexivity.
Qed.

Lemma take_split (lo b : nat) (text : string) :
  (lo <= b)%nat ->
  (Str.take lo text ++ Str.take (b - lo) (Str.drop lo text))%string = Str.take b text.
Proof.
  revert b text. induction lo as [|lo IH]; intros b text Hb.
  - rewrite Nat.sub_0_r. destruct text; reflexivity.
  - destruct b as [|b]; [lia|]. destruct text as [|c text].
    + cbn [Str.take Str.drop]. destruct (S b - S lo)%nat; reflexivity.
    + cbn [Str.take Str.drop Nat.sub]. rewrite append_cons. rewrite IH by lia.
      reflexivity.
Qed.

(** Replacing spaced matches from the last to the first gives the text read
    from left to right with each match replaced by its label. *)
Lemma replace_spaced_splice (text : string) (hi : nat) (ms : list matchobj) :
  (hi <= String.length text)%nat ->
  forall lo,
    spaced lo hi ms -> (lo <= hi)%nat ->
    fold_right (fun m t => replace_match t m) text ms
      = (Str.take lo text ++ splice text lo ms)%string.
Proof.
  intros Hhi. induction ms as [|m ms IH]; intros lo Hsp Hlo; cbn [fold_right splice].
  - symmetry. apply take_drop.
  - destruct Hsp as (H1 & H2 & H3 & H4).
    rewrite (IH (m_end m) H4 H3). unfold replace_match.
    assert (Hlen : String.length (Str.take (m_end m) text) = m_end m).
    { rewrite StrFacts.length_take. lia. }
    set (after := splice text (m_end m) ms).
    assert (Hdrop : Str.drop (m_end m) (Str.take (m_end m) text ++ after) = after).
    { pose proof (drop_length_append (Str.take (m_end m) text) after) as H.
      rewrite Hlen in H. exact H. }
    rewrite Hdrop, take_append_short by lia.
    rewrite take_take by lia.
    rewrite <- (take_split lo (m_start m) text) by lia.
    now rewrite !append_assoc.
Qed.

Lemma clean_links_splice (text : string) :
  clean_links text = splice text 0 (finditer SLACK_TEXT_EXTRACTOR text).
Proof.
  rewrite clean_links_fold.
  pose proof (scan_spaced text text O O) as Hsp. cbn [Nat.add] in Hsp.
  unfold finditer.
  rewrite (replace_spaced_splice text (String.length text) _ (Nat.le_refl _) O Hsp)
    by lia.
  destruct text; reflexivity.
Qed.

(** *** What a match covers *)

Lemma star_loop_after step fuel :
  (forall pos s cap k x,
      step pos s cap k = Some x ->
      exists mid s' cap',
        s = (mid ++ s')%string /\ k (pos + String.length mid)%nat s' cap' = Some x) ->
  forall pos s cap k x,
    star_loop step fuel pos s cap k = Some x ->
    exists mid s' cap',
      s = (mid ++ s')%string /\ k (pos + String.length mid)%nat s' cap' = Some x.
Proof.
  intros Hstep.
  assert (Hhere : forall pos s cap (k : cont) x,
             k pos s cap = Some x ->
             exists mid s' cap',
               s = (mid ++ s')%string /\ k (pos + String.length mid)%nat s' cap' = Some x).
  { intros pos s cap k x H. exists EmptyString, s, cap.
    split; [reflexivity|]. cbn [String.length]. now rewrite Nat.add_0_r. }
  induction fuel as [|fuel IH]; intros pos s cap k x; cbn [star_loop].
  - apply Hhere.
  - destruct (step pos s cap _) as [y|] eqn:Hy; [|apply Hhere].
    intros [= ->]. apply Hstep in Hy. destruct Hy as (mid & s1 & cap1 & -> & Hk).
    destruct (Nat.eqb _ pos); [discriminate|].
    apply IH in Hk. destruct Hk as (mid' & s2 & cap2 & -> & Hk).
    exists (mid ++ mid')%string, s2, cap2. split; [now rewrite append_assoc|].
    rewrite StrFacts.length_append, Nat.add_assoc. exact Hk.
Qed.

(** A successful run hands over to its continuation after some part of the
    text, at the position behind that part. *)
Lemma run_after r :
  forall fuel pos s cap k x,
    run r fuel pos s cap k = Some x ->
    exists mid s' cap',
      s = (mid ++ s')%string /\ k (pos + String.length mid)%nat s' cap' = Some x.
Proof.
  assert (Hhere : forall pos s cap (k : cont) x,
             k pos s cap = Some x ->
             exists mid s' cap',
               s = (mid ++ s')%string /\ k (pos + String.length mid)%nat s' cap' = Some x).
  { intros pos s cap k x H. exists EmptyString, s, cap.
    split; [reflexivity|]. cbn [String.length]. now rewrite Nat.add_0_r. }
  assert (Hthen : forall pos s (k : cont) x mid s1,
             s = (mid ++ s1)%string ->
             (exists mid' s' cap',
                 s1 = (mid' ++ s')%string /\
                 k (pos + String.length mid + String.length mid')%nat s' cap' = Some x) ->
             exists mid s' cap',
               s = (mid ++ s')%string /\ k (pos + String.length mid)%nat s' cap' = Some x).
  { intros pos s k x mid s1 -> (mid' & s2 & cap2 & -> & Hk).
    exists (mid ++ mid')%string, s2, cap2. split; [now rewrite append_assoc|].
    rewrite StrFacts.length_append, Nat.add_assoc. exact Hk. }
  induction r as [p | r1 IH1 r2 IH2 | r1 IH1 | r1 IH1 | r1 IH1 | r1 IH1];
    intros fuel pos s cap k x; cbn [run].
  - destruct s as [|c s']; [discriminate|].
    destruct (p c); [|discriminate].
    intros H. exists (String c EmptyString), s', cap. split; [reflexivity|].
    cbn [String.length]. now rewrite Nat.add_1_r.
  - intros H. apply IH1 in H. destruct H as (mid & s1 & cap1 & Hs & H).
    apply IH2 in H. eapply Hthen; eassumption.
  - destruct (run r1 fuel pos s cap k) as [y|] eqn:Hy; [|apply Hhere].
    intros [= ->]. eapply IH1; eassumption.
  - apply star_loop_after. intros; eapply IH1; eassumption.
  - intros H. apply IH1 in H. destruct H as (mid & s1 & cap1 & Hs & H).
    apply star_loop_after in H; [|intros; eapply IH1; eassumption].
    eapply Hthen; eassumption.
  - intros H. apply IH1 in H. destruct H as (mid & s1 & cap1 & Hs & H).
    exists mid, s1, (Some (pos, (pos + String.length mid)%nat)). auto.
Qed.

Lemma run_seq (l : list regex) (last : regex) :
  forall fuel pos s cap k x,
    run (cat l last) fuel pos s cap k = Some x ->
    exists mid s' cap',
      s = (mid ++ s')%string /\
      run last fuel (pos + String.length mid)%nat s' cap' k = Some x.
Proof.
  induction l as [|r l IH]; intros fuel pos s cap k x; cbn [cat].
  - intros H. exists EmptyString, s, cap. split; [reflexivity|].
    cbn [String.length]. now rewrite Nat.add_0_r.
  - intros H. change (run (Cat r (cat l last)) fuel pos s cap k)
      with (run r fuel pos s cap (fun p' s' c' => run (cat l last) fuel p' s' c' k)) in H.
    apply run_after in H. destruct H as (mid & s1 & cap1 & -> & H).
    apply IH in H. destruct H as (mid' & s2 & cap2 & -> & H).
    exists (mid ++ mid')%string, s2, cap2. split; [now rewrite append_assoc|].
    rewrite StrFacts.length_append, Nat.add_assoc. exact H.
Qed.

(** The characters that a greedy iteration of a class takes belong to the
    class, and the capture is left as it was. *)
Lemma star_class (p : ascii -> bool) (fuel0 fuel : nat) :
  forall pos s cap k x,
    star_loop (fun p' s' c' k' => run (Char p) fuel0 p' s' c' k') fuel pos s cap k
      = Some x ->
    exists mid s',
      s = (mid ++ s')%string /\
      forallb p (list_ascii_of_string mid) = true /\
      k (pos + String.length mid)%nat s' cap = Some x.
Proof.
  assert (Hhere : forall pos s cap (k : cont) x,
             k pos s cap = Some x ->
             exists mid s',
               s = (mid ++ s')%string /\
               forallb p (list_ascii_of_string mid) = true /\
               k (pos + String.length mid)%nat s' cap = Some x).
  { intros pos s cap k x H. exists EmptyString, s.
    split; [reflexivity|]. split; [reflexivity|].
    cbn [String.length]. now rewrite Nat.add_0_r. }
  induction fuel as [|fuel IH]; intros pos s cap k x; cbn [star_loop run].
  - apply Hhere.
  - destruct s as [|c s']; [apply Hhere|].
    destruct (p c) eqn:Hc; [|apply Hhere].
    replace (Nat.eqb (S pos) pos) with false
      by (symmetry; apply Nat.eqb_neq; lia).
    destruct (star_loop _ fuel (S pos) s' cap k) as [y|] eqn:Hy; [|apply Hhere].
    intros [= ->]. apply IH in Hy. destruct Hy as (mid & s2 & -> & Hall & Hk).
    exists (String c mid), s2. split; [reflexivity|].
    cbn [list_ascii_of_string forallb String.length]. rewrite Hc, Hall.
    split; [reflexivity|].
    replace (pos + S (String.length mid))%nat with (S pos + String.length mid)%nat by lia.
    exact Hk.
Qed.

Lemma lacks_not_gt (s : string) :
  forallb not_gt (list_ascii_of_string s) = lacks ">" s.
Proof.
  induction s as [|c s IH]; [reflexivity|].
  cbn [list_ascii_of_string forallb lacks]. now rewrite IH.
Qed.

(** The label and the closing ">" of the pattern. *)
Lemma run_label fuel pos s cap k x :
  run (Cat (Group (Plus (Char not_gt))) (lit ">")) fuel pos s cap k = Some x ->
  exists label s',
    s = (label ++ ">" ++ s')%string /\
    label <> EmptyString /\
    lacks ">" label = true /\
    k (pos + String.length label + 1)%nat s'
      (Some (pos, (pos + String.length label)%nat)) = Some x.
Proof.
  unfold lit. cbn [run].
  destruct s as [|c s0]; [discriminate|].
  destruct (not_gt c) eqn:Hc; [|discriminate].
  intros H. apply (star_class not_gt fuel fuel) in H.
  destruct H as (mid & s1 & -> & Hall & H).
  destruct s1 as [|c1 s1]; [discriminate|].
  destruct (Ascii.eqb ">" c1) eqn:Hc1; [|discriminate].
  apply Ascii.eqb_eq in Hc1. subst c1.
  exists (String c mid), s1. split; [reflexivity|]. split; [discriminate|].
  split.
  - rewrite <- lacks_not_gt. cbn [list_ascii_of_string forallb]. now rewrite Hc, Hall.
  - cbn [String.length].
    replace (pos + S (String.length mid) + 1)%nat
      with (S (S pos + String.length mid)) by lia.
    replace (pos + S (String.length mid))%nat with (S pos + String.length mid)%nat by lia.
    exact H.
Qed.

(** A match of the link pattern covers "<", a target, "|", a label that is
    not empty and holds no ">", and ">"; its group is the span of the
    label. *)
Lemma link_match_text (pos : nat) (s : string) (e : nat) (cap : capture) :
  match_at SLACK_TEXT_EXTRACTOR pos s = Some (e, cap) ->
  exists url label rest,
    s = ("<" ++ url ++ "|" ++ label ++ ">" ++ rest)%string /\
    label <> EmptyString /\
    lacks ">" label = true /\
    e = (pos + String.length url + String.length label + 3)%nat /\
    cap = Some ((pos + String.length url + 2)%nat,
                (pos + String.length url + 2 + String.length label)%nat).
Proof.
  unfold match_at, SLACK_TEXT_EXTRACTOR.
  generalize (S (String.length s)). intros fuel H.
  (* the opening "<" *)
  change (cat (lit "<" :: ?l) ?last) with (Cat (lit "<") (cat l last)) in H.
  apply ReFacts.run_cat_lit in H. destruct H as (s0 & -> & H).
  (* the scheme, the host, the port and the path *)
  change (cat [?a; ?b; ?c; ?d; ?e0; ?f; ?g; ?h] ?last)
    with (cat [a; b; c; d; e0; f] (Cat g (Cat h last))) in H.
  apply run_seq in H. destruct H as (url & s1 & cap1 & -> & H).
  (* the bar, the label and the closing ">" *)
  apply ReFacts.run_cat_lit in H. destruct H as (s2 & -> & H).
  apply run_label in H. destruct H as (label & rest & -> & Hne & Hlacks & H).
  injection H as <- <-.
  exists url, label, rest. repeat split; try assumption.
  - lia.
  - repeat f_equal; lia.
Qed.

Lemma scan_links (text : string) (s : string) :
  forall skip pos before,
    text = (before ++ s)%string -> String.length before = pos ->
    Forall (link_in text) (scan SLACK_TEXT_EXTRACTOR text skip pos s).
Proof.
  induction s as [|c s IH]; intros skip pos before Htext Hpos; cbn [scan];
    [constructor|].
  assert (Hnext : text = ((before ++ String c EmptyString) ++ s)%string).
  { rewrite append_assoc. exact Htext. }
  assert (Hlen : String.length (before ++ String c EmptyString) = S pos).
  { rewrite StrFacts.length_append. cbn [String.length]. lia. }
  destruct skip as [|skip]; [|now apply (IH _ _ _ Hnext)].
  destruct (match_at SLACK_TEXT_EXTRACTOR pos (String c s)) as [[e cap]|] eqn:Hm;
    [|now apply (IH _ _ _ Hnext)].
  constructor; [|now apply (IH _ _ _ Hnext)].
  apply link_match_text in Hm.
  destruct Hm as (url & label & rest & Hs & Hne & Hlacks & -> & ->).
  assert (Hgroup : group_text text
                     (Some ((pos + String.length url + 2)%nat,
                            (pos + String.length url + 2 + String.length label)%nat))
                   = label).
  { cbn [group_text].
    replace (pos + String.length url + 2 + String.length label
             - (pos + String.length url + 2))%nat
      with (String.length label) by lia.
    rewrite Htext, Hs.
    replace (before ++ "<" ++ url ++ "|" ++ label ++ ">" ++ rest)%string
      with ((before ++ "<" ++ url ++ "|") ++ label ++ ">" ++ rest)%string
      by (now rewrite !append_assoc).
    replace (pos + String.length url + 2)%nat
      with (String.length (before ++ "<" ++ url ++ "|")).
    - rewrite drop_length_append. apply take_length_append.
    - rewrite !StrFacts.length_append. cbn [String.length]. lia. }
  exists before, url, rest. cbn [m_start m_end m_group]. rewrite Hgroup.
  repeat split; try assumption.
  - rewrite Htext, Hs. reflexivity.
  - now symmetry.
  - lia.
Qed.

Lemma finditer_links (text : string) :
  Forall (link_in text) (finditer SLACK_TEXT_EXTRACTOR text).
Proof. apply (scan_links text text O O EmptyString); reflexivity. Qed.

(** C2, as the claim states it: the label of a link can itself open a link,
    and then the output still holds a match and a second pass changes it. *)
Lemma clean_links_not_idempotent :
  clean_links "<a.b|<c.d|x>>" = "<c.d|x>" /\
  finditer SLACK_TEXT_EXTRACTOR (clean_links "<a.b|<c.d|x>>") <> [] /\
  clean_links (clean_links "<a.b|<c.d|x>>") <> clean_links "<a.b|<c.d|x>>".
Proof. vm_compute. repeat split; discriminate. Qed.

(** C2, amended.  [clean_links] returns its input with each match of the
    link pattern that one scan from left to right finds in it replaced by the
    label of the match, and with the text between the matches as it was; a
    match covers "<", a target, "|", the label and ">", and the label is not
    empty and holds no ">".  The output is never longer than the input; a
    text without a match is left as it is and every text that has one is
    changed.  Hence a second pass changes nothing exactly when the output of
    the first has no match left, which is the case for
    "<https://example.com|Click Here>", whose output is "Click Here". *)
Theorem clean_links_fixed_points :
  (forall x, clean_links x = splice x 0 (finditer SLACK_TEXT_EXTRACTOR x)) /\
  (forall x, Forall (link_in x) (finditer SLACK_TEXT_EXTRACTOR x)) /\
  (forall x, clean_links x = x <-> finditer SLACK_TEXT_EXTRACTOR x = []) /\
  (forall x,
      clean_links (clean_links x) = clean_links x <->
      finditer SLACK_TEXT_EXTRACTOR (clean_links x) = []) /\
  (forall x, (String.length (clean_links x) <= String.length x)%nat) /\
  clean_links "<https://example.com|Click Here>" = "Click Here" /\
  finditer SLACK_TEXT_EXTRACTOR "Click Here" = [].
Proof.
  assert (Hfix : forall x, clean_links x = x <-> finditer SLACK_TEXT_EXTRACTOR x = []).
  { intros x. split; [|apply clean_links_no_match].
    intros Heq. destruct (finditer SLACK_TEXT_EXTRACTOR x) as [|m ms] eqn:Hm; [reflexivity|].
    exfalso. assert (Hne : finditer SLACK_TEXT_EXTRACTOR x <> []) by (rewrite Hm; discriminate).
    apply clean_links_shortens in Hne. rewrite Heq in Hne. lia. }
  split; [exact clean_links_splice|]. split; [exact finditer_links|].
  split; [exact Hfix|]. split; [intros x; apply Hfix|].
  split; [|vm_compute; split; reflexivity].
  intros x. destruct (finditer SLACK_TEXT_EXTRACTOR x) as [|m ms] eqn:Hm.
  - rewrite clean_links_no_match by exact Hm. lia.
  - assert (Hne : finditer SLACK_TEXT_EXTRACTOR x <> []) by (rewrite Hm; discriminate).
    apply clean_links_shortens in Hne. lia.
Qed.

Lemma clean_links_fixed_points_witness :
  clean_links (clean_links "see <a.b|x>") = clean_links "see <a.b|x>".
Proof.
  apply (proj2 (proj1 (proj2 (proj2 (proj2 clean_links_fixed_points))) "see <a.b|x>")).
  vm_compute. reflexivity.
Defined.

(* ================================================================= *)
(** * Further properties of the code *)


(** ** Every command answers once *)

Lemma post_replies_once channel msg w :
  replies_once channel w (client.post channel msg w).
Proof. exists msg, false, (users w). reflexivity. Qed.

Lemma handlers_reply_once
    (transcription_check_reason : BlossomUser -> string)
    (joke_service : option string) (use_api : bool)
    (channel : json) (message : string) (w : World) :
  replies_once channel w (pong channel message w) /\
  replies_once channel w (send_help_message channel message w) /\
  replies_once channel w (process_blacklist channel message w) /\
  replies_once channel w (process_coc_reset channel message w) /\
  replies_once channel w (dadjoke_target joke_service use_api channel message w) /\
  replies_once channel w (watchstatus_cmd transcription_check_reason channel message w).
Proof.
  unfold process_blacklist, process_coc_reset, dadjoke_target, watchstatus_cmd,
    parse_user, replies_once.
  repeat split.
  - apply post_replies_once.
  - apply post_replies_once.
  - destruct (Str.split message) as [|t0 [|t1 [|t2 tokens]]];
      unfold bind, ret, Users.first_iexact, Users.save, client.post, emit; cbn;
      try (eexists _, _, _; reflexivity).
    destruct (List.find _ (users w)) as [u|]; [destruct (blacklisted u)|]; cbn;
      eexists _, _, _; reflexivity.
  - destruct (Str.split message) as [|t0 [|t1 [|t2 tokens]]];
      unfold bind, ret, Users.first_iexact, Users.save, client.post, emit; cbn;
      try (eexists _, _, _; reflexivity).
    destruct (List.find _ (users w)) as [u|]; [destruct (accepted_coc u)|]; cbn;
      eexists _, _, _; reflexivity.
  - unfold emit. eexists _, _, _. reflexivity.
  - destruct (Str.split message) as [|t0 [|t1 [|t2 tokens]]];
      unfold bind, ret, Users.first_iexact, client.post, emit; cbn;
      try (eexists _, _, _; reflexivity).
    destruct (List.find _ (users w)) as [u|]; cbn; eexists _, _, _; reflexivity.
Qed.

(** The handlers ping, help, blacklist, reset, dadjoke and watchstatus never
    raise: whatever the message, they return after posting exactly one
    message, on the channel they were given, and leave the submissions as
    they were. *)
Theorem handlers_reply_exactly_once
    (transcription_check_reason : BlossomUser -> string)
    (joke_service : option string) (use_api : bool)
    (channel : json) (message : string) (w : World) :
  replies_once channel w (pong channel message w) /\
  replies_once channel w (send_help_message channel message w) /\
  replies_once channel w (process_blacklist channel message w) /\
  replies_once channel w (process_coc_reset channel message w) /\
  replies_once channel w (dadjoke_target joke_service use_api channel message w) /\
  replies_once channel w (watchstatus_cmd transcription_check_reason channel message w).
Proof.
  exact (handlers_reply_once transcription_check_reason joke_service use_api
           channel message w).
Qed.

Lemma send_info_raises_or_replies summary serializer channel message w :
  raises_or_replies channel w (send_info summary serializer channel message w).
Proof.
  unfold send_info, raises_or_replies.
  destruct (Str.split message) as [|t0 [|t1 [|t2 tokens]]];
    try (right; apply post_replies_once).
  - unfold bind, lift. destruct (dict_to_table summary None None) as [table|e].
    + right. apply post_replies_once.
    + left. now exists e.
  - unfold bind, lift, ret, Users.first_iexact.
    destruct (List.find _ (users w)) as [u|].
    + destruct (dict_to_table (serializer u) None None) as [table|e].
      * right. apply post_replies_once.
      * left. now exists e.
    + right. apply post_replies_once.
Qed.

Lemma route_raises_or_replies opts channel message w :
  (forall key handler, List.In (key, handler) opts ->
                       raises_or_replies channel w (handler channel message w)) ->
  raises_or_replies channel w (route opts channel message w).
Proof.
  induction opts as [|[key handler] opts IH]; intros Hall; cbn [route].
  - right. apply post_replies_once.
  - destruct (Str.startswith message key).
    + apply (Hall key handler). now left.
    + apply IH. intros k h Hin. apply (Hall k h). now right.
Qed.

(** For a payload that is not a block action, [process_message] either raises
    with nothing posted and nothing changed, or posts exactly one message, on
    the channel of the event, and leaves the submissions as they were. *)
Theorem process_message_answers_once_or_raises
    (generate_summary : list (string * dval))
    (VolunteerSerializer : BlossomUser -> list (string * dval))
    (joke_service : option string)
    (data : list (string * json)) (w : World) :
  Py.eq_str (Py.dict_get data "type") "block_actions" = false ->
  (exists e, process_message generate_summary VolunteerSerializer joke_service data w
             = (Raise e, w)) \/
  (exists channel,
      Py.get (Py.dict_get data "event") "channel" = Ok channel /\
      replies_once channel w
        (process_message generate_summary VolunteerSerializer joke_service data w)).
Proof.
  intros Htype. unfold process_message. rewrite Htype. unfold bind, lift.
  destruct (Py.get (Py.dict_get data "event") "channel") as [channel|e];
    [|left; now exists e].
  destruct (get_message data) as [message|e]; [|left; now exists e].
  assert (Hgoal : forall out, raises_or_replies channel w out ->
            (exists e, out = (Raise e, w)) \/
            (exists channel0, Ok channel = Ok channel0 /\ replies_once channel0 w out)).
  { intros out [H|H]; [now left | right; now exists channel]. }
  apply Hgoal.
  destruct message as [[|c message]|].
  - destruct (negb _); right; apply post_replies_once.
  - apply route_raises_or_replies. intros key handler Hin.
    destruct (handlers_reply_once (fun _ => EmptyString) joke_service true
                channel (String c message) w) as (Hpong & Hhelp & Hbl & Hcoc & Hjoke & _).
    cbn [options List.In] in Hin.
    destruct Hin as [H|[H|[H|[H|[H|[H|[]]]]]]]; injection H as <- <-.
    + now right.
    + now right.
    + now right.
    + apply send_info_raises_or_replies.
    + now right.
    + now right.
  - destruct (negb _); right; apply post_replies_once.
Qed.

Lemma process_message_answers_once_or_raises_witness :
  replies_once (JStr "C1") empty_world
    (process_message [] (fun _ => []) None ping_pong_event empty_world).
Proof.
  destruct (process_message_answers_once_or_raises [] (fun _ => []) None
              ping_pong_event empty_world eq_refl) as [[e He]|(channel & Hch & H)].
  - vm_compute in He. discriminate.
  - injection Hch as <-. exact H.
Defined.

(** ** The routing table has no ambiguous prefix *)

Lemma startswith_head c m a p :
  Str.startswith (String c m) (String a p) = true ->
  a = c /\ Str.startswith m p = true.
Proof.
  cbn [Str.startswith]. intros H. apply andb_prop in H. destruct H as [Hc Hp].
  apply Ascii.eqb_eq in Hc. now split.
Qed.

(** No keyword of the routing table is a prefix of a message that another
    keyword is a prefix of: the handler that the router calls for a message is
    the handler of the only keyword the message starts with, so the order of
    the table decides nothing. *)
Theorem routing_keywords_unambiguous
    (generate_summary : list (string * dval))
    (VolunteerSerializer : BlossomUser -> list (string * dval))
    (joke_service : option string)
    (message key : string) (handler : json -> string -> M unit) :
  List.In (key, handler) (options generate_summary VolunteerSerializer joke_service) ->
  Str.startswith message key = true ->
  dispatch (options generate_summary VolunteerSerializer joke_service) message
    = Some (key, handler) /\
  (forall key' handler',
      List.In (key', handler')
              (options generate_summary VolunteerSerializer joke_service) ->
      Str.startswith message key' = true -> key' = key).
Proof.
  intros Hin Hstart.
  destruct message as [|c message].
  { cbn [options List.In] in Hin.
    destruct Hin as [H|[H|[H|[H|[H|[H|[]]]]]]]; injection H as <- <-; discriminate. }
  assert (Hfirst : forall k h,
             List.In (k, h) (options generate_summary VolunteerSerializer joke_service) ->
             Str.startswith (String c message) k = true ->
             (c = "p"%char /\ k = "ping") \/ (c = "h"%char /\ k = "help") \/
             (c = "r"%char /\ k = "reset") \/ (c = "i"%char /\ k = "info") \/
             (c = "b"%char /\ k = "blacklist") \/ (c = "d"%char /\ k = "dadjoke")).
  { intros k h Hk Hs. cbn [options List.In] in Hk.
    destruct Hk as [H|[H|[H|[H|[H|[H|[]]]]]]]; injection H as <- <-;
      apply startswith_head in Hs; destruct Hs as [<- _]; tauto. }
  split.
  - cbn [options List.In] in Hin.
    destruct Hin as [H|[H|[H|[H|[H|[H|[]]]]]]]; injection H as <- <-;
      pose proof Hstart as Hs; apply startswith_head in Hs; destruct Hs as [<- Hrest];
      unfold dispatch; cbn [options List.find Str.startswith Ascii.eqb Bool.eqb andb];
      cbn [Str.startswith] in Hstart; cbn in Hstart; rewrite ?Hstart;
      cbn; rewrite ?Hrest; reflexivity.
  - intros key' handler' Hin' Hstart'.
    destruct (Hfirst _ _ Hin Hstart) as [[Hc Hk]|[[Hc Hk]|[[Hc Hk]|[[Hc Hk]|[[Hc Hk]|[Hc Hk]]]]]];
      destruct (Hfirst _ _ Hin' Hstart')
        as [[Hc' Hk']|[[Hc' Hk']|[[Hc' Hk']|[[Hc' Hk']|[[Hc' Hk']|[Hc' Hk']]]]]];
      subst; try reflexivity; discriminate.
Qed.

Lemma routing_keywords_unambiguous_witness :
  dispatch (options [] (fun _ => []) None) "info bob"
    = Some ("info", send_info [] (fun _ => [])).
Proof.
  apply (proj1 (routing_keywords_unambiguous [] (fun _ => []) None "info bob" "info"
                  (send_info [] (fun _ => []))
                  (or_intror (or_intror (or_intror (or_introl eq_refl)))) eq_refl)).
Defined.

(** ** The toggles are undone by a second call *)

Lemma nodup_ids_inj (l : list BlossomUser) (u v : BlossomUser) :
  List.NoDup (List.map user_id l) -> List.In u l -> List.In v l ->
  user_id u = user_id v -> u = v.
Proof.
  induction l as [|x l IH]; intros Hnd Hu Hv Hid; [destruct Hu|].
  cbn [List.map] in Hnd. apply NoDup_cons_iff in Hnd. destruct Hnd as [Hx Hnd].
  destruct Hu as [<-|Hu], Hv as [<-|Hv].
  - reflexivity.
  - exfalso. apply Hx. rewrite Hid. now apply in_map.
  - exfalso. apply Hx. rewrite <- Hid. now apply in_map.
  - now apply IH.
Qed.

Lemma find_with_user (name : string) (l : list BlossomUser) (u u' : BlossomUser) :
  List.NoDup (List.map user_id l) ->
  List.find (fun v => Users.iexact (username v) name) l = Some u ->
  user_id u' = user_id u -> username u' = username u ->
  List.find (fun v => Users.iexact (username v) name) (with_user u' l) = Some u'.
Proof.
  intros Hnd Hfind Hid Hname.
  induction l as [|x l IH]; [discriminate|].
  cbn [List.map] in Hnd. apply NoDup_cons_iff in Hnd. destruct Hnd as [Hx Hnd].
  cbn [with_user List.map List.find] in *.
  destruct (Users.iexact (username x) name) eqn:Hp.
  - injection Hfind as ->. rewrite Hid, Z.eqb_refl. cbn [List.find].
    rewrite Hname, Hp. reflexivity.
  - assert (Hin : List.In u l) by (apply find_some in Hfind; tauto).
    assert (Hne : user_id x <> user_id u').
    { intros Heq. apply Hx. rewrite Heq, Hid. now apply in_map. }
    apply Z.eqb_neq in Hne. rewrite Hne. cbn [List.find]. rewrite Hp.
    now apply IH.
Qed.

Lemma with_user_back (l : list BlossomUser) (u u' : BlossomUser) :
  List.NoDup (List.map user_id l) -> List.In u l -> user_id u' = user_id u ->
  with_user u (with_user u' l) = l.
Proof.
  intros Hnd Hin Hid. unfold with_user. rewrite List.map_map.
  rewrite <- (List.map_id l) at 2. apply List.map_ext_in. intros v Hv.
  destruct (Z.eqb (user_id v) (user_id u')) eqn:Hvu.
  - rewrite Hid, Z.eqb_refl. apply Z.eqb_eq in Hvu.
    apply (nodup_ids_inj l); try assumption. congruence.
  - rewrite <- Hid, Hvu. reflexivity.
Qed.

Lemma blacklisted_set (b : bool) (u : BlossomUser) :
  blacklisted (set_blacklisted b u) = b.
Proof. reflexivity. Qed.

Lemma accepted_coc_set (b : bool) (u : BlossomUser) :
  accepted_coc (set_accepted_coc b u) = b.
Proof. reflexivity. Qed.

Lemma set_blacklisted_back (b b' : bool) (u : BlossomUser) :
  blacklisted u = b -> set_blacklisted b (set_blacklisted b' u) = u.
Proof. intros <-. destruct u. reflexivity. Qed.

Lemma set_accepted_coc_back (b b' : bool) (u : BlossomUser) :
  accepted_coc u = b -> set_accepted_coc b (set_accepted_coc b' u) = u.
Proof. intros <-. destruct u. reflexivity. Qed.

Lemma users_save_eq (u : BlossomUser) (w : World) :
  Users.save u w = (Ok tt, mkWorld (with_user u (users w)) (submissions w) (effects w)).
Proof. reflexivity. Qed.

(** Blacklisting flips the flag of the resolved user and nothing else, and a
    second call with the same message flips it back: after the two calls the
    user table is what it was, and the two replies are the success text and
    the undo text, in the order the flag decides. *)
Theorem blacklist_twice_restores_users
    (channel : json) (message key name : string) (w : World) (u : BlossomUser) :
  Str.split message = [key; name] ->
  List.NoDup (List.map user_id (users w)) ->
  List.find (fun v => Users.iexact (username v) (clean_links name)) (users w) = Some u ->
  let reply (flag : bool) :=
    chat_postMessage channel
      (format (i18n ["blacklist"; if flag then "success_undo" else "success"])
              [Lit (clean_links name)] []) false in
  let once := process_blacklist channel message w in
  once = (Ok tt,
          mkWorld (with_user (set_blacklisted (negb (blacklisted u)) u) (users w))
                  (submissions w) (effects w ++ [reply (blacklisted u)])) /\
  process_blacklist channel message (snd once)
    = (Ok tt,
       mkWorld (users w) (submissions w)
               (effects w ++ [reply (blacklisted u); reply (negb (blacklisted u))])).
Proof.
  intros Hsplit Hnd Hfind reply once.
  assert (Honce : once = (Ok tt,
            mkWorld (with_user (set_blacklisted (negb (blacklisted u)) u) (users w))
                    (submissions w) (effects w ++ [reply (blacklisted u)]))).
  { unfold once, process_blacklist. rewrite Hsplit.
    unfold bind, ret, Users.first_iexact, Users.save, client.post, emit.
    rewrite Hfind. unfold reply. destruct (blacklisted u); reflexivity. }
  split; [exact Honce|]. rewrite Honce. cbn [snd].
  assert (Hin : List.In u (users w)) by (apply find_some in Hfind; tauto).
  unfold process_blacklist. rewrite Hsplit.
  unfold bind, ret, Users.first_iexact, client.post, emit.
  cbn [users submissions effects].
  rewrite (find_with_user _ _ u) by (assumption || reflexivity).
  unfold reply.
  destruct (blacklisted u) eqn:Hb; cbn [negb]; rewrite blacklisted_set;
    rewrite users_save_eq; cbn [users submissions effects];
    rewrite set_blacklisted_back by exact Hb;
    rewrite (with_user_back (users w) u (set_blacklisted _ u) Hnd Hin eq_refl),
      <- app_assoc; reflexivity.
Qed.

(** The same for the code-of-conduct flag: a second reset with the same
    message restores the user table, and the replies are the success text
    when acceptance is withdrawn and the undo text when it is granted. *)
Theorem coc_reset_twice_restores_users
    (channel : json) (message key name : string) (w : World) (u : BlossomUser) :
  Str.split message = [key; name] ->
  List.NoDup (List.map user_id (users w)) ->
  List.find (fun v => Users.iexact (username v) (clean_links name)) (users w) = Some u ->
  let reply (flag : bool) :=
    chat_postMessage channel
      (format (i18n ["reset_coc"; if flag then "success" else "success_undo"])
              [Lit (clean_links name)] []) false in
  let once := process_coc_reset channel message w in
  once = (Ok tt,
          mkWorld (with_user (set_accepted_coc (negb (accepted_coc u)) u) (users w))
                  (submissions w) (effects w ++ [reply (accepted_coc u)])) /\
  process_coc_reset channel message (snd once)
    = (Ok tt,
       mkWorld (users w) (submissions w)
               (effects w ++ [reply (accepted_coc u); reply (negb (accepted_coc u))])).
Proof.
  intros Hsplit Hnd Hfind reply once.
  assert (Honce : once = (Ok tt,
            mkWorld (with_user (set_accepted_coc (negb (accepted_coc u)) u) (users w))
                    (submissions w) (effects w ++ [reply (accepted_coc u)]))).
  { unfold once, process_coc_reset. rewrite Hsplit.
    unfold bind, ret, Users.first_iexact, Users.save, client.post, emit.
    rewrite Hfind. unfold reply. destruct (accepted_coc u); reflexivity. }
  split; [exact Honce|]. rewrite Honce. cbn [snd].
  assert (Hin : List.In u (users w)) by (apply find_some in Hfind; tauto).
  unfold process_coc_reset. rewrite Hsplit.
  unfold bind, ret, Users.first_iexact, client.post, emit.
  cbn [users submissions effects].
  rewrite (find_with_user _ _ u) by (assumption || reflexivity).
  unfold reply.
  destruct (accepted_coc u) eqn:Hb; cbn [negb]; rewrite accepted_coc_set;
    rewrite users_save_eq; cbn [users submissions effects];
    rewrite set_accepted_coc_back by exact Hb;
    rewrite (with_user_back (users w) u (set_accepted_coc _ u) Hnd Hin eq_refl),
      <- app_assoc; reflexivity.
Qed.

Lemma blacklist_twice_restores_users_witness :
  users (snd (process_blacklist (JStr "C1") "blacklist ALICE"
                (snd (process_blacklist (JStr "C1") "blacklist ALICE" two_users))))
    = users two_users.
Proof.
  assert (Hnd : List.NoDup (List.map user_id (users two_users))).
  { cbn. repeat constructor; cbn; intuition discriminate. }
  destruct (blacklist_twice_restores_users (JStr "C1") "blacklist ALICE" "blacklist"
              "ALICE" two_users (mkUser 1 "Alice" false true false (Date.utc 0))
              eq_refl Hnd eq_refl) as [_ H].
  rewrite H. reflexivity.
Defined.

Lemma coc_reset_twice_restores_users_witness :
  users (snd (process_coc_reset (JStr "C1") "reset <http://bob.io|BOB>"
                (snd (process_coc_reset (JStr "C1") "reset <http://bob.io|BOB>" two_users))))
    = users two_users.
Proof.
  assert (Hnd : List.NoDup (List.map user_id (users two_users))).
  { cbn. repeat constructor; cbn; intuition discriminate. }
  destruct (coc_reset_twice_restores_users (JStr "C1") "reset <http://bob.io|BOB>" "reset"
              "<http://bob.io|BOB>" two_users (mkUser 2 "bob" true false false (Date.utc 0))
              eq_refl Hnd eq_refl) as [_ H].
  rewrite H. reflexivity.
Defined.

(** ** What the message extraction does *)

Lemma lower_char_idempotent (c : ascii) :
  Str.lower_char (Str.lower_char c) = Str.lower_char c.
Proof. destruct c as [[] [] [] [] [] [] [] []]; reflexivity. Qed.

Lemma lower_idempotent (s : string) : Str.lower (Str.lower s) = Str.lower s.
Proof.
  induction s as [|c s IH]; [reflexivity|].
  unfold Str.lower in *. cbn [Str.map]. now rewrite lower_char_idempotent, IH.
Qed.

Lemma index_from_lacks (c : ascii) (s : string) (i : nat) :
  lacks c s = true -> Str.index_from c i s = Raise ValueError.
Proof.
  revert i. induction s as [|a s IH]; intros i; cbn [lacks Str.index_from]; [reflexivity|].
  intros H. apply andb_prop in H. destruct H as [Ha Hs].
  apply negb_true_iff in Ha. rewrite Ha. now apply IH.
Qed.

Lemma index_from_outcome (c : ascii) (s : string) (i : nat) :
  (exists j, Str.index_from c i s = Ok j) \/ Str.index_from c i s = Raise ValueError.
Proof.
  revert i. induction s as [|a s IH]; intros i; cbn [Str.index_from]; [now right|].
  destruct (Ascii.eqb a c); [left; now exists i | apply IH].
Qed.

Lemma index_from_first (c : ascii) (before after : string) (i : nat) :
  lacks c before = true ->
  Str.index_from c i (before ++ String c after) = Ok (i + String.length before)%nat.
Proof.
  revert i. induction before as [|a before IH]; intros i; cbn [lacks]; intros H.
  - rewrite append_nil_l. cbn [Str.index_from String.length].
    rewrite Ascii.eqb_refl. f_equal. lia.
  - apply andb_prop in H. destruct H as [Ha Hs]. apply negb_true_iff in Ha.
    rewrite append_cons. cbn [Str.index_from String.length].
    rewrite Ha, IH by exact Hs. f_equal. lia.
Qed.

(** [get_message] never returns [None]: the [except IndexError] of the source
    is never taken.  What it returns is in lower case. *)
Theorem get_message_never_none (data : list (string * json)) :
  get_message data <> Ok None /\
  (forall message, get_message data = Ok (Some message) -> Str.lower message = message).
Proof.
  unfold get_message, Py.item.
  destruct (Py.dict_get data "event") as [| | | | |fields]; try (split; [|intros m]; discriminate).
  destruct (Py.assoc "text" fields) as [[| | |text|l|]|]; cbn [rbind];
    try (split; [|intros m]; discriminate).
  - unfold Str.index.
    destruct (index_from_outcome ">" text 0) as [[i ->] | ->]; cbn [rbind].
    + split; [discriminate|]. intros m [= <-]. apply lower_idempotent.
    + split; [|intros m]; discriminate.
  - destruct (existsb _ l); split; try intros m; discriminate.
Qed.

Lemma get_message_never_none_witness :
  Str.lower "ping-pong now" = "ping-pong now".
Proof.
  apply (proj2 (get_message_never_none ping_pong_event) "ping-pong now"). reflexivity.
Defined.

(** The text of an event is cut after the first [">"] and one more character,
    whatever that character is, and lowered; a text without [">"] raises
    [ValueError]. *)
Theorem get_message_cuts_after_mention
    (data fields : list (string * json)) (text : string) :
  Py.dict_get data "event" = JObj fields ->
  Py.assoc "text" fields = Some (JStr text) ->
  (lacks ">" text = true -> get_message data = Raise ValueError) /\
  (forall mention rest,
      text = (mention ++ String ">" rest)%string -> lacks ">" mention = true ->
      get_message data = Ok (Some (Str.lower (Str.drop 1 rest)))).
Proof.
  intros Hevent Htext. unfold get_message, Py.item, Str.index.
  rewrite Hevent, Htext. cbn [rbind]. split.
  - intros H. rewrite index_from_lacks by exact H. reflexivity.
  - intros mention rest -> H. rewrite index_from_first by exact H. cbn [rbind].
    replace (0 + String.length mention + 2)%nat
      with (String.length mention + 2)%nat by lia.
    rewrite drop_append. reflexivity.
Qed.

Lemma get_message_cuts_after_mention_witness :
  get_message plain_text_event = Raise ValueError /\
  get_message glued_event = Ok (Some "ing me").
Proof.
  split.
  - apply (proj1 (get_message_cuts_after_mention plain_text_event _ "hello"
                    eq_refl eq_refl)).
    reflexivity.
  - apply (proj2 (get_message_cuts_after_mention glued_event _ "<@U1>PING me"
                    eq_refl eq_refl) "<@U1" "PING me"); reflexivity.
Defined.

(** ** Texts that the sanitizer leaves alone *)

Lemma reaches_suffix_trans s before s' k x :
  s = (before ++ s')%string -> reaches_suffix s' k x -> reaches_suffix s k x.
Proof.
  intros -> (pos'' & s'' & cap'' & before' & Hk & ->).
  exists pos'', s'', cap'', (before ++ before')%string.
  split; [exact Hk | now rewrite append_assoc].
Qed.

Lemma star_loop_suffix step fuel :
  (forall pos s cap k x, step pos s cap k = Some x -> reaches_suffix s k x) ->
  forall pos s cap k x,
    star_loop step fuel pos s cap k = Some x -> reaches_suffix s k x.
Proof.
  intros Hstep. induction fuel as [|fuel IH]; intros pos s cap k x; cbn [star_loop].
  - intros H. now exists pos, s, cap, EmptyString.
  - destruct (step pos s cap _) as [y|] eqn:Hy.
    + intros [= ->]. apply Hstep in Hy.
      destruct Hy as (pos' & s' & cap' & before & Hk & Hs).
      destruct (Nat.eqb pos' pos); [discriminate|].
      apply IH in Hk. eapply reaches_suffix_trans; eassumption.
    + intros H. now exists pos, s, cap, EmptyString.
Qed.

Lemma run_suffix r :
  forall fuel pos s cap k x,
    run r fuel pos s cap k = Some x -> reaches_suffix s k x.
Proof.
  induction r as [p | r1 IH1 r2 IH2 | r1 IH1 | r1 IH1 | r1 IH1 | r1 IH1];
    intros fuel pos s cap k x; cbn [run].
  - destruct s as [|c s']; [discriminate|].
    destruct (p c); [|discriminate].
    intros H. now exists (S pos), s', cap, (String c EmptyString).
  - intros H. apply IH1 in H. destruct H as (pos' & s' & cap' & before & H & Hs).
    apply IH2 in H. eapply reaches_suffix_trans; eassumption.
  - destruct (run r1 fuel pos s cap k) as [y|] eqn:Hy.
    + intros [= ->]. eapply IH1; eassumption.
    + intros H. now exists pos, s, cap, EmptyString.
  - apply star_loop_suffix. intros; eapply IH1; eassumption.
  - intros H. apply IH1 in H. destruct H as (pos' & s' & cap' & before & H & Hs).
    apply star_loop_suffix in H; [|intros; eapply IH1; eassumption].
    eapply reaches_suffix_trans; eassumption.
  - intros H. apply IH1 in H. destruct H as (pos' & s' & cap' & before & H & Hs).
    now exists pos', s', (Some (pos, pos')), before.
Qed.

Lemma run_cat_suffix r1 r2 fuel pos s cap k x :
  run (Cat r1 r2) fuel pos s cap k = Some x ->
  exists pos' s' cap' before,
    run r2 fuel pos' s' cap' k = Some x /\ s = (before ++ s')%string.
Proof. cbn [run]. intros H. apply run_suffix in H. exact H. Qed.

Lemma run_group_lit_suffix r c fuel pos s cap k x :
  run (Cat (Group r) (lit c)) fuel pos s cap k = Some x ->
  exists before after, s = (before ++ String c after)%string.
Proof.
  unfold lit. cbn [run]. intros H. apply run_suffix in H.
  destruct H as (pe & se & ce & before & H & ->).
  destruct se as [|c1 s1]; [discriminate|].
  destruct (Ascii.eqb c c1) eqn:Hc; [|discriminate].
  apply Ascii.eqb_eq in Hc. subst c1. now exists before, s1.
Qed.

Lemma lacks_append (c : ascii) (a b : string) :
  lacks c (a ++ b) = (lacks c a && lacks c b)%bool.
Proof.
  induction a as [|x a IH]; [reflexivity|].
  rewrite append_cons. cbn [lacks]. now rewrite IH, andb_assoc.
Qed.

Lemma lacks_here (c : ascii) (before after : string) :
  lacks c (before ++ String c after) = false.
Proof.
  rewrite lacks_append. cbn [lacks]. rewrite Ascii.eqb_refl.
  cbn [negb andb]. apply andb_false_r.
Qed.

(** A text in which the link pattern matches holds a "<", later a "|" and
    later a ">". *)
Lemma link_match_needs_markup (pos : nat) (s : string) (x : outcome) :
  match_at SLACK_TEXT_EXTRACTOR pos s = Some x ->
  exists a b c, s = String "<" (a ++ String "|" (b ++ String ">" c)).
Proof.
  unfold match_at, SLACK_TEXT_EXTRACTOR. cbn [cat].
  generalize (S (String.length s)). intros fuel H.
  apply ReFacts.run_cat_lit in H. destruct H as (s0 & -> & H).
  do 6 (apply run_cat_suffix in H;
        let p := fresh "p" in let t := fresh "t" in let c := fresh "c" in
        let b := fresh "b" in let Hs := fresh "Hs" in
        destruct H as (p & t & c & b & H & Hs)).
  apply ReFacts.run_cat_lit in H. destruct H as (s1 & -> & H).
  apply run_group_lit_suffix in H. destruct H as (bl & s2 & ->).
  subst. eexists _, bl, s2.
  rewrite <- !append_assoc. reflexivity.
Qed.

Lemma link_match_has (c : ascii) (pos : nat) (s : string) (x : outcome) :
  c = "<"%char \/ c = "|"%char \/ c = ">"%char ->
  match_at SLACK_TEXT_EXTRACTOR pos s = Some x -> lacks c s = false.
Proof.
  intros Hc H. apply link_match_needs_markup in H. destruct H as (a & b & t & ->).
  destruct Hc as [-> | [-> | ->]].
  - reflexivity.
  - apply (lacks_here "|" (String "<" a)).
  - rewrite <- append_cons, <- (append_cons "|" b), <- append_assoc.
    apply lacks_here.
Qed.

Lemma scan_without (c : ascii) (text s : string) :
  c = "<"%char \/ c = "|"%char \/ c = ">"%char ->
  lacks c s = true ->
  forall skip pos, scan SLACK_TEXT_EXTRACTOR text skip pos s = [].
Proof.
  intros Hc. induction s as [|a s IH]; intros Hl skip pos; [reflexivity|].
  cbn [scan]. pose proof Hl as Hl'. cbn [lacks] in Hl'. apply andb_prop in Hl'.
  destruct Hl' as [_ Hs].
  destruct skip as [|skip]; [|now apply IH].
  destruct (match_at SLACK_TEXT_EXTRACTOR pos (String a s)) as [[e cap]|] eqn:Hm.
  - apply (link_match_has c) in Hm; [congruence | exact Hc].
  - now apply IH.
Qed.

(** A text that lacks "<", or lacks "|", or lacks ">" comes out of
    [clean_links] unchanged: plain user names and mentions such as "<@U123>"
    are not touched. *)
Theorem clean_links_keeps_plain_text (text : string) :
  (lacks "<" text || lacks "|" text || lacks ">" text)%bool = true ->
  finditer SLACK_TEXT_EXTRACTOR text = [] /\ clean_links text = text.
Proof.
  intros H.
  assert (Hnone : finditer SLACK_TEXT_EXTRACTOR text = []).
  { unfold finditer.
    apply orb_prop in H. destruct H as [H|H]; [apply orb_prop in H; destruct H as [H|H]|].
    - apply (scan_without "<"); [tauto | exact H].
    - apply (scan_without "|"); [tauto | exact H].
    - apply (scan_without ">"); [tauto | exact H]. }
  split; [exact Hnone | now apply clean_links_no_match].
Qed.

Lemma clean_links_keeps_plain_text_witness :
  clean_links "<@U123> some.user" = "<@U123> some.user".
Proof.
  apply (proj2 (clean_links_keeps_plain_text "<@U123> some.user" eq_refl)).
Defined.

(** ** The lines of a table *)
















Lemma mapM_length {A B} (f : A -> result B) (l : list A) (bs : list B) :
  mapM f l = Ok bs -> List.length bs = List.length l.
Proof.
  revert bs. induction l as [|a l IH]; intros bs; cbn [mapM].
  - now intros [= <-].
  - destruct (f a) as [b|]; [|discriminate]. cbn [rbind].
    destruct (mapM f l) as [bs'|]; [|discriminate]. cbn [rbind].
    intros [= <-]. cbn [List.length]. f_equal. now apply IH.
Qed.






(** Whenever [dict_to_table] returns, it returns two lines more than the
    mapping has entries. *)
Theorem dict_to_table_line_count
    (dictionary : list (string * dval)) (titles : option (list string))
    (width : option Z) (lines : list string) :
  dict_to_table dictionary titles width = Ok lines ->
  List.length lines = (2 + List.length dictionary)%nat.
Proof.
  unfold dict_to_table.
  destruct (match width with
            | None | Some 0 => _
            | Some w => Ok w
            end) as [w|]; [|discriminate]. cbn [rbind].
  destruct (Format.format _ _) as [header|]; [|discriminate]. cbn [rbind].
  destruct (mapM _ dictionary) as [rows|] eqn:Hrows; [|discriminate]. cbn [rbind].
  intros [= <-]. cbn [List.length]. apply mapM_length in Hrows. lia.
Qed.

Lemma dict_to_table_line_count_witness :
  List.length ["Key  | Value"; "--------"; "A    | 1   "; "BB   | x, None"]
    = (2 + List.length [("A", Scalar (AInt 1)); ("BB", Items [AStr "x"; ANone])])%nat.
Proof.
  apply (dict_to_table_line_count _ None None). vm_compute. reflexivity.
Defined.

(** ** What an accepted request proves *)

Lemma compare_digest_true (a b : string) : compare_digest a b = Ok true -> a = b.
Proof.
  unfold compare_digest. destruct (_ && _)%bool; [|discriminate].
  intros [= H]. now apply String.eqb_eq.
Qed.

(** A request that [is_valid_slack_request] accepts declares a timestamp that
    is an integer within 300 seconds of the clock, has a body that is Latin-1
    text, and carries in [X-Slack-Signature] exactly ["v0="] followed by the
    hexadecimal HMAC of ["v0:" + timestamp + ":" + body] under the secret. *)
Theorem slack_acceptance_is_sound
    (hmac_sha256 : string -> string -> string) (secret : string) (now : float)
    (request : HttpRequest) :
  is_valid_slack_request hmac_sha256 secret now request = Ok true ->
  exists timestamp t ft body_text msg,
    headers_get (headers request) "X-Slack-Request-Timestamp" = Some timestamp /\
    PyInt.int timestamp = Ok t /\
    PyFloat.of_int t = Ok ft /\
    PrimFloat.ltb 300%float (PrimFloat.abs (PrimFloat.sub now ft)) = false /\
    Codec.utf8_decode (Codec.bytes_of (body request)) = Ok body_text /\
    Codec.latin1_encode
      (Codec.bytes_of "v0:" ++ Codec.bytes_of timestamp ++ Codec.bytes_of ":" ++ body_text)
      = Ok msg /\
    headers_get (headers request) "X-Slack-Signature"
      = Some ("v0=" ++ Codec.hexlify (hmac_sha256 secret msg))%string.
Proof.
  unfold is_valid_slack_request, headers_item, stale, slack_signature_for.
  destruct (headers_get (headers request) "X-Slack-Signature") as [sig|]; [|discriminate].
  destruct (headers_get (headers request) "X-Slack-Request-Timestamp") as [ts|];
    [|discriminate]. cbn [rbind].
  destruct (PyInt.int ts) as [t|] eqn:Ht; [|discriminate]. cbn [rbind].
  destruct (PyFloat.of_int t) as [ft|] eqn:Hft; [|discriminate]. cbn [rbind].
  destruct (PrimFloat.ltb _ _) eqn:Hstale; [discriminate|].
  destruct (Codec.utf8_decode _) as [body_text|] eqn:Hbody; [|discriminate]. cbn [rbind].
  destruct (Codec.latin1_encode _) as [msg|] eqn:Hmsg; [|discriminate]. cbn [rbind].
  intros H. apply compare_digest_true in H. subst sig.
  exists ts, t, ft, body_text, msg. repeat split; assumption || reflexivity.
Qed.

Lemma slack_acceptance_is_sound_witness :
  exists msg,
    headers_get (headers (signed_request "1699999700")) "X-Slack-Signature"
      = Some ("v0=" ++ Codec.hexlify (toy_hmac "k" msg))%string.
Proof.
  destruct (slack_acceptance_is_sound toy_hmac "k" 1700000000%float
              (signed_request "1699999700") ltac:(vm_compute; reflexivity))
    as (ts & t & ft & body_text & msg & _ & _ & _ & _ & _ & _ & H).
  exists msg. exact H.
Defined.

(** [is_valid_github_request] accepts a request exactly when its
    [x-hub-signature] header is ["sha1="] followed by the hexadecimal HMAC of
    the body under the encoded secret; no clock is consulted.  Without the
    header the answer is [false]; with a header that is not ASCII the
    comparison raises [TypeError]. *)
Theorem github_acceptance_exact
    (hmac_sha1 : string -> string -> string) (secret : string) (request : HttpRequest) :
  let expected :=
    ("sha1=" ++ Codec.hexlify (hmac_sha1 (utf8_encode secret) (body request)))%string in
  (is_valid_github_request hmac_sha1 secret request = Ok true <->
   headers_get (headers request) "x-hub-signature" = Some expected) /\
  (headers_get (headers request) "x-hub-signature" = None ->
   is_valid_github_request hmac_sha1 secret request = Ok false) /\
  (forall signature,
      headers_get (headers request) "x-hub-signature" = Some signature ->
      Str.is_ascii signature = false ->
      is_valid_github_request hmac_sha1 secret request = Raise TypeError).
Proof.
  intros expected. unfold is_valid_github_request. fold expected.
  assert (Hascii : Str.is_ascii expected = true).
  { unfold expected. pose proof (hexlify_is_ascii
      (hmac_sha1 (utf8_encode secret) (body request))) as H.
    unfold Str.is_ascii in *. exact H. }
  split; [split|split].
  - destruct (headers_get (headers request) "x-hub-signature") as [sig|]; [|discriminate].
    intros H. apply compare_digest_true in H. now subst.
  - intros ->. unfold compare_digest. rewrite Hascii, String.eqb_refl. reflexivity.
  - intros ->. reflexivity.
  - intros sig -> Hsig. unfold compare_digest. rewrite Hsig, andb_false_r. reflexivity.
Qed.

Lemma github_acceptance_exact_witness :
  is_valid_github_request toy_hmac "k" sponsor_request = Ok true /\
  is_valid_github_request toy_hmac "k" (mkRequest [] "{}") = Ok false /\
  is_valid_github_request toy_hmac "k"
    (mkRequest [("x-hub-signature", String "233" EmptyString)] "{}") = Raise TypeError.
Proof.
  split; [|split].
  - apply (proj2 (proj1 (github_acceptance_exact toy_hmac "k" sponsor_request))).
    reflexivity.
  - apply (proj1 (proj2 (github_acceptance_exact toy_hmac "k" (mkRequest [] "{}")))).
    reflexivity.
  - apply (proj2 (proj2 (github_acceptance_exact toy_hmac "k"
                           (mkRequest [("x-hub-signature", String "233" EmptyString)] "{}")))
             (String "233" EmptyString)); reflexivity.
Defined.

(** ** The sponsorship notification *)

(** [send_github_sponsors_message] posts one message, on "org_running", when
    the payload holds the login of the sponsor and the name of the tier, and
    then the message is built from the emote of the action, the action, the
    login and the tier name; otherwise it raises and posts nothing. *)
Theorem sponsors_message_once_or_nothing
    (data : list (string * json)) (action : string) (w : World) :
  (exists e, send_github_sponsors_message data action w = (Raise e, w)) \/
  (exists sponsorship sponsor tier username sponsorlevel,
      Py.assoc "sponsorship" data = Some sponsorship /\
      Py.item sponsorship "sponsor" = Ok sponsor /\
      Py.item sponsor "login" = Ok username /\
      Py.item sponsorship "tier" = Ok tier /\
      Py.item tier "name" = Ok sponsorlevel /\
      send_github_sponsors_message data action w =
        client.post (JStr "org_running")
          (format (i18n ["github_sponsor_update"])
                  [Lit (sponsor_emote action); Lit action; StrOf username;
                   StrOf sponsorlevel] [])
          w).
Proof.
  unfold send_github_sponsors_message, bind, lift. cbn [Py.item].
  destruct (Py.assoc "sponsorship" data) as [sponsorship|]; [|left; now eexists].
  destruct (Py.item sponsorship "sponsor") as [sponsor|] eqn:Hsponsor; [|left; now eexists].
  destruct (Py.item sponsor "login") as [username|] eqn:Hlogin; [|left; now eexists].
  destruct (Py.item sponsorship "tier") as [tier|] eqn:Htier; [|left; now eexists].
  destruct (Py.item tier "name") as [sponsorlevel|] eqn:Hname; [|left; now eexists].
  right. exists sponsorship, sponsor, tier, username, sponsorlevel.
  repeat (split; [assumption || reflexivity|]).
  unfold sponsor_emote. cbn [existsb].
  destruct (String.eqb action "cancelled") eqn:E1;
    [apply String.eqb_eq in E1; subst; reflexivity|].
  destruct (String.eqb action "pending_cancellation") eqn:E2;
    [apply String.eqb_eq in E2; subst; reflexivity|].
  destruct (String.eqb action "edited"), (String.eqb action "tier_changed"),
    (String.eqb action "pending_tier_change"); reflexivity.
Qed.

(** ** The block-action processor at its edges *)

Lemma callback_lookup data value message blocks (w : World) :
  callback_of data value message blocks ->
  process_submission_update data w =
    (id_token <- lift (nth_token (Str.split_on "_" value) 2) ;
     id <- lift (PyInt.int id_token) ;
     submission_obj <- Submissions.get id ;
     verb <- lift (nth_token (Str.split_on "_" value) 0) ;
     blocks <-
       (if String.eqb verb "keep"
        then
          _ <- Submissions.save
                 (mkSubmission (submission_id submission_obj) false
                               (approved submission_obj)) true ;
          lift (set_last blocks kept_notice)
        else
          _ <- emit (remove_post (submission_id submission_obj)) ;
          lift (set_last blocks (removed_notice (submission_id submission_obj)))) ;
     channel <- lift (Py.item (JObj data) "channel") ;
     channel_id <- lift (Py.item channel "id") ;
     message <- lift (Py.item (JObj data) "message") ;
     ts <- lift (Py.item message "ts") ;
     emit (chat_update channel_id ts blocks))%M w.
Proof.
  intros (actions & action & Hactions & Haction & Hvalue & Hmessage & Hblocks).
  unfold process_submission_update, bind, lift at 1 2 3 4 5 6.
  rewrite Hactions, Haction, Hvalue. cbn [split_value]. rewrite Hmessage, Hblocks.
  reflexivity.
Qed.




(** When the message of the callback has no block, the update of the message
    fails with [IndexError] after the deed is done: for "keep" the submission
    has been saved with its flag cleared, for any other verb the removal has
    been invoked; the message itself is not updated. *)
Theorem block_action_without_blocks
    (data : list (string * json)) (value verb middle id_token : string)
    (rest : list string) (message : json) (w : World) (id : Z)
    (submission : Submission) :
  callback_of data value message (JArr []) ->
  Str.split_on "_" value = verb :: middle :: id_token :: rest ->
  PyInt.int id_token = Ok id ->
  submissions w !! id = Some submission ->
  submission_id submission = id ->
  process_submission_update data w =
    (Raise IndexError,
     if String.eqb verb "keep"
     then mkWorld (users w)
                  (<[id := mkSubmission id false (approved submission)]> (submissions w))
                  (effects w ++ [submission_save id true])
     else mkWorld (users w) (submissions w) (effects w ++ [remove_post id])).
Proof.
  intros Hcb Hsplit Hint Hsub Hid. rewrite (callback_lookup _ _ _ _ w Hcb).
  unfold bind, lift, Submissions.get. rewrite Hsplit. cbn [nth_token nth_error].
  rewrite Hint, Hsub, Hid.
  destruct (String.eqb verb "keep"); reflexivity.
Qed.

Lemma blockless_is_callback :
  callback_of blockless_callback "remove_submission_5"
    (JObj [("ts", JStr "1.5"); ("blocks", JArr [])]) (JArr []).
Proof. eexists _, _. repeat split; reflexivity. Qed.

Lemma block_action_without_blocks_witness :
  process_submission_update blockless_callback two_submissions
    = (Raise IndexError,
       mkWorld [] (submissions two_submissions) [remove_post 5]).
Proof.
  exact (block_action_without_blocks blockless_callback "remove_submission_5"
           "remove" "submission" "5" [] _ two_submissions 5 (mkSubmission 5 true false)
           blockless_is_callback eq_refl eq_refl eq_refl eq_refl).
Defined.

(** The router lets a block action through when "keep" or "remove" occurs
    anywhere in its value, but the processor keeps only when the first token
    is "keep": a value that mentions "keep" elsewhere is a removal. *)
Theorem block_action_keep_must_come_first
    (generate_summary : list (string * dval))
    (VolunteerSerializer : BlossomUser -> list (string * dval))
    (joke_service : option string)
    (data : list (string * json)) (value verb middle id_token : string)
    (rest : list string) (b : json) (blocks : list json)
    (message channel channel_id ts : json) (w : World) (id : Z)
    (submission : Submission) :
  Py.eq_str (Py.dict_get data "type") "block_actions" = true ->
  callback_of data value message (JArr (blocks ++ [b])) ->
  Str.contains "keep" value = true ->
  Str.split_on "_" value = verb :: middle :: id_token :: rest ->
  String.eqb verb "keep" = false ->
  PyInt.int id_token = Ok id ->
  submissions w !! id = Some submission ->
  submission_id submission = id ->
  Py.item message "ts" = Ok ts ->
  Py.item (JObj data) "channel" = Ok channel ->
  Py.item channel "id" = Ok channel_id ->
  process_message generate_summary VolunteerSerializer joke_service data w =
    (Ok tt,
     mkWorld (users w) (submissions w)
             (effects w ++ [ remove_post id;
                             chat_update channel_id ts
                                         (JArr (blocks ++ [removed_notice id])) ])).
Proof.
  intros Htype Hcb Hkeep Hsplit Hverb Hint Hsub Hid Hts Hchannel Hcid.
  unfold process_message. rewrite Htype.
  pose proof Hcb as (actions & action & Hactions & Haction & Hvalue & Hmessage & Hblocks).
  unfold bind at 1 2 3 4 5, lift at 1 2 3 4. rewrite Hactions, Haction, Hvalue.
  cbn [py_in]. rewrite Hkeep. unfold ret.
  rewrite (callback_lookup _ _ _ _ w Hcb).
  unfold bind, lift, Submissions.get, emit. rewrite Hsplit. cbn [nth_token nth_error].
  rewrite Hint, Hsub, Hid, Hverb. cbn [users submissions effects].
  rewrite set_last_snoc, Hchannel, Hcid, Hmessage, Hts.
  cbn [users submissions effects]. rewrite <- app_assoc. reflexivity.
Qed.

Lemma housekeeping_is_callback :
  callback_of housekeeping_callback "dont_keep_5"
    (JObj [("ts", JStr "1.5"); ("blocks", JArr [JStr "report"; JStr "buttons"])])
    (JArr ([JStr "report"] ++ [JStr "buttons"])).
Proof. eexists _, _. repeat split; reflexivity. Qed.

Lemma block_action_keep_must_come_first_witness :
  process_message [] (fun _ => []) None housekeeping_callback two_submissions =
    (Ok tt,
     mkWorld [] (submissions two_submissions)
             [ remove_post 5;
               chat_update (JStr "C1") (JStr "1.5") (JArr [JStr "report"; removed_notice 5]) ]).
Proof.
  exact (block_action_keep_must_come_first [] (fun _ => []) None housekeeping_callback
           "dont_keep_5" "dont" "keep" "5" [] (JStr "buttons") [JStr "report"]
           _ (JObj [("id", JStr "C1")]) (JStr "C1") (JStr "1.5") two_submissions 5
           (mkSubmission 5 true false)
           eq_refl housekeeping_is_callback eq_refl eq_refl eq_refl eq_refl eq_refl
           eq_refl eq_refl eq_refl eq_refl).
Defined.

(** Whatever the callback, [process_submission_update] leaves the users as
    they are, posts no new message, and, in a store whose records sit under
    their own id, changes at most one submission, and that one only by
    clearing its removed-from-queue flag: there is an id such that every
    other record is as it was, and the record of that id is as it was or has
    its flag cleared; [approved] is never written. *)
Theorem block_action_footprint (data : list (string * json)) (w : World) :
  (forall i s, submissions w !! i = Some s -> submission_id s = i) ->
  let w' := snd (process_submission_update data w) in
  users w' = users w /\
  (exists log, effects w' = effects w ++ log /\ forallb (fun e => negb (is_post e)) log = true) /\
  (exists j,
      (forall i, i <> j -> submissions w' !! i = submissions w !! i) /\
      (submissions w' !! j = submissions w !! j \/
       exists s, submissions w !! j = Some s /\
                 submissions w' !! j = Some (mkSubmission j false (approved s)))).
Proof.
  intros Hinv.
  unfold process_submission_update, bind, lift, Submissions.get, Submissions.save, emit.
  repeat match goal with
         | |- context [match ?x with Ok _ => _ | Raise _ => _ end] =>
             destruct x eqn:?
         | |- context [match submissions ?w0 !! ?i with Some _ => _ | None => _ end] =>
             destruct (submissions w0 !! i) eqn:?
         | |- context [if String.eqb ?a ?b then _ else _] =>
             destruct (String.eqb a b) eqn:?
         end;
    cbn [snd users submissions effects];
    (split; [reflexivity|]);
    (split;
     [ first [ exists []; split; [now rewrite app_nil_r | reflexivity]
             | eexists; split; [rewrite <- ?app_assoc; reflexivity | reflexivity] ]
     | ]);
    try (exists 0; split; [intros i _; reflexivity | left; reflexivity]).
  all: cbn [submission_id];
    match goal with
    | H : submissions _ !! ?j = Some ?s |- _ =>
        rewrite (Hinv _ _ H); exists j; split;
        [ intros i Hne; apply lookup_insert_ne; congruence
        | right; exists s; split; [exact H | apply lookup_insert_eq] ]
    end.
Qed.

Lemma block_action_footprint_witness :
  let w' := snd (process_submission_update keep_callback two_submissions) in
  users w' = [] /\
  exists j,
    (forall i, i <> j -> submissions w' !! i = submissions two_submissions !! i) /\
    (submissions w' !! j = submissions two_submissions !! j \/
     exists s, submissions two_submissions !! j = Some s /\
               submissions w' !! j = Some (mkSubmission j false (approved s))).
Proof.
  assert (Hinv : forall i s, submissions two_submissions !! i = Some s ->
                             submission_id s = i).
  { intros i s. unfold two_submissions. cbn [submissions].
    destruct (Z.eq_dec i 7) as [->|H7].
    - rewrite lookup_insert_eq. now intros [= <-].
    - rewrite lookup_insert_ne by congruence.
      destruct (Z.eq_dec i 5) as [->|H5].
      + rewrite lookup_singleton_eq. now intros [= <-].
      + rewrite lookup_singleton_ne by congruence. discriminate. }
  destruct (block_action_footprint keep_callback two_submissions Hinv) as (Hu & _ & Hs).
  split; [exact Hu | exact Hs].
Defined.

(** ** The ratios of the quality report *)

(** The ratios of the quality section are guarded: for a user without any
    transcription ([gamma] not positive) the share of checks is shown as
    0.0% whatever the number of checks, and for a user without checks the
    shares of warnings and comments are shown as 0.0%; no division takes
    place in either case. *)
Theorem quality_ratios_are_guarded
    (gamma : BlossomUser -> Z)
    (user_checks : BlossomUser -> list TranscriptionCheckStatus)
    (transcription_check_reason : BlossomUser -> string) (user : BlossomUser) :
  let info :=
    user_transcription_quality_info gamma user_checks transcription_check_reason user in
  (gamma user <= 0 ->
   Py.assoc "Checks" info
     = Some (Str.of_Z (Z.of_nat (List.length (user_checks user)))
             ++ " (0.0% of transcriptions)")%string) /\
  (user_checks user = [] ->
   Py.assoc "Warnings" info = Some "0 (0.0% of checks)" /\
   Py.assoc "Comments" info = Some "0 (0.0% of checks)").
Proof.
  cbn zeta. unfold user_transcription_quality_info. split.
  - intros Hg. apply Z.ltb_ge in Hg. rewrite Hg. reflexivity.
  - intros ->. split; reflexivity.
Qed.

Lemma quality_ratios_are_guarded_witness :
  Py.assoc "Checks"
    (user_transcription_quality_info (fun _ => 0) (fun _ => [WARNING_PENDING])
                                     (fun _ => "None") some_user)
    = Some "1 (0.0% of transcriptions)".
Proof.
  apply (proj1 (quality_ratios_are_guarded (fun _ => 0) (fun _ => [WARNING_PENDING])
                  (fun _ => "None") some_user)).
  reflexivity.
Defined.

(** ** From the event to the reply *)

(** A message whose text, after the mention and one more character, starts
    with "ping" in any letter case is answered "PONG" on the channel of the
    event, whatever follows the keyword. *)
Theorem ping_is_answered_in_any_case
    (generate_summary : list (string * dval))
    (VolunteerSerializer : BlossomUser -> list (string * dval))
    (joke_service : option string)
    (data fields : list (string * json)) (mention rest : string) (c : ascii)
    (w : World) :
  Py.eq_str (Py.dict_get data "type") "block_actions" = false ->
  Py.dict_get data "event" = JObj fields ->
  Py.assoc "text" fields = Some (JStr (mention ++ String ">" (String c rest))) ->
  lacks ">" mention = true ->
  Str.startswith (Str.lower rest) "ping" = true ->
  process_message generate_summary VolunteerSerializer joke_service data w
    = client.post (Py.dict_get fields "channel") (Lit "PONG") w.
Proof.
  intros Htype Hevent Htext Hmention Hping.
  unfold process_message. rewrite Htype, Hevent. unfold bind, lift. cbn [Py.get].
  unfold get_message, Py.item, Str.index. rewrite Hevent, Htext. cbn [rbind].
  rewrite index_from_first by exact Hmention. cbn [rbind].
  replace (0 + String.length mention + 2)%nat
    with (String.length mention + 2)%nat by lia.
  rewrite drop_append. cbn [Str.drop].
  destruct (Str.lower rest) as [|l0 lowered] eqn:Hlower; [discriminate|].
  cbn [route options]. rewrite Hping. reflexivity.
Qed.

Lemma ping_is_answered_in_any_case_witness :
  process_message [] (fun _ => []) None shouted_ping_event empty_world
    = client.post (JStr "C1") (Lit "PONG") empty_world.
Proof.
  exact (ping_is_answered_in_any_case [] (fun _ => []) None shouted_ping_event
           _ "<@U1" "PiNg please" " " empty_world
           eq_refl eq_refl eq_refl eq_refl eq_refl).
Defined.

(** ** The info command without data *)

(** Asked for the summary while the summary is empty, both versions of the
    info command raise [ValueError], the error of the table formatter, and
    post nothing; so does [send_info] for a resolved user whose serialized
    data is empty. *)
Theorem info_without_data_fails
    (VolunteerSerializer : BlossomUser -> list (string * dval))
    (now : datetime) (gamma : BlossomUser -> Z)
    (gamma_at_time : BlossomUser -> datetime -> Z)
    (date_last_active : BlossomUser -> option datetime)
    (user_checks : BlossomUser -> list TranscriptionCheckStatus)
    (transcription_check_reason : BlossomUser -> string)
    (channel : json) (message : string) (w : World) :
  (List.length (Str.split message) = 1%nat ->
   send_info [] VolunteerSerializer channel message w = (Raise ValueError, w) /\
   info_cmd [] now gamma gamma_at_time date_last_active user_checks
            transcription_check_reason channel message w = (Raise ValueError, w)) /\
  (forall summary key name user,
      Str.split message = [key; name] ->
      List.find (fun u => Users.iexact (username u) name) (users w) = Some user ->
      VolunteerSerializer user = [] ->
      send_info summary VolunteerSerializer channel message w = (Raise ValueError, w)).
Proof.
  unfold send_info, info_cmd. split.
  - intros Hlen. destruct (Str.split message) as [|t0 [|t1 tokens]];
      cbn [List.length] in Hlen; try lia. split; reflexivity.
  - intros summary key name user -> Hfind Hdata.
    unfold bind, lift, Users.first_iexact. rewrite Hfind, Hdata. reflexivity.
Qed.

Lemma info_without_data_fails_witness :
  send_info [] (fun _ => []) (JStr "C1") "info" one_user = (Raise ValueError, one_user) /\
  send_info [("users", Scalar (AInt 1))] (fun _ => []) (JStr "C1") "info SOME.USER" one_user
    = (Raise ValueError, one_user).
Proof.
  pose proof (info_without_data_fails (fun _ => []) (Date.utc 0) (fun _ => 0)
                (fun _ _ => 0)
                (fun _ => None) (fun _ => []) (fun _ => EmptyString) (JStr "C1")) as H.
  split.
  - apply (proj1 (H "info" one_user)). reflexivity.
  - apply (proj2 (H "info SOME.USER" one_user) _ "info" "SOME.USER" some_user);
      reflexivity.
Defined.
